(** * WSL environment discovery: persistence store, converter and façade

    A shallow embedding of
    - [src/managers/wsl/types.ts]                    (the persisted shapes),
    - [src/managers/wsl/wslPersistence.ts]           (class [WslPersistenceManager]),
    - [src/managers/wsl/wslEnvironmentDiscovery.ts]  (class [WslEnvironmentDiscovery]),
    and the properties the specification states about them.

    Modelling conventions.
    - The code is read twice.  Modules [WslPersistenceManager] and
      [WslEnvironmentDiscovery] read it with the types the TypeScript
      declarations give: the result of
      [JSON.parse(content) as WslPersistenceData] is a
      [WslPersistenceData], and an object is looked up by its own
      properties.  Module [Untyped] reads it on the values it meets at
      run time, where the declarations are erased: [JSON.parse] returns
      any JSON value, [o[k]] and [k in o] see [Object.prototype], and a
      read from [null] or [undefined] throws.  The two readings agree on
      documents of the declared shape and on names that are not
      inherited (lemmas [loadData_agrees], [getAllEnvironments_agrees],
      [getEnvironment_agrees], [getWorkspaceEnvironments_agrees]).
    - A JSON object used as a dictionary, and a JavaScript [Map], are the list
      of their own entries in enumeration order.  The keys of an object that
      [JSON.parse] made are pairwise distinct ([NoDup]).
    - [async]/[await] is sequential composition: one query runs from start to
      end before the next one starts.
    - The mutable state is explicit: the store's [cache] field, the disk and
      the log written by [traceInfo]/[traceError].  Exceptions are results
      ([Throw]), and [try]/[catch] is [try_catch].
    - The disk is a flat map from paths to nodes: [fs.ensureDir] looks at
      the one path it is given, and the parent directories it makes are
      not tracked.
    - What Node and the VS Code host provide ([path], [process.platform],
      [JSON.parse], [api.createPythonEnvironmentItem]) is a parameter:
      classes [Platform], [Host], [Js.Runtime].  [Uri.parse] is a
      parameter of [Host]; module [Vscode] has it as VS Code's [URI]
      class defines it. *)

From Stdlib Require Import DecimalString.
From Stdlib Require Floats Uint63.
From stdpp Require Import base option list strings gmap.

Set Default Proof Using "Type".

(** ** Exceptions and results *)

(** A thrown JavaScript value, as far as the code looks at it:
    [`${err}`] and [err instanceof Error ? err.stack : ...]. *)
Record JsError := mkJsError {
  err_text : string;
  err_stack : option string
}.

Inductive Result (A : Type) : Type :=
| Return (a : A)
| Throw (e : JsError).
Arguments Return {A} a.
Arguments Throw {A} e.

(** ** The log *)

Inductive Level := LInfo | LError.

Definition LogEntry : Type := Level * string.

Definition is_error_entry (e : LogEntry) : bool :=
  match e.1 with LError => true | LInfo => false end.

(** [String(n)] for a length or a size. *)
Definition String_of_nat (n : nat) : string :=
  NilZero.string_of_uint (Nat.to_uint n).

(** [a || b] on an optional string: the empty string is falsy. *)
Definition or_else (a : option string) (b : string) : string :=
  match a with
  | Some s => if decide (s = "") then b else s
  | None => b
  end.

(** ** JSON objects used as dictionaries *)

Module JsObject.

(** Own enumerable properties, in enumeration order. *)
Definition t (V : Type) : Type := list (string * V).

(** [o[k]] *)
Fixpoint get {V} (k : string) (o : t V) : option V :=
  match o with
  | [] => None
  | (k', v) :: o' => if decide (k = k') then Some v else get k o'
  end.

(** [k in o] *)
Fixpoint has {V} (k : string) (o : t V) : bool :=
  match o with
  | [] => false
  | (k', _) :: o' => if decide (k = k') then true else has k o'
  end.

(** [Object.keys(o)] *)
Definition keys {V} (o : t V) : list string := o.*1.

(** [Object.entries(o)] *)
Definition entries {V} (o : t V) : list (string * V) := o.

(** [{}] *)
Definition empty {V} : t V := [].

End JsObject.

(** ** JavaScript [Map] with string keys *)

Module JsMap.

(** Entries in insertion order. *)
Definition t (V : Type) : Type := list (string * V).

(** [new Map()] *)
Definition empty {V} : t V := [].

(** [m.set(k, v)]: an existing key keeps its position and takes the new
    value, a new key goes to the end. *)
Fixpoint set {V} (k : string) (v : V) (m : t V) : t V :=
  match m with
  | [] => [(k, v)]
  | (k', v') :: m' =>
      if decide (k = k') then (k, v) :: m' else (k', v') :: set k v m'
  end.

(** [m.get(k)] *)
Definition get {V} (k : string) (m : t V) : option V := JsObject.get k m.

(** [new Map(iterable)]: [set] for each pair, in order. *)
Definition from_entries {V} (l : list (string * V)) : t V :=
  foldl (λ m kv, set kv.1 kv.2 m) empty l.

(** [m.size] *)
Definition size {V} (m : t V) : nat := length m.

(** [m.keys()] *)
Definition keys {V} (m : t V) : list string := m.*1.

End JsMap.

(** ** types.ts *)

(** ['venv' | 'system' | 'other'] *)
Inductive EnvType := venv | system | other.

Definition EnvType_text (t : EnvType) : string :=
  match t with venv => "venv" | system => "system" | other => "other" end.

#[global] Instance EnvType_eq_dec : EqDecision EnvType.
Proof. solve_decision. Defined.

Record WslEnvironmentInfo := mkWslEnvironmentInfo {
  distro : string;
  wslPath : string;
  venvPath : string;
  workspacePath : option string;
  name : string;
  type : EnvType;
  createdAt : string;
  lastUsed : string;
  pythonVersion : option string;
  sysPrefix : string
}.

Record WslPersistenceData := mkWslPersistenceData {
  version : string;
  environments : JsObject.t WslEnvironmentInfo;
  workspaceMapping : JsObject.t (list string)
}.

(** ** The disk *)

(** What stands at a path.  [UnreadableFile e] exists, and reading it
    fails with [e] (permissions, a device error). *)
Inductive Node :=
| Directory
| RegularFile (content : string)
| UnreadableFile (e : JsError).

Definition EEXIST (p : string) : JsError :=
  mkJsError ("Error: EEXIST: file already exists, mkdir '" +:+ p +:+ "'")
            (Some "Error: EEXIST").
Definition EISDIR : JsError :=
  mkJsError "Error: EISDIR: illegal operation on a directory, read"
            (Some "Error: EISDIR").
Definition ENOENT (p : string) : JsError :=
  mkJsError ("Error: ENOENT: no such file or directory, open '" +:+ p +:+ "'")
            (Some "Error: ENOENT").

(** ** State and computations *)

Record State := mkState {
  persistenceFilePath : string;          (* readonly field of the store *)
  cache : option WslPersistenceData;     (* [undefined] is [None] *)
  disk : gmap string Node;
  log : list LogEntry
}.

Definition Comp (A : Type) : Type := State → Result A * State.

Definition ret {A} (a : A) : Comp A := λ s, (Return a, s).

Definition throw {A} (e : JsError) : Comp A := λ s, (Throw e, s).

Definition bind {A B} (m : Comp A) (k : A → Comp B) : Comp B :=
  λ s, match m s with
       | (Return a, s') => k a s'
       | (Throw e, s') => (Throw e, s')
       end.

(** [try { m } catch (e) { h e }]: what [m] did before it threw stays. *)
Definition try_catch {A} (m : Comp A) (h : JsError → Comp A) : Comp A :=
  λ s, match m s with
       | (Return a, s') => (Return a, s')
       | (Throw e, s') => h e s'
       end.

#[global] Instance Comp_ret : MRet Comp := @ret.
#[global] Instance Comp_bind : MBind Comp := λ A B k m, bind m k.

Definition set_log (l : list LogEntry) (s : State) : State :=
  mkState (persistenceFilePath s) (cache s) (disk s) l.
Definition set_cache (c : option WslPersistenceData) (s : State) : State :=
  mkState (persistenceFilePath s) c (disk s) (log s).
Definition set_disk (d : gmap string Node) (s : State) : State :=
  mkState (persistenceFilePath s) (cache s) d (log s).

Definition traceInfo (msg : string) : Comp unit :=
  λ s, (Return tt, set_log (log s ++ [(LInfo, msg)]) s).
Definition traceError (msg : string) : Comp unit :=
  λ s, (Return tt, set_log (log s ++ [(LError, msg)]) s).

(** [this.cache], [this.cache = c], [this.persistenceFilePath] *)
Definition read_cache : Comp (option WslPersistenceData) :=
  λ s, (Return (cache s), s).
Definition write_cache (c : option WslPersistenceData) : Comp unit :=
  λ s, (Return tt, set_cache c s).
Definition read_persistenceFilePath : Comp string :=
  λ s, (Return (persistenceFilePath s), s).

(** *** fs-extra *)

(** [fs.ensureDir(d)]: nothing to do for a directory, a new directory
    where nothing stands, [EEXIST] where a file stands. *)
Definition ensureDir (d : string) : Comp unit :=
  λ s, match disk s !! d with
       | Some Directory => (Return tt, s)
       | Some _ => (Throw (EEXIST d), s)
       | None => (Return tt, set_disk (<[d := Directory]> (disk s)) s)
       end.

(** [fs.pathExists(p)]: never rejects. *)
Definition pathExists (p : string) : Comp bool :=
  λ s, (Return (bool_decide (is_Some (disk s !! p))), s).

(** [fs.readFile(p, 'utf-8')] *)
Definition readFile (p : string) : Comp string :=
  λ s, match disk s !! p with
       | Some (RegularFile content) => (Return content, s)
       | Some (UnreadableFile e) => (Throw e, s)
       | Some Directory => (Throw EISDIR, s)
       | None => (Throw (ENOENT p), s)
       end.

(** ** What Node provides *)

Class Platform := {
  (** [process.platform] *)
  process_platform : string;
  (** [path.dirname], [path.normalize] *)
  path_dirname : string → string;
  path_normalize : string → string;
  (** [String.prototype.toLowerCase] *)
  toLowerCase : string → string;
  (** [JSON.parse(content) as WslPersistenceData]: a [SyntaxError] is a
      [Throw]. *)
  JSON_parse : string → Result WslPersistenceData;
  (** The object [JSON.parse] makes has every key once. *)
  JSON_parse_distinct_keys :
    ∀ content data,
      JSON_parse content = Return data →
      NoDup (JsObject.keys (environments data))
}.

(** A result of a library call, run as a step of a computation. *)
Definition lift {A} (r : Result A) : Comp A := λ s, (r, s).

(** ** wslPersistence.ts: class [WslPersistenceManager] *)

Module WslPersistenceManager.
Section Methods.
Context {platform : Platform}.

Definition CURRENT_VERSION : string := "1.0".

Definition createEmptyData : WslPersistenceData :=
  {| version := CURRENT_VERSION;
     environments := JsObject.empty;
     workspaceMapping := JsObject.empty |}.

Definition normalizePath (filePath : string) : string :=
  let normalized := path_normalize filePath in
  if decide (process_platform = "win32") then toLowerCase normalized
  else normalized.

Definition loadData : Comp WslPersistenceData :=
  cached ← read_cache;
  match cached with
  | Some data =>
      traceInfo ("[WSL Persistence] Returning cached data ("
                 +:+ String_of_nat (length (JsObject.keys (environments data)))
                 +:+ " environments)");;
      mret data
  | None =>
      p ← read_persistenceFilePath;
      traceInfo ("[WSL Persistence] Loading data from: " +:+ p);;
      try_catch
        (ensureDir (path_dirname p);;
         traceInfo ("[WSL Persistence] Directory ensured: " +:+ path_dirname p);;
         found ← pathExists p;
         if (found : bool) then
           traceInfo "[WSL Persistence] File exists, reading...";;
           content ← readFile p;
           data ← lift (JSON_parse content);
           if decide (version data ≠ CURRENT_VERSION) then
             traceInfo ("[WSL Persistence] Version mismatch. Expected "
                        +:+ CURRENT_VERSION +:+ ", got " +:+ version data
                        +:+ ". Creating new file.");;
             mret createEmptyData
           else
             write_cache (Some data);;
             traceInfo ("[WSL Persistence] Loaded "
                        +:+ String_of_nat (length (JsObject.keys (environments data)))
                        +:+ " environments from disk");;
             mret data
         else
           traceInfo "[WSL Persistence] File does not exist, returning empty data";;
           mret createEmptyData)
        (λ error,
           traceError ("[WSL Persistence] Error loading data: " +:+ err_text error);;
           mret createEmptyData)
  end.

Definition getAllEnvironments : Comp (JsMap.t WslEnvironmentInfo) :=
  data ← loadData;
  mret (JsMap.from_entries (JsObject.entries (environments data))).

(** The [for (const envId of envIds)] loop of [getWorkspaceEnvironments];
    [acc] is the array [environments] pushed to. *)
Fixpoint collectEnvironments (data : WslPersistenceData) (envIds : list string)
    (acc : list WslEnvironmentInfo) : Comp (list WslEnvironmentInfo) :=
  match envIds with
  | [] => mret acc
  | envId :: rest =>
      acc' ← match JsObject.get envId (environments data) with
             | Some env =>
                 traceInfo ("[WSL Persistence] Loaded environment: " +:+ envId);;
                 mret (acc ++ [env])
             | None =>
                 traceInfo ("[WSL Persistence] Environment ID not found in data: "
                            +:+ envId);;
                 mret acc
             end;
      collectEnvironments data rest acc'
  end.

Definition getWorkspaceEnvironments (workspacePath : string)
    : Comp (list WslEnvironmentInfo) :=
  traceInfo ("[WSL Persistence] getWorkspaceEnvironments called for: "
             +:+ workspacePath);;
  data ← loadData;
  let normalizedPath := normalizePath workspacePath in
  traceInfo ("[WSL Persistence] Normalized path: " +:+ normalizedPath);;
  let envIds := default [] (JsObject.get normalizedPath (workspaceMapping data)) in
  traceInfo ("[WSL Persistence] Found " +:+ String_of_nat (length envIds)
             +:+ " environment IDs in mapping");;
  envs ← collectEnvironments data envIds [];
  traceInfo ("[WSL Persistence] Returning " +:+ String_of_nat (length envs)
             +:+ " environments for workspace: " +:+ workspacePath);;
  mret envs.

Definition getEnvironment (envId : string) : Comp (option WslEnvironmentInfo) :=
  data ← loadData;
  mret (JsObject.get envId (environments data)).

Definition hasEnvironment (envId : string) : Comp bool :=
  data ← loadData;
  mret (JsObject.has envId (environments data)).

Definition getPersistenceFilePath : Comp string := read_persistenceFilePath.

Definition clearCache : Comp unit := write_cache None.

End Methods.
End WslPersistenceManager.

(** ** api.ts: the shapes the converter fills in *)

Module Api.

Record PythonCommandRunConfiguration := mkCommand {
  executable : string;
  args : list string
}.

Record ExecInfo := mkExecInfo {
  run : PythonCommandRunConfiguration;
  activation : option (list PythonCommandRunConfiguration);
  shellActivation : option (JsMap.t (list PythonCommandRunConfiguration));
  deactivation : option (list PythonCommandRunConfiguration)
}.

Record Group := mkGroup {
  group_name : string;
  group_description : string;
  group_tooltip : string
}.

Record PythonEnvironmentInfo (Uri : Type) := mkPythonEnvironmentInfo {
  name : string;
  displayName : string;
  shortDisplayName : string;
  displayPath : string;
  version : string;
  environmentPath : Uri;
  description : string;
  tooltip : string;
  execInfo : ExecInfo;
  sysPrefix : string;
  group : Group
}.
Arguments mkPythonEnvironmentInfo {Uri}.
Arguments name {Uri}.
Arguments displayName {Uri}.
Arguments shortDisplayName {Uri}.
Arguments displayPath {Uri}.
Arguments version {Uri}.
Arguments environmentPath {Uri}.
Arguments description {Uri}.
Arguments tooltip {Uri}.
Arguments execInfo {Uri}.
Arguments sysPrefix {Uri}.
Arguments group {Uri}.

End Api.

(** ** What the VS Code host provides *)

Class Host := {
  Uri : Type;
  (** [Uri.parse(value)] *)
  Uri_parse : string → Result Uri;
  PythonEnvironment : Type;
  EnvironmentManager : Type;
  (** [api.createPythonEnvironmentItem(info, manager)] *)
  createPythonEnvironmentItem :
    Api.PythonEnvironmentInfo Uri → EnvironmentManager → Result PythonEnvironment
}.

(** The methods of the store the façade calls.  The façade is written
    against them, so that a store that throws can be put in its place. *)
Record PersistenceManager := mkPersistenceManager {
  persistence_getAllEnvironments : Comp (JsMap.t WslEnvironmentInfo);
  persistence_getWorkspaceEnvironments : string → Comp (list WslEnvironmentInfo)
}.

Definition WslPersistenceManager_object {platform : Platform} : PersistenceManager :=
  {| persistence_getAllEnvironments := WslPersistenceManager.getAllEnvironments;
     persistence_getWorkspaceEnvironments :=
       WslPersistenceManager.getWorkspaceEnvironments |}.

(** The line feed and the double quote of a template string. *)
Definition LF : string := String (Ascii.ascii_of_nat 10) EmptyString.
Definition DQ : string := String (Ascii.ascii_of_nat 34) EmptyString.

(** ** wslEnvironmentDiscovery.ts: class [WslEnvironmentDiscovery] *)

Module WslEnvironmentDiscovery.
Section Methods.
Context {host : Host}.
(** The constructor's [persistence] and [manager]; [api] is the [Host]. *)
Context (persistence : PersistenceManager) (manager : EnvironmentManager).

Definition generateEnvId (info : WslEnvironmentInfo) : string :=
  "wsl:" +:+ distro info +:+ ":" +:+ wslPath info.

Definition buildActivationCommands (info : WslEnvironmentInfo)
    : list Api.PythonCommandRunConfiguration :=
  let activateScript := venvPath info +:+ "/bin/activate" in
  [ {| Api.executable := "wsl.exe";
       Api.args := ["-d"; distro info; "--"; "bash"; "-c";
                    "source " +:+ DQ +:+ activateScript +:+ DQ] |} ].

Definition buildShellActivation (info : WslEnvironmentInfo)
    : JsMap.t (list Api.PythonCommandRunConfiguration) :=
  let shellActivation := JsMap.empty in
  let activateScript := venvPath info +:+ "/bin/activate" in
  let shellActivation :=
    JsMap.set "bash"
      [ {| Api.executable := "source"; Api.args := [activateScript] |} ]
      shellActivation in
  let shellActivation :=
    JsMap.set "zsh"
      [ {| Api.executable := "source"; Api.args := [activateScript] |} ]
      shellActivation in
  let shellActivation :=
    JsMap.set "fish"
      [ {| Api.executable := "source";
           Api.args := [venvPath info +:+ "/bin/activate.fish"] |} ]
      shellActivation in
  let shellActivation :=
    JsMap.set "pwsh"
      [ {| Api.executable := ".";
           Api.args := [venvPath info +:+ "/bin/Activate.ps1"] |} ]
      shellActivation in
  let shellActivation :=
    JsMap.set "unknown"
      [ {| Api.executable := "source"; Api.args := [activateScript] |} ]
      shellActivation in
  shellActivation.

Definition buildExecutionInfo (info : WslEnvironmentInfo) : Api.ExecInfo :=
  let run := {| Api.executable := "wsl.exe";
                Api.args := ["-d"; distro info; "--"; wslPath info] |} in
  let activation :=
    if decide (type info = venv) then Some (buildActivationCommands info)
    else None in
  let shellActivation :=
    if decide (type info = venv) then Some (buildShellActivation info)
    else None in
  let deactivation :=
    if decide (type info = venv)
    then Some [ {| Api.executable := "deactivate"; Api.args := [] |} ]
    else None in
  {| Api.run := run;
     Api.activation := activation;
     Api.shellActivation := shellActivation;
     Api.deactivation := deactivation |}.

(** The object literal [envInfo] of [convertToPythonEnvironment], given
    the value of [Uri.parse(envId)]. *)
Definition envInfo (info : WslEnvironmentInfo) (environmentPath : Uri)
    : Api.PythonEnvironmentInfo Uri :=
  {| Api.name := name info;
     Api.displayName := name info +:+ " (WSL: " +:+ distro info +:+ ")";
     Api.shortDisplayName := name info;
     Api.displayPath := wslPath info;
     Api.version := or_else (pythonVersion info) "Unknown";
     Api.environmentPath := environmentPath;
     Api.description :=
       "WSL " +:+ EnvType_text (type info) +:+ " environment in " +:+ distro info;
     Api.tooltip :=
       "WSL Path: " +:+ wslPath info +:+ LF +:+ "Distro: " +:+ distro info
       +:+ LF +:+ "Workspace: " +:+ or_else (workspacePath info) "N/A";
     Api.execInfo := buildExecutionInfo info;
     Api.sysPrefix := sysPrefix info;
     Api.group :=
       {| Api.group_name := "WSL";
          Api.group_description :=
            "Windows Subsystem for Linux (" +:+ distro info +:+ ")";
          Api.group_tooltip := "Python environments running in WSL" |} |}.

Definition convertToPythonEnvironment (info : WslEnvironmentInfo)
    (envId : string) : Comp (option PythonEnvironment) :=
  try_catch
    (environmentPath ← lift (Uri_parse envId);
     pythonEnv ← lift (createPythonEnvironmentItem
                         (envInfo info environmentPath) manager);
     mret (Some pythonEnv))
    (λ err,
       traceError ("[WSL Discovery] Error creating PythonEnvironment: "
                   +:+ err_text err);;
       mret None).

(** [err instanceof Error ? err.stack : 'No stack trace'] *)
Definition stack_or_none (err : JsError) : string :=
  default "No stack trace" (err_stack err).

(** The [for (const [envId, info] of wslEnvs)] loop of
    [discoverEnvironments]; [pythonEnvs] is the array pushed to. *)
Fixpoint discoverLoop (wslEnvs : list (string * WslEnvironmentInfo))
    (pythonEnvs : list PythonEnvironment) : Comp (list PythonEnvironment) :=
  match wslEnvs with
  | [] => mret pythonEnvs
  | (envId, info) :: rest =>
      traceInfo ("[WSL Discovery] Processing environment: " +:+ envId);;
      traceInfo ("[WSL Discovery]   - Distro: " +:+ distro info);;
      traceInfo ("[WSL Discovery]   - WSL Path: " +:+ wslPath info);;
      traceInfo ("[WSL Discovery]   - Workspace: "
                 +:+ or_else (workspacePath info) "N/A");;
      pythonEnvs' ←
        try_catch
          (pythonEnv ← convertToPythonEnvironment info envId;
           match pythonEnv with
           | Some pe =>
               traceInfo ("[WSL Discovery] Successfully converted environment: "
                          +:+ envId);;
               mret (pythonEnvs ++ [pe])
           | None =>
               traceInfo
                 ("[WSL Discovery] Failed to convert environment (returned undefined): "
                  +:+ envId);;
               mret pythonEnvs
           end)
          (λ err,
             traceError ("[WSL Discovery] Error converting environment "
                         +:+ envId +:+ ": " +:+ err_text err);;
             traceError ("[WSL Discovery] Error stack: " +:+ stack_or_none err);;
             mret pythonEnvs);
      discoverLoop rest pythonEnvs'
  end.

Definition discoverEnvironments : Comp (list PythonEnvironment) :=
  traceInfo "[WSL Discovery] Starting WSL environment discovery";;
  try_catch
    (traceInfo "[WSL Discovery] Loading all environments from persistence...";;
     wslEnvs ← persistence_getAllEnvironments persistence;
     traceInfo ("[WSL Discovery] Found " +:+ String_of_nat (JsMap.size wslEnvs)
                +:+ " WSL environments in persistence");;
     (if decide (JsMap.size wslEnvs = 0)
      then traceInfo "[WSL Discovery] No environments found in persistence file"
      else mret tt);;
     pythonEnvs ← discoverLoop wslEnvs [];
     traceInfo ("[WSL Discovery] Successfully converted "
                +:+ String_of_nat (length pythonEnvs) +:+ " WSL environments");;
     traceInfo ("[WSL Discovery] Returning "
                +:+ String_of_nat (length pythonEnvs) +:+ " environments");;
     mret pythonEnvs)
    (λ err,
       traceError ("[WSL Discovery] Error discovering WSL environments: "
                   +:+ err_text err);;
       traceError ("[WSL Discovery] Error stack: " +:+ stack_or_none err);;
       mret []).

(** The [for (const info of wslEnvs)] loop of [getWorkspaceEnvironments]. *)
Fixpoint workspaceLoop (wslEnvs : list WslEnvironmentInfo)
    (pythonEnvs : list PythonEnvironment) : Comp (list PythonEnvironment) :=
  match wslEnvs with
  | [] => mret pythonEnvs
  | info :: rest =>
      let envId := generateEnvId info in
      traceInfo ("[WSL Discovery] Converting workspace environment: " +:+ envId);;
      pythonEnv ← convertToPythonEnvironment info envId;
      pythonEnvs' ← match pythonEnv with
                    | Some pe =>
                        traceInfo ("[WSL Discovery] Successfully converted: "
                                   +:+ envId);;
                        mret (pythonEnvs ++ [pe])
                    | None =>
                        traceInfo ("[WSL Discovery] Failed to convert: " +:+ envId);;
                        mret pythonEnvs
                    end;
      workspaceLoop rest pythonEnvs'
  end.

Definition getWorkspaceEnvironments (workspacePath : string)
    : Comp (list PythonEnvironment) :=
  traceInfo ("[WSL Discovery] Getting workspace environments for: "
             +:+ workspacePath);;
  try_catch
    (wslEnvs ← persistence_getWorkspaceEnvironments persistence workspacePath;
     traceInfo ("[WSL Discovery] Found " +:+ String_of_nat (length wslEnvs)
                +:+ " WSL environments for workspace");;
     pythonEnvs ← workspaceLoop wslEnvs [];
     traceInfo ("[WSL Discovery] Returning "
                +:+ String_of_nat (length pythonEnvs) +:+ " workspace environments");;
     mret pythonEnvs)
    (λ err,
       traceError ("[WSL Discovery] Error getting workspace environments: "
                   +:+ err_text err);;
       traceError ("[WSL Discovery] Error stack: " +:+ stack_or_none err);;
       mret []).

End Methods.
End WslEnvironmentDiscovery.


(** ** wslPersistence.ts: the constructor of [WslPersistenceManager] *)

(** What Node provides besides [Platform]: [os.homedir()],
    [process.env.APPDATA] and [path.join]. *)
Class NodeOs := {
  os_homedir : string;
  process_env_APPDATA : option string;
  path_join : list string → string
}.

(** [this.persistenceFilePath = p] *)
Definition write_persistenceFilePath (p : string) : Comp unit :=
  λ s, (Return tt,
        {| persistenceFilePath := p; cache := cache s; disk := disk s;
           log := log s |}).

Section Constructor.
Context {platform : Platform} {nodeos : NodeOs}.

(** The fallback file of the constructor's [else] branch:
    [path.join(appDataDir, 'wsl-environments.json')]. *)
Definition fallbackPersistenceFilePath : string :=
  let appDataDir :=
    if decide (process_platform = "win32") then
      let appDataDir :=
        or_else process_env_APPDATA
          (path_join [os_homedir; "AppData"; "Roaming"]) in
      path_join [appDataDir; "vscode-python"]
    else if decide (process_platform = "darwin") then
      path_join [os_homedir; "Library"; "Application Support"; "vscode-python"]
    else
      path_join [os_homedir; ".local"; "share"; "vscode-python"] in
  path_join [appDataDir; "wsl-environments.json"].

(** [new WslPersistenceManager(customPath)]: the fields of the new
    store take the place of the old ones; [cache] starts [undefined]. *)
Definition WslPersistenceManager_constructor (customPath : option string)
    : Comp unit :=
  write_cache None;;
  match customPath with
  | Some p =>
      if decide (p = "") then
        write_persistenceFilePath fallbackPersistenceFilePath;;
        traceInfo ("[WSL Persistence] Using fallback persistence file path: "
                   +:+ fallbackPersistenceFilePath)
      else write_persistenceFilePath p
  | None =>
      write_persistenceFilePath fallbackPersistenceFilePath;;
      traceInfo ("[WSL Persistence] Using fallback persistence file path: "
                 +:+ fallbackPersistenceFilePath)
  end.

End Constructor.

(** ** The registration of the WSL features: [registerWslFeatures] *)

(** The object literal [wslPseudoManager]. *)
Record PseudoManager := mkPseudoManager {
  pm_name : string;
  pm_displayName : string;
  pm_preferredPackageManagerId : string;
  pm_description : string
}.

Definition wslPseudoManager : PseudoManager :=
  {| pm_name := "wsl";
     pm_displayName := "WSL";
     pm_preferredPackageManagerId := "ms-python.python:pip";
     pm_description := "Windows Subsystem for Linux Python environments" |}.

(** What the caller hands to [registerWslFeatures]: the extension
    context, the output channel, and how the host reads the pseudo
    manager that is passed as [any]. *)
Class Registration {host : Host} := {
  (** [context.globalStorageUri] *)
  context_globalStorageUri : Uri;
  (** [Uri.joinPath(base, ...segments)] and [uri.fsPath] *)
  Uri_joinPath : Uri → list string → Result Uri;
  Uri_fsPath : Uri → string;
  (** [log.error(message)] *)
  log_error : string → Comp unit;
  (** the manager the host sees in [wslPseudoManager] *)
  manager_of_any : PseudoManager → EnvironmentManager
}.

Section Registration.
Context {platform : Platform} {nodeos : NodeOs} {host : Host}
  {registration : Registration}.

Definition registerWslFeatures : Comp unit :=
  try_catch
    (traceInfo "[WSL] Registering WSL environment discovery features";;
     uri ← lift (Uri_joinPath context_globalStorageUri ["wsl-environments.json"]);
     let wslStoragePath := Uri_fsPath uri in
     traceInfo ("[WSL] Creating persistence manager with path: "
                +:+ wslStoragePath);;
     WslPersistenceManager_constructor (Some wslStoragePath);;
     p ← WslPersistenceManager.getPersistenceFilePath;
     traceInfo ("[WSL] Using persistence file: " +:+ p);;
     wslEnvironments ←
       WslEnvironmentDiscovery.discoverEnvironments WslPersistenceManager_object
         (manager_of_any wslPseudoManager);
     if decide (0 < length wslEnvironments) then
       traceInfo ("[WSL] Discovered " +:+ String_of_nat (length wslEnvironments)
                  +:+ " WSL environments")
     else traceInfo "[WSL] No WSL environments found in persistence")
    (λ error,
       log_error ("[WSL] Error registering WSL features: " +:+ err_text error);;
       traceInfo "[WSL] WSL features registration failed, continuing without WSL support").

End Registration.

(** * The code on the values JavaScript has at run time

    The TypeScript declarations are erased when the code runs:
    [JSON.parse(content) as WslPersistenceData] is whatever JSON value the
    text denotes, a property read [o[k]] and the test [k in o] look through
    the prototype chain, and a read from [null] or [undefined] throws a
    [TypeError].  Module [Js] has these values and operations, module
    [Untyped] the store and the façade over them, statement by statement
    as in the source.  The sections above are the same code on documents
    of the declared shape and on keys that are own properties. *)

#[global] Instance Result_ret : MRet Result := @Return.
#[global] Instance Result_bind : MBind Result :=
  λ A B k m, match m with Return a => k a | Throw e => Throw e end.
#[global] Instance Result_fmap : FMap Result :=
  λ A B f m, match m with Return a => Return (f a) | Throw e => Throw e end.

Module Js.

(** A JSON value, [undefined], or a built-in found on a prototype (a
    function such as [Object.prototype.toString], or the object
    [Object.prototype] itself), known by what [String(v)] gives. *)
#[warnings="-register-all"]
Inductive Value :=
| Undefined
| Null
| Bool (b : bool)
| Number (n : PrimFloat.float)
| Str (s : string)
| Array (items : list Value)
| Object (props : list (string * Value))
| Builtin (text : string).

Definition TypeError (msg : string) : JsError :=
  mkJsError ("TypeError: " +:+ msg) (Some ("TypeError: " +:+ msg)).

(** The number of a length. *)
Definition Number_of_nat (n : nat) : PrimFloat.float :=
  PrimFloat.of_uint63 (Uint63.of_Z (Z.of_nat n)).

(** What the engine provides and the model does not spell out. *)
Class Runtime := {
  (** [JSON.parse(text)]: a [SyntaxError] is a [Throw]; the own
      properties of an object are listed in enumeration order. *)
  JSON_parse_value : string → Result Value;
  (** [String(n)] for a number *)
  Number_toString : PrimFloat.float → string;
  (** [v[k]] for what is not an own property of a JSON array and not a
      member of a plain object: the members of [Array.prototype],
      [String.prototype], [Number.prototype], [Boolean.prototype] and
      [Function.prototype], the characters and the length of a string,
      the own members of a built-in. *)
  inherited : Value → string → option Value;
  (** [Object.entries(s)] and the values [for (const c of s)] goes
      through, for a string [s] *)
  String_entries : string → list (string * Value);
  String_iterate : string → list string
}.

(** The members of [Object.prototype], which every plain object
    inherits. *)
Definition Object_prototype : list (string * Value) :=
  [ ("constructor", Builtin "function Object() { [native code] }");
    ("__defineGetter__", Builtin "function __defineGetter__() { [native code] }");
    ("__defineSetter__", Builtin "function __defineSetter__() { [native code] }");
    ("hasOwnProperty", Builtin "function hasOwnProperty() { [native code] }");
    ("__lookupGetter__", Builtin "function __lookupGetter__() { [native code] }");
    ("__lookupSetter__", Builtin "function __lookupSetter__() { [native code] }");
    ("isPrototypeOf", Builtin "function isPrototypeOf() { [native code] }");
    ("propertyIsEnumerable",
     Builtin "function propertyIsEnumerable() { [native code] }");
    ("toString", Builtin "function toString() { [native code] }");
    ("valueOf", Builtin "function valueOf() { [native code] }");
    ("__proto__", Builtin "[object Object]");
    ("toLocaleString", Builtin "function toLocaleString() { [native code] }") ].

(** [Boolean(v)] *)
Definition truthy (v : Value) : bool :=
  match v with
  | Undefined | Null => false
  | Bool b => b
  | Number n => negb (PrimFloat.eqb n PrimFloat.zero || PrimFloat.is_nan n)
  | Str s => negb (bool_decide (s = ""))
  | Array _ | Object _ | Builtin _ => true
  end.

(** [a || b] *)
Definition or (a b : Value) : Value := if truthy a then a else b.

(** [v === s] for a string [s] *)
Definition is_string (s : string) (v : Value) : bool :=
  match v with
  | Str s' => bool_decide (s' = s)
  | _ => false
  end.

(** The element of an array under the property name [k]; [i] is the
    index of the first item of [items]. *)
Fixpoint element (k : string) (items : list Value) (i : nat) : option Value :=
  match items with
  | [] => None
  | x :: rest =>
      if decide (k = String_of_nat i) then Some x else element k rest (S i)
  end.

(** The own property [k] of a JSON array or a plain object. *)
Definition own (v : Value) (k : string) : option Value :=
  match v with
  | Object props => JsObject.get k props
  | Array items =>
      if decide (k = "length") then Some (Number (Number_of_nat (length items)))
      else element k items 0
  | _ => None
  end.

Section Operations.
Context {runtime : Runtime}.

(** What the prototype chain of [v] has under [k]. *)
Definition prototype_member (v : Value) (k : string) : option Value :=
  match v with
  | Object _ => JsObject.get k Object_prototype
  | _ => inherited v k
  end.

(** [v[k]] and [v.k] *)
Definition get (v : Value) (k : string) : Result Value :=
  match v with
  | Undefined =>
      Throw (TypeError ("Cannot read properties of undefined (reading '"
                        +:+ k +:+ "')"))
  | Null =>
      Throw (TypeError ("Cannot read properties of null (reading '"
                        +:+ k +:+ "')"))
  | _ =>
      Return (match own v k with
              | Some x => x
              | None => default Undefined (prototype_member v k)
              end)
  end.

(** [k in v] *)
Definition has (k : string) (v : Value) : Result bool :=
  match v with
  | Object _ | Array _ | Builtin _ =>
      Return (bool_decide (is_Some (own v k))
              || bool_decide (is_Some (prototype_member v k)))
  | _ =>
      Throw (TypeError ("Cannot use 'in' operator to search for '" +:+ k +:+ "'"))
  end.

(** [Object.entries(v)] *)
Definition entries (v : Value) : Result (list (string * Value)) :=
  match v with
  | Undefined | Null =>
      Throw (TypeError "Cannot convert undefined or null to object")
  | Object props => Return props
  | Array items => Return (imap (λ i x, (String_of_nat i, x)) items)
  | Str s => Return (String_entries s)
  | Bool _ | Number _ | Builtin _ => Return []
  end.

(** [Object.keys(v)] *)
Definition keys (v : Value) : Result (list string) :=
  l ← entries v; mret (l.*1).

(** The values [for (const x of v)] goes through; [what] is the text of
    the expression, for the message. *)
Definition iterate (what : string) (v : Value) : Result (list Value) :=
  match v with
  | Array items => Return items
  | Str s => Return (Str <$> String_iterate s)
  | _ => Throw (TypeError (what +:+ " is not iterable"))
  end.

(** [String(v)] and [`${v}`].  An object whose own [toString] is a JSON
    value has no callable conversion left; an array joins its items,
    [null] and [undefined] as the empty string. *)
Fixpoint ToString (v : Value) : Result string :=
  match v with
  | Undefined => Return "undefined"
  | Null => Return "null"
  | Bool b => Return (if b then "true" else "false")
  | Number n => Return (Number_toString n)
  | Str s => Return s
  | Array items =>
      texts ← (fix join (l : list Value) : Result (list string) :=
                 match l with
                 | [] => Return []
                 | x :: rest =>
                     text ← match x with
                            | Undefined | Null => Return ""
                            | _ => ToString x
                            end;
                     texts ← join rest;
                     mret (text :: texts)
                 end) items;
      mret (String.concat "," texts)
  | Object props =>
      if JsObject.has "toString" props
      then Throw (TypeError "Cannot convert object to primitive value")
      else Return "[object Object]"
  | Builtin text => Return text
  end.

(** [v[key]] for a computed key *)
Definition get_at (v key : Value) : Result Value :=
  match v with
  | Undefined => Throw (TypeError "Cannot read properties of undefined")
  | Null => Throw (TypeError "Cannot read properties of null")
  | _ => k ← ToString key; get v k
  end.

End Operations.
End Js.

Module Untyped.

(** ** State and computations *)

Record State := mkState {
  persistenceFilePath : string;          (* readonly field of the store *)
  cache : Js.Value;                      (* [undefined] until a load sets it *)
  disk : gmap string Node;
  log : list LogEntry
}.

Definition Comp (A : Type) : Type := State → Result A * State.

Definition ret {A} (a : A) : Comp A := λ s, (Return a, s).

Definition throw {A} (e : JsError) : Comp A := λ s, (Throw e, s).

Definition bind {A B} (m : Comp A) (k : A → Comp B) : Comp B :=
  λ s, match m s with
       | (Return a, s') => k a s'
       | (Throw e, s') => (Throw e, s')
       end.

(** [try { m } catch (e) { h e }]: what [m] did before it threw stays. *)
Definition try_catch {A} (m : Comp A) (h : JsError → Comp A) : Comp A :=
  λ s, match m s with
       | (Return a, s') => (Return a, s')
       | (Throw e, s') => h e s'
       end.

#[global] Instance Comp_ret : MRet Comp := @ret.
#[global] Instance Comp_bind : MBind Comp := λ A B k m, bind m k.

(** A result of a library call, run as a step of a computation. *)
Definition lift {A} (r : Result A) : Comp A := λ s, (r, s).

Definition set_log (l : list LogEntry) (s : State) : State :=
  mkState (persistenceFilePath s) (cache s) (disk s) l.
Definition set_cache (c : Js.Value) (s : State) : State :=
  mkState (persistenceFilePath s) c (disk s) (log s).
Definition set_disk (d : gmap string Node) (s : State) : State :=
  mkState (persistenceFilePath s) (cache s) d (log s).

Definition traceInfo (msg : string) : Comp unit :=
  λ s, (Return tt, set_log (log s ++ [(LInfo, msg)]) s).
Definition traceError (msg : string) : Comp unit :=
  λ s, (Return tt, set_log (log s ++ [(LError, msg)]) s).

(** [this.cache], [this.cache = c], [this.persistenceFilePath] *)
Definition read_cache : Comp Js.Value := λ s, (Return (cache s), s).
Definition write_cache (c : Js.Value) : Comp unit :=
  λ s, (Return tt, set_cache c s).
Definition read_persistenceFilePath : Comp string :=
  λ s, (Return (persistenceFilePath s), s).

(** *** fs-extra *)

(** [fs.ensureDir(d)]: nothing to do for a directory, a new directory
    where nothing stands, [EEXIST] where a file stands. *)
Definition ensureDir (d : string) : Comp unit :=
  λ s, match disk s !! d with
       | Some Directory => (Return tt, s)
       | Some _ => (Throw (EEXIST d), s)
       | None => (Return tt, set_disk (<[d := Directory]> (disk s)) s)
       end.

(** [fs.pathExists(p)]: never rejects. *)
Definition pathExists (p : string) : Comp bool :=
  λ s, (Return (bool_decide (is_Some (disk s !! p))), s).

(** [fs.readFile(p, 'utf-8')] *)
Definition readFile (p : string) : Comp string :=
  λ s, match disk s !! p with
       | Some (RegularFile content) => (Return content, s)
       | Some (UnreadableFile e) => (Throw e, s)
       | Some Directory => (Throw EISDIR, s)
       | None => (Throw (ENOENT p), s)
       end.

(** ** wslPersistence.ts: class [WslPersistenceManager] *)

Module WslPersistenceManager.
Section Methods.
Context {platform : Platform} {runtime : Js.Runtime}.

Definition CURRENT_VERSION : string := "1.0".

Definition createEmptyData : Js.Value :=
  Js.Object [ ("version", Js.Str CURRENT_VERSION);
              ("environments", Js.Object []);
              ("workspaceMapping", Js.Object []) ].

Definition normalizePath (filePath : string) : string :=
  let normalized := path_normalize filePath in
  if decide (process_platform = "win32") then toLowerCase normalized
  else normalized.

Definition loadData : Comp Js.Value :=
  cached ← read_cache;
  if Js.truthy cached then
    environments ← lift (Js.get cached "environments");
    envIds ← lift (Js.keys environments);
    traceInfo ("[WSL Persistence] Returning cached data ("
               +:+ String_of_nat (length envIds) +:+ " environments)");;
    mret cached
  else
    p ← read_persistenceFilePath;
    traceInfo ("[WSL Persistence] Loading data from: " +:+ p);;
    try_catch
      (ensureDir (path_dirname p);;
       traceInfo ("[WSL Persistence] Directory ensured: " +:+ path_dirname p);;
       found ← pathExists p;
       if (found : bool) then
         traceInfo "[WSL Persistence] File exists, reading...";;
         content ← readFile p;
         data ← lift (Js.JSON_parse_value content);
         version ← lift (Js.get data "version");
         if negb (Js.is_string CURRENT_VERSION version) then
           got ← lift (Js.ToString version);
           traceInfo ("[WSL Persistence] Version mismatch. Expected "
                      +:+ CURRENT_VERSION +:+ ", got " +:+ got
                      +:+ ". Creating new file.");;
           mret createEmptyData
         else
           write_cache data;;
           environments ← lift (Js.get data "environments");
           envIds ← lift (Js.keys environments);
           traceInfo ("[WSL Persistence] Loaded "
                      +:+ String_of_nat (length envIds)
                      +:+ " environments from disk");;
           mret data
       else
         traceInfo "[WSL Persistence] File does not exist, returning empty data";;
         mret createEmptyData)
      (λ error,
         traceError ("[WSL Persistence] Error loading data: " +:+ err_text error);;
         mret createEmptyData).

Definition getAllEnvironments : Comp (JsMap.t Js.Value) :=
  data ← loadData;
  environments ← lift (Js.get data "environments");
  entries ← lift (Js.entries environments);
  mret (JsMap.from_entries entries).

(** The [for (const envId of envIds)] loop of [getWorkspaceEnvironments];
    [acc] is the array [environments] pushed to. *)
Fixpoint collectEnvironments (data : Js.Value) (envIds : list Js.Value)
    (acc : list Js.Value) : Comp (list Js.Value) :=
  match envIds with
  | [] => mret acc
  | envId :: rest =>
      environments ← lift (Js.get data "environments");
      env ← lift (Js.get_at environments envId);
      acc' ← (if Js.truthy env then
                text ← lift (Js.ToString envId);
                traceInfo ("[WSL Persistence] Loaded environment: " +:+ text);;
                mret (acc ++ [env])
              else
                text ← lift (Js.ToString envId);
                traceInfo ("[WSL Persistence] Environment ID not found in data: "
                           +:+ text);;
                mret acc);
      collectEnvironments data rest acc'
  end.

Definition getWorkspaceEnvironments (workspacePath : string)
    : Comp (list Js.Value) :=
  traceInfo ("[WSL Persistence] getWorkspaceEnvironments called for: "
             +:+ workspacePath);;
  data ← loadData;
  let normalizedPath := normalizePath workspacePath in
  traceInfo ("[WSL Persistence] Normalized path: " +:+ normalizedPath);;
  workspaceMapping ← lift (Js.get data "workspaceMapping");
  listed ← lift (Js.get workspaceMapping normalizedPath);
  let envIds := Js.or listed (Js.Array []) in
  n ← lift (Js.get envIds "length");
  found ← lift (Js.ToString n);
  traceInfo ("[WSL Persistence] Found " +:+ found
             +:+ " environment IDs in mapping");;
  items ← lift (Js.iterate "envIds" envIds);
  environments ← collectEnvironments data items [];
  traceInfo ("[WSL Persistence] Returning "
             +:+ String_of_nat (length environments)
             +:+ " environments for workspace: " +:+ workspacePath);;
  mret environments.

Definition getEnvironment (envId : string) : Comp Js.Value :=
  data ← loadData;
  environments ← lift (Js.get data "environments");
  lift (Js.get environments envId).

Definition hasEnvironment (envId : string) : Comp bool :=
  data ← loadData;
  environments ← lift (Js.get data "environments");
  lift (Js.has envId environments).

Definition getPersistenceFilePath : Comp string := read_persistenceFilePath.

Definition clearCache : Comp unit := write_cache Js.Undefined.

End Methods.
End WslPersistenceManager.

(** ** api.ts: the shapes the converter fills in, with the values the
    record gives *)

Module Api.

Record PythonCommandRunConfiguration := mkCommand {
  executable : string;
  args : list Js.Value
}.

Record ExecInfo := mkExecInfo {
  run : PythonCommandRunConfiguration;
  activation : option (list PythonCommandRunConfiguration);
  shellActivation : option (JsMap.t (list PythonCommandRunConfiguration));
  deactivation : option (list PythonCommandRunConfiguration)
}.

Record Group := mkGroup {
  group_name : string;
  group_description : string;
  group_tooltip : string
}.

Record PythonEnvironmentInfo (Uri : Type) := mkPythonEnvironmentInfo {
  name : Js.Value;
  displayName : string;
  shortDisplayName : Js.Value;
  displayPath : Js.Value;
  version : Js.Value;
  environmentPath : Uri;
  description : string;
  tooltip : string;
  execInfo : ExecInfo;
  sysPrefix : Js.Value;
  group : Group
}.
Arguments mkPythonEnvironmentInfo {Uri}.
Arguments name {Uri}.
Arguments displayName {Uri}.
Arguments shortDisplayName {Uri}.
Arguments displayPath {Uri}.
Arguments version {Uri}.
Arguments environmentPath {Uri}.
Arguments description {Uri}.
Arguments tooltip {Uri}.
Arguments execInfo {Uri}.
Arguments sysPrefix {Uri}.
Arguments group {Uri}.

End Api.

(** ** What the VS Code host provides *)

Class Host := {
  Uri : Type;
  (** [Uri.parse(value)] *)
  Uri_parse : string → Result Uri;
  PythonEnvironment : Type;
  EnvironmentManager : Type;
  (** [api.createPythonEnvironmentItem(info, manager)] *)
  createPythonEnvironmentItem :
    Api.PythonEnvironmentInfo Uri → EnvironmentManager → Result PythonEnvironment
}.

(** The methods of the store the façade calls. *)
Record PersistenceManager := mkPersistenceManager {
  persistence_getAllEnvironments : Comp (JsMap.t Js.Value);
  persistence_getWorkspaceEnvironments : string → Comp (list Js.Value)
}.

Definition WslPersistenceManager_object {platform : Platform}
    {runtime : Js.Runtime} : PersistenceManager :=
  {| persistence_getAllEnvironments := WslPersistenceManager.getAllEnvironments;
     persistence_getWorkspaceEnvironments :=
       WslPersistenceManager.getWorkspaceEnvironments |}.

(** ** wslEnvironmentDiscovery.ts: class [WslEnvironmentDiscovery] *)

Module WslEnvironmentDiscovery.
Section Methods.
Context {runtime : Js.Runtime} {host : Host}.
(** The constructor's [persistence] and [manager]; [api] is the [Host]. *)
Context (persistence : PersistenceManager) (manager : EnvironmentManager).

Definition generateEnvId (info : Js.Value) : Result string :=
  distro ← Js.get info "distro";
  distro ← Js.ToString distro;
  wslPath ← Js.get info "wslPath";
  wslPath ← Js.ToString wslPath;
  mret ("wsl:" +:+ distro +:+ ":" +:+ wslPath).

(** [`${info.venvPath}/bin/activate`] *)
Definition activateScript (info : Js.Value) : Result string :=
  venvPath ← Js.get info "venvPath";
  venvPath ← Js.ToString venvPath;
  mret (venvPath +:+ "/bin/activate").

Definition buildActivationCommands (info : Js.Value)
    : Result (list Api.PythonCommandRunConfiguration) :=
  script ← activateScript info;
  distro ← Js.get info "distro";
  mret [ {| Api.executable := "wsl.exe";
            Api.args := [Js.Str "-d"; distro; Js.Str "--"; Js.Str "bash";
                         Js.Str "-c";
                         Js.Str ("source " +:+ DQ +:+ script +:+ DQ)] |} ].

Definition buildShellActivation (info : Js.Value)
    : Result (JsMap.t (list Api.PythonCommandRunConfiguration)) :=
  let shellActivation := JsMap.empty in
  script ← activateScript info;
  let shellActivation :=
    JsMap.set "bash"
      [ {| Api.executable := "source"; Api.args := [Js.Str script] |} ]
      shellActivation in
  let shellActivation :=
    JsMap.set "zsh"
      [ {| Api.executable := "source"; Api.args := [Js.Str script] |} ]
      shellActivation in
  venvPath ← Js.get info "venvPath";
  venvPath ← Js.ToString venvPath;
  let shellActivation :=
    JsMap.set "fish"
      [ {| Api.executable := "source";
           Api.args := [Js.Str (venvPath +:+ "/bin/activate.fish")] |} ]
      shellActivation in
  venvPath ← Js.get info "venvPath";
  venvPath ← Js.ToString venvPath;
  let shellActivation :=
    JsMap.set "pwsh"
      [ {| Api.executable := ".";
           Api.args := [Js.Str (venvPath +:+ "/bin/Activate.ps1")] |} ]
      shellActivation in
  let shellActivation :=
    JsMap.set "unknown"
      [ {| Api.executable := "source"; Api.args := [Js.Str script] |} ]
      shellActivation in
  mret shellActivation.

(** [info.type === 'venv'] *)
Definition is_venv (info : Js.Value) : Result bool :=
  type ← Js.get info "type"; mret (Js.is_string "venv" type).

Definition buildExecutionInfo (info : Js.Value) : Result Api.ExecInfo :=
  distro ← Js.get info "distro";
  wslPath ← Js.get info "wslPath";
  let run := {| Api.executable := "wsl.exe";
                Api.args := [Js.Str "-d"; distro; Js.Str "--"; wslPath] |} in
  isVenv ← is_venv info;
  activation ← (if (isVenv : bool) then Some <$> buildActivationCommands info
                else mret None);
  isVenv ← is_venv info;
  shellActivation ← (if (isVenv : bool) then Some <$> buildShellActivation info
                     else mret None);
  isVenv ← is_venv info;
  let deactivation :=
    if (isVenv : bool)
    then Some [ {| Api.executable := "deactivate"; Api.args := [] |} ]
    else None in
  mret {| Api.run := run;
          Api.activation := activation;
          Api.shellActivation := shellActivation;
          Api.deactivation := deactivation |}.

(** [`${info.k}`] *)
Definition text_of (info : Js.Value) (k : string) : Result string :=
  v ← Js.get info k; Js.ToString v.

(** [`${info.workspacePath || 'N/A'}`] *)
Definition workspace_text (info : Js.Value) : Result string :=
  workspacePath ← Js.get info "workspacePath";
  Js.ToString (Js.or workspacePath (Js.Str "N/A")).

(** The body of the [try] block of [convertToPythonEnvironment] up to
    the call of the host: [execInfo] and the object literal [envInfo],
    its members evaluated in the order they are written. *)
Definition envInfo (info : Js.Value) (envId : string)
    : Result (Api.PythonEnvironmentInfo Uri) :=
  execInfo ← buildExecutionInfo info;
  name ← Js.get info "name";
  displayName_name ← text_of info "name";
  displayName_distro ← text_of info "distro";
  shortDisplayName ← Js.get info "name";
  displayPath ← Js.get info "wslPath";
  pythonVersion ← Js.get info "pythonVersion";
  environmentPath ← Uri_parse envId;
  description_type ← text_of info "type";
  description_distro ← text_of info "distro";
  tooltip_wslPath ← text_of info "wslPath";
  tooltip_distro ← text_of info "distro";
  tooltip_workspace ← workspace_text info;
  sysPrefix ← Js.get info "sysPrefix";
  group_distro ← text_of info "distro";
  mret {| Api.name := name;
          Api.displayName :=
            displayName_name +:+ " (WSL: " +:+ displayName_distro +:+ ")";
          Api.shortDisplayName := shortDisplayName;
          Api.displayPath := displayPath;
          Api.version := Js.or pythonVersion (Js.Str "Unknown");
          Api.environmentPath := environmentPath;
          Api.description :=
            "WSL " +:+ description_type +:+ " environment in "
            +:+ description_distro;
          Api.tooltip :=
            "WSL Path: " +:+ tooltip_wslPath +:+ LF +:+ "Distro: "
            +:+ tooltip_distro +:+ LF +:+ "Workspace: " +:+ tooltip_workspace;
          Api.execInfo := execInfo;
          Api.sysPrefix := sysPrefix;
          Api.group :=
            {| Api.group_name := "WSL";
               Api.group_description :=
                 "Windows Subsystem for Linux (" +:+ group_distro +:+ ")";
               Api.group_tooltip := "Python environments running in WSL" |} |}.

Definition convertToPythonEnvironment (info : Js.Value) (envId : string)
    : Comp (option PythonEnvironment) :=
  try_catch
    (envInfo ← lift (envInfo info envId);
     pythonEnv ← lift (createPythonEnvironmentItem envInfo manager);
     mret (Some pythonEnv))
    (λ err,
       traceError ("[WSL Discovery] Error creating PythonEnvironment: "
                   +:+ err_text err);;
       mret None).

(** [err instanceof Error ? err.stack : 'No stack trace'] *)
Definition stack_or_none (err : JsError) : string :=
  default "No stack trace" (err_stack err).

(** The [for (const [envId, info] of wslEnvs)] loop of
    [discoverEnvironments]; [pythonEnvs] is the array pushed to.  The
    four log lines read the record before the inner [try] is entered. *)
Fixpoint discoverLoop (wslEnvs : list (string * Js.Value))
    (pythonEnvs : list PythonEnvironment) : Comp (list PythonEnvironment) :=
  match wslEnvs with
  | [] => mret pythonEnvs
  | (envId, info) :: rest =>
      traceInfo ("[WSL Discovery] Processing environment: " +:+ envId);;
      distro ← lift (text_of info "distro");
      traceInfo ("[WSL Discovery]   - Distro: " +:+ distro);;
      wslPath ← lift (text_of info "wslPath");
      traceInfo ("[WSL Discovery]   - WSL Path: " +:+ wslPath);;
      workspace ← lift (workspace_text info);
      traceInfo ("[WSL Discovery]   - Workspace: " +:+ workspace);;
      pythonEnvs' ←
        try_catch
          (pythonEnv ← convertToPythonEnvironment info envId;
           match pythonEnv with
           | Some pe =>
               traceInfo ("[WSL Discovery] Successfully converted environment: "
                          +:+ envId);;
               mret (pythonEnvs ++ [pe])
           | None =>
               traceInfo
                 ("[WSL Discovery] Failed to convert environment (returned undefined): "
                  +:+ envId);;
               mret pythonEnvs
           end)
          (λ err,
             traceError ("[WSL Discovery] Error converting environment "
                         +:+ envId +:+ ": " +:+ err_text err);;
             traceError ("[WSL Discovery] Error stack: " +:+ stack_or_none err);;
             mret pythonEnvs);
      discoverLoop rest pythonEnvs'
  end.

Definition discoverEnvironments : Comp (list PythonEnvironment) :=
  traceInfo "[WSL Discovery] Starting WSL environment discovery";;
  try_catch
    (traceInfo "[WSL Discovery] Loading all environments from persistence...";;
     wslEnvs ← persistence_getAllEnvironments persistence;
     traceInfo ("[WSL Discovery] Found " +:+ String_of_nat (JsMap.size wslEnvs)
                +:+ " WSL environments in persistence");;
     (if decide (JsMap.size wslEnvs = 0)
      then traceInfo "[WSL Discovery] No environments found in persistence file"
      else mret tt);;
     pythonEnvs ← discoverLoop wslEnvs [];
     traceInfo ("[WSL Discovery] Successfully converted "
                +:+ String_of_nat (length pythonEnvs) +:+ " WSL environments");;
     traceInfo ("[WSL Discovery] Returning "
                +:+ String_of_nat (length pythonEnvs) +:+ " environments");;
     mret pythonEnvs)
    (λ err,
       traceError ("[WSL Discovery] Error discovering WSL environments: "
                   +:+ err_text err);;
       traceError ("[WSL Discovery] Error stack: " +:+ stack_or_none err);;
       mret []).

(** The [for (const info of wslEnvs)] loop of [getWorkspaceEnvironments]. *)
Fixpoint workspaceLoop (wslEnvs : list Js.Value)
    (pythonEnvs : list PythonEnvironment) : Comp (list PythonEnvironment) :=
  match wslEnvs with
  | [] => mret pythonEnvs
  | info :: rest =>
      envId ← lift (generateEnvId info);
      traceInfo ("[WSL Discovery] Converting workspace environment: " +:+ envId);;
      pythonEnv ← convertToPythonEnvironment info envId;
      pythonEnvs' ← match pythonEnv with
                    | Some pe =>
                        traceInfo ("[WSL Discovery] Successfully converted: "
                                   +:+ envId);;
                        mret (pythonEnvs ++ [pe])
                    | None =>
                        traceInfo ("[WSL Discovery] Failed to convert: " +:+ envId);;
                        mret pythonEnvs
                    end;
      workspaceLoop rest pythonEnvs'
  end.

Definition getWorkspaceEnvironments (workspacePath : string)
    : Comp (list PythonEnvironment) :=
  traceInfo ("[WSL Discovery] Getting workspace environments for: "
             +:+ workspacePath);;
  try_catch
    (wslEnvs ← persistence_getWorkspaceEnvironments persistence workspacePath;
     traceInfo ("[WSL Discovery] Found " +:+ String_of_nat (length wslEnvs)
                +:+ " WSL environments for workspace");;
     pythonEnvs ← workspaceLoop wslEnvs [];
     traceInfo ("[WSL Discovery] Returning "
                +:+ String_of_nat (length pythonEnvs) +:+ " workspace environments");;
     mret pythonEnvs)
    (λ err,
       traceError ("[WSL Discovery] Error getting workspace environments: "
                   +:+ err_text err);;
       traceError ("[WSL Discovery] Error stack: " +:+ stack_or_none err);;
       mret []).

End Methods.
End WslEnvironmentDiscovery.

End Untyped.

(** * What [vscode] provides: [Uri]

    [Uri.parse] and [Uri.toString] as VS Code's [URI] class has them: a
    value is split by one regular expression into an optional scheme
    (before the first colon), an optional authority (after two slashes),
    a path, an optional query (after a question mark) and an optional
    fragment (after a hash); the components other than the scheme are
    percent-decoded; the string form percent-encodes every character of
    the path that is not unreserved and not a slash. *)

Module Vscode.

Record Uri := mkUri {
  scheme : string;
  authority : string;
  path : string;
  query : string;
  fragment : string
}.

Definition code (c : Ascii.ascii) : nat := Ascii.nat_of_ascii c.

Definition is_code (n : nat) (c : Ascii.ascii) : bool := code c =? n.

Definition between (lo hi : nat) (c : Ascii.ascii) : bool :=
  (lo <=? code c) && (code c <=? hi).

(** [:], [/], [?], [#], [%] *)
Definition is_colon : Ascii.ascii → bool := is_code 58.
Definition is_slash : Ascii.ascii → bool := is_code 47.
Definition is_question : Ascii.ascii → bool := is_code 63.
Definition is_hash : Ascii.ascii → bool := is_code 35.
Definition is_percent : Ascii.ascii → bool := is_code 37.

Definition is_upper : Ascii.ascii → bool := between 65 90.
Definition is_lower : Ascii.ascii → bool := between 97 122.
Definition is_digit : Ascii.ascii → bool := between 48 57.

(** Every character of [s] satisfies [p]. *)
Fixpoint all_chars (p : Ascii.ascii → bool) (s : string) : bool :=
  match s with
  | EmptyString => true
  | String c s' => p c && all_chars p s'
  end.

(** The longest prefix of [s] whose characters satisfy [p], and what
    follows it. *)
Fixpoint span (p : Ascii.ascii → bool) (s : string) : string * string :=
  match s with
  | EmptyString => (EmptyString, EmptyString)
  | String c s' =>
      if p c then let found := span p s' in (String c found.1, found.2)
      else (EmptyString, s)
  end.

(** [s] starts with two slashes. *)
Definition double_slash_start (s : string) : bool :=
  match s with
  | String c1 (String c2 _) => is_slash c1 && is_slash c2
  | _ => false
  end.

(** The scheme and what follows its colon: one or more characters other
    than colon, slash, question mark and hash, and then a colon. *)
Definition match_scheme (value : string) : string * string :=
  let found :=
    span (λ c, negb (is_colon c || is_slash c || is_question c || is_hash c))
      value in
  match found.1, found.2 with
  | String _ _, String c rest => if is_colon c then (found.1, rest)
                                 else (EmptyString, value)
  | _, _ => (EmptyString, value)
  end.

(** The authority and what follows it: after two slashes, the
    characters up to the next slash, question mark or hash. *)
Definition match_authority (s : string) : string * string :=
  match s with
  | String c1 (String c2 rest) =>
      if is_slash c1 && is_slash c2
      then span (λ c, negb (is_slash c || is_question c || is_hash c)) rest
      else (EmptyString, s)
  | _ => (EmptyString, s)
  end.

(** The path and what follows it: the characters up to the next
    question mark or hash. *)
Definition match_path (s : string) : string * string :=
  span (λ c, negb (is_question c || is_hash c)) s.

(** The query and what follows it: after a question mark, the
    characters up to the next hash. *)
Definition match_query (s : string) : string * string :=
  match s with
  | String c rest =>
      if is_question c then span (λ c, negb (is_hash c)) rest
      else (EmptyString, s)
  | EmptyString => (EmptyString, s)
  end.

(** The characters up to the first line terminator, which is a line feed, a
    carriage return, or U+2028 or U+2029 (in UTF-8 the bytes E2 80 A8
    and E2 80 A9). *)
Fixpoint line (s : string) : string :=
  match s with
  | EmptyString => EmptyString
  | String c s' =>
      if is_code 10 c || is_code 13 c then EmptyString
      else if is_code 226 c
                && match s' with
                   | String c2 (String c3 _) =>
                       is_code 128 c2 && (is_code 168 c3 || is_code 169 c3)
                   | _ => false
                   end
      then EmptyString
      else String c (line s')
  end.

(** The fragment: after a hash, the rest of the line. *)
Definition match_fragment (s : string) : string :=
  match s with
  | String c rest => if is_hash c then line rest else EmptyString
  | EmptyString => EmptyString
  end.

(** What the model does not spell out. *)
Class Codec := {
  (** [percentDecode(s)]: the runs of [%xx] decoded *)
  percentDecode : string → string;
  (** A string without a percent sign is left as it is. *)
  percentDecode_plain :
    ∀ s, all_chars (λ c, negb (is_percent c)) s = true → percentDecode s = s;
  (** The authority as the string form writes it: user information and
      port split off, the host in lower case; encoded unless
      [skipEncoding]. *)
  formatAuthority : bool → string → string
}.

Definition UriError (msg : string) : JsError :=
  mkJsError ("Error: [UriError]: " +:+ msg) (Some ("Error: [UriError]: " +:+ msg)).

(** The pattern of a scheme: a letter, a digit or an underscore, and
    then letters, digits, underscores, [+], [.] and [-]. *)
Definition word (c : Ascii.ascii) : bool :=
  is_upper c || is_lower c || is_digit c || is_code 95 c.
Definition schemePattern (s : string) : bool :=
  match s with
  | EmptyString => false
  | String c s' =>
      word c
      && all_chars (λ c, word c || is_code 43 c || is_code 46 c || is_code 45 c) s'
  end.

(** [_schemeFix], not strict *)
Definition schemeFix (scheme : string) : string :=
  if decide (scheme = "") then "file" else scheme.

(** [_referenceResolution] *)
Definition referenceResolution (scheme path : string) : string :=
  if bool_decide (scheme = "https") || bool_decide (scheme = "http")
     || bool_decide (scheme = "file")
  then match path with
       | EmptyString => "/"
       | String c _ => if is_slash c then path else "/" +:+ path
       end
  else path.

Definition single_slash_start (s : string) : bool :=
  match s with
  | String c _ => is_slash c
  | EmptyString => false
  end.

(** [new Uri(scheme, authority, path, query, fragment)], not strict,
    with [_validateUri]. *)
Definition make (scheme authority path query fragment : string) : Result Uri :=
  let scheme := schemeFix scheme in
  let path := referenceResolution scheme path in
  if negb (schemePattern scheme)
  then Throw (UriError "Scheme contains illegal characters.")
  else if negb (bool_decide (path = "")) && negb (bool_decide (authority = ""))
          && negb (single_slash_start path)
  then Throw (UriError "If a URI contains an authority component, then the path component must either be empty or begin with a slash character")
  else if negb (bool_decide (path = "")) && bool_decide (authority = "")
          && double_slash_start path
  then Throw (UriError "If a URI does not contain an authority component, then the path cannot begin with two slash characters")
  else Return (mkUri scheme authority path query fragment).

Section Operations.
Context {codec : Codec}.

(** [Uri.parse(value)] *)
Definition parse (value : string) : Result Uri :=
  let s := match_scheme value in
  let a := match_authority s.2 in
  let p := match_path a.2 in
  let q := match_query p.2 in
  let f := match_fragment q.2 in
  make s.1 (percentDecode a.1) (percentDecode p.1) (percentDecode q.1)
    (percentDecode f).

(** The two hexadecimal digits of a byte, in upper case. *)
Definition hex_digit (n : nat) : Ascii.ascii :=
  Ascii.ascii_of_nat (if n <? 10 then 48 + n else 55 + n).
Definition escape (c : Ascii.ascii) : string :=
  String (Ascii.ascii_of_nat 37)
    (String (hex_digit (code c / 16))
       (String (hex_digit (code c mod 16)) EmptyString)).

(** The characters [encodeURIComponentFast] leaves as they are. *)
Definition unreserved (c : Ascii.ascii) : bool :=
  is_lower c || is_upper c || is_digit c
  || is_code 45 c || is_code 46 c || is_code 95 c || is_code 126 c.

(** [encodeURIComponentFast(s, isPath, isAuthority)] *)
Fixpoint encodeURIComponentFast (isPath isAuthority : bool) (s : string)
    : string :=
  match s with
  | EmptyString => EmptyString
  | String c s' =>
      (if unreserved c
          || (isPath && is_slash c)
          || (isAuthority && (is_code 91 c || is_code 93 c || is_colon c))
       then String c EmptyString
       else escape c)
      +:+ encodeURIComponentFast isPath isAuthority s'
  end.

(** [encodeURIComponentMinimal(s)] *)
Fixpoint encodeURIComponentMinimal (s : string) : string :=
  match s with
  | EmptyString => EmptyString
  | String c s' =>
      (if is_hash c || is_question c then escape c else String c EmptyString)
      +:+ encodeURIComponentMinimal s'
  end.

(** The drive letter of [/C:/...] and of [C:/...] in lower case. *)
Definition lower_drive_letter (path : string) : string :=
  match path with
  | String c1 (String c2 rest) =>
      match rest with
      | String c3 rest' =>
          if is_slash c1 && is_colon c3 then
            if is_upper c2
            then String c1 (String (Ascii.ascii_of_nat (code c2 + 32))
                              (String c3 rest'))
            else path
          else if is_colon c2 then
            if is_upper c1
            then String (Ascii.ascii_of_nat (code c1 + 32)) (String c2 rest)
            else path
          else path
      | EmptyString =>
          if is_colon c2 then
            if is_upper c1
            then String (Ascii.ascii_of_nat (code c1 + 32)) (String c2 rest)
            else path
          else path
      end
  | _ => path
  end.

(** [uri.toString(skipEncoding)] *)
Definition toString (skipEncoding : bool) (uri : Uri) : string :=
  let encoder isPath isAuthority s :=
    if skipEncoding then encodeURIComponentMinimal s
    else encodeURIComponentFast isPath isAuthority s in
  (if decide (scheme uri = "") then "" else scheme uri +:+ ":")
  +:+ (if negb (bool_decide (authority uri = ""))
          || bool_decide (scheme uri = "file")
       then "//" else "")
  +:+ (if decide (authority uri = "") then ""
       else formatAuthority skipEncoding (authority uri))
  +:+ (if decide (path uri = "") then ""
       else encoder true false (lower_drive_letter (path uri)))
  +:+ (if decide (query uri = "") then ""
       else "?" +:+ encoder false false (query uri))
  +:+ (if decide (fragment uri = "") then ""
       else "#" +:+ (if skipEncoding then fragment uri
                     else encodeURIComponentFast false false (fragment uri))).

End Operations.
End Vscode.

(** The host whose [Uri] is that of [vscode]; the items and their
    factory stay a parameter. *)
Definition vscode_host {codec : Vscode.Codec}
    (PythonEnvironment EnvironmentManager : Type)
    (createPythonEnvironmentItem :
       Api.PythonEnvironmentInfo Vscode.Uri → EnvironmentManager
       → Result PythonEnvironment) : Host :=
  {| Uri := Vscode.Uri;
     Uri_parse := Vscode.parse;
     PythonEnvironment := PythonEnvironment;
     EnvironmentManager := EnvironmentManager;
     createPythonEnvironmentItem := createPythonEnvironmentItem |}.

(** * Vocabulary of the specification *)

(** A path taken by a file, where [fs.ensureDir] cannot make a directory. *)
Definition is_file (n : option Node) : bool :=
  match n with
  | Some (RegularFile _) | Some (UnreadableFile _) => true
  | _ => false
  end.

(** The disk after [fs.ensureDir d] returned. *)
Definition ensured (d : string) (m : gmap string Node) : gmap string Node :=
  match m !! d with
  | None => <[d := Directory]> m
  | Some _ => m
  end.

(** Some entry of a piece of log was written by [traceError]. *)
Definition logs_error (l : list LogEntry) : bool := existsb is_error_entry l.

(** The number of [traceError] entries. *)
Definition count_errors (l : list LogEntry) : nat :=
  length (filter (λ e, is_error_entry e = true) l).

Section StoreVocabulary.
Context {platform : Platform}.

(** The persistence file does not exist. *)
Definition file_absent (s : State) : Prop :=
  disk s !! persistenceFilePath s = None.

(** Something inside the [try] block of [loadData] throws: the
    directory cannot be ensured, the file cannot be read, or its text is
    not JSON. *)
Inductive load_throws (s : State) : Prop :=
| ensureDir_throws :
    is_file (disk s !! path_dirname (persistenceFilePath s)) = true →
    load_throws s
| readFile_throws_directory :
    disk s !! persistenceFilePath s = Some Directory →
    load_throws s
| readFile_throws (e : JsError) :
    disk s !! persistenceFilePath s = Some (UnreadableFile e) →
    load_throws s
| JSON_parse_throws (content : string) (e : JsError) :
    disk s !! persistenceFilePath s = Some (RegularFile content) →
    JSON_parse content = Throw e →
    load_throws s.

(** The file parses, and its version tag is not the supported one. *)
Definition version_mismatch (s : State) : Prop :=
  ∃ content data,
    disk s !! persistenceFilePath s = Some (RegularFile content)
    ∧ JSON_parse content = Return data
    ∧ version data ≠ "1.0".

(** The file is in place: its directory can be ensured, it can be read,
    and its text parses to [data]. *)
Definition file_holds (m : gmap string Node) (p : string)
    (data : WslPersistenceData) : Prop :=
  is_file (m !! path_dirname p) = false
  ∧ ∃ content, m !! p = Some (RegularFile content)
               ∧ JSON_parse content = Return data.

End StoreVocabulary.

(** The state in which [discoverEnvironments] calls the store. *)
Definition discovery_started (s : State) : State :=
  set_log (log s
           ++ [ (LInfo, "[WSL Discovery] Starting WSL environment discovery");
                (LInfo, "[WSL Discovery] Loading all environments from persistence...") ])
    s.

Section ConverterVocabulary.
Context {host : Host}.

(** What [convertToPythonEnvironment info envId] returns: the host's
    item, or [undefined] when [Uri.parse] or the host's factory throws. *)
Definition converted (manager : EnvironmentManager) (info : WslEnvironmentInfo)
    (envId : string) : option PythonEnvironment :=
  match Uri_parse envId with
  | Return environmentPath =>
      match createPythonEnvironmentItem
              (WslEnvironmentDiscovery.envInfo info environmentPath) manager with
      | Return pythonEnv => Some pythonEnv
      | Throw _ => None
      end
  | Throw _ => None
  end.

End ConverterVocabulary.

(** ** Sample data *)

Definition sample_venv : WslEnvironmentInfo :=
  {| distro := "Ubuntu-22.04";
     wslPath := "/mnt/c/w/.venv/bin/python";
     venvPath := "/mnt/c/w/.venv";
     workspacePath := Some "c:\w";
     name := ".venv";
     type := venv;
     createdAt := "2024-01-01T00:00:00.000Z";
     lastUsed := "2024-01-02T00:00:00.000Z";
     pythonVersion := Some "3.11.0";
     sysPrefix := "/mnt/c/w/.venv" |}.

Definition sample_system : WslEnvironmentInfo :=
  {| distro := "Ubuntu-22.04";
     wslPath := "/usr/bin/python3";
     venvPath := "/usr";
     workspacePath := None;
     name := "python3";
     type := system;
     createdAt := "2024-01-01T00:00:00.000Z";
     lastUsed := "2024-01-02T00:00:00.000Z";
     pythonVersion := None;
     sysPrefix := "/usr" |}.

(** The [venv] record of the specification's conversion example. *)
Definition sample_proj : WslEnvironmentInfo :=
  {| distro := "Debian";
     wslPath := "/mnt/c/proj/.venv/bin/python";
     venvPath := "/mnt/c/proj/.venv";
     workspacePath := Some "c:\proj";
     name := ".venv";
     type := venv;
     createdAt := "2024-01-01T00:00:00.000Z";
     lastUsed := "2024-01-02T00:00:00.000Z";
     pythonVersion := Some "3.12.1";
     sysPrefix := "/mnt/c/proj/.venv" |}.

Definition sample_data : WslPersistenceData :=
  {| version := "1.0";
     environments :=
       [ ("wsl:Ubuntu-22.04:/mnt/c/w/.venv/bin/python", sample_venv);
         ("not a locator", sample_system) ];
     workspaceMapping :=
       [ ("c:\w", ["wsl:Ubuntu-22.04:/mnt/c/w/.venv/bin/python"; "wsl:gone"]) ] |}.

Definition sample_old_data : WslPersistenceData :=
  {| version := "0.9";
     environments := [ ("wsl:Ubuntu-22.04:/usr/bin/python3", sample_system) ];
     workspaceMapping := [] |}.

Definition SyntaxError : JsError :=
  mkJsError "SyntaxError: Unexpected token" (Some "SyntaxError").

(** A platform for the examples: Linux, with [JSON.parse] given on three
    texts only. *)
Definition sample_platform : Platform :=
  {| process_platform := "linux";
     path_dirname := λ p,
       if decide (p = "/data/wsl-environments.json") then "/data" else ".";
     path_normalize := λ p, p;
     toLowerCase := λ p, p;
     JSON_parse := λ content,
       if decide (content = "current") then Return sample_data
       else if decide (content = "old") then Return sample_old_data
       else Throw SyntaxError;
     JSON_parse_distinct_keys :=
       ltac:(intros content data; simpl; repeat case_decide;
             intros [= <-]; compute_done) |}.

(** Lowercasing of the letters [A] to [Z], for the Windows examples. *)
Definition ascii_lower (c : Ascii.ascii) : Ascii.ascii :=
  let n := Ascii.nat_of_ascii c in
  if (65 <=? n) && (n <=? 90) then Ascii.ascii_of_nat (n + 32) else c.

Fixpoint ascii_toLowerCase (s : string) : string :=
  match s with
  | EmptyString => EmptyString
  | String c s' => String (ascii_lower c) (ascii_toLowerCase s')
  end.

(** The same platform as Windows sees it. *)
Definition sample_win32 : Platform :=
  {| process_platform := "win32";
     path_dirname := path_dirname (Platform := sample_platform);
     path_normalize := λ p, p;
     toLowerCase := ascii_toLowerCase;
     JSON_parse := JSON_parse (Platform := sample_platform);
     JSON_parse_distinct_keys :=
       JSON_parse_distinct_keys (Platform := sample_platform) |}.

Definition UriError : JsError :=
  mkJsError "Error: [UriError]: Scheme contains illegal characters."
            (Some "Error: [UriError]").

(** A host for the examples: a locator is its text, the scheme [wsl] is
    the only one accepted, and an item is the information it was made
    from. *)
Definition sample_host : Host :=
  {| Uri := string;
     Uri_parse := λ value,
       if String.prefix "wsl:" value then Return value else Throw UriError;
     PythonEnvironment := Api.PythonEnvironmentInfo string;
     EnvironmentManager := unit;
     createPythonEnvironmentItem := λ info _, Return info |}.

Definition sample_disk : gmap string Node :=
  {[ "/data" := Directory;
     "/data/wsl-environments.json" := RegularFile "current" ]}.

(** A store that has not loaded anything, over an empty disk. *)
Definition sample_fresh : State :=
  {| persistenceFilePath := "/data/wsl-environments.json";
     cache := None;
     disk := ∅;
     log := [] |}.

(** A store that has not loaded anything, with the file on the disk. *)
Definition sample_unloaded : State :=
  {| persistenceFilePath := "/data/wsl-environments.json";
     cache := None;
     disk := sample_disk;
     log := [] |}.

(** A store whose methods throw. *)
Definition failing_store : PersistenceManager :=
  {| persistence_getAllEnvironments := throw SyntaxError;
     persistence_getWorkspaceEnvironments := λ _, throw SyntaxError |}.

Ltac unfold_comp :=
  unfold mbind, mret, Comp_bind, Comp_ret, bind, ret, lift, throw, try_catch,
    traceInfo, traceError, read_cache, write_cache, read_persistenceFilePath,
    pathExists, readFile, ensureDir, set_log, set_cache, set_disk in *.

(** ** Further vocabulary *)

(** What a query may do to the state of the store: the path stays, the
    log grows, the disk gains at most the directory of the file and
    only on a load, a cached document stays as it is, and a document
    newly cached is the one the file holds. *)
Definition store_step {platform : Platform} (s s' : State) : Prop :=
  let p := persistenceFilePath s in
  let d := path_dirname p in
  persistenceFilePath s' = p
  ∧ (∃ l, log s' = log s ++ l)
  ∧ (disk s' = disk s
     ∨ (cache s = None ∧ disk s !! d = None
        ∧ disk s' = <[d := Directory]> (disk s)))
  ∧ (∀ data, cache s = Some data → cache s' = Some data ∧ disk s' = disk s)
  ∧ (∀ data, cache s' = Some data →
             cache s = Some data
             ∨ (cache s = None ∧ version data = "1.0"
                ∧ file_holds (disk s) p data)).

(** The character [:]. *)
Definition colon : Ascii.ascii := Ascii.ascii_of_nat 58.

(** No colon in a distribution name. *)
Fixpoint colon_free (s : string) : bool :=
  match s with
  | EmptyString => true
  | String c s' => if decide (c = colon) then false else colon_free s'
  end.

(** ** Further sample data *)

(** The same interpreter as [sample_venv], recorded under another name. *)
Definition sample_venv_renamed : WslEnvironmentInfo :=
  {| distro := "Ubuntu-22.04";
     wslPath := "/mnt/c/w/.venv/bin/python";
     venvPath := "/mnt/c/w/.venv";
     workspacePath := None;
     name := "w";
     type := venv;
     createdAt := "2024-03-01T00:00:00.000Z";
     lastUsed := "2024-03-02T00:00:00.000Z";
     pythonVersion := None;
     sysPrefix := "/mnt/c/w/.venv" |}.

(** Two records whose distribution names and paths split one text at
    different colons. *)
Definition sample_colon_left : WslEnvironmentInfo :=
  {| distro := "a";
     wslPath := "b:/usr/bin/python3";
     venvPath := "/usr";
     workspacePath := None;
     name := "python3";
     type := system;
     createdAt := "2024-01-01T00:00:00.000Z";
     lastUsed := "2024-01-02T00:00:00.000Z";
     pythonVersion := None;
     sysPrefix := "/usr" |}.

Definition sample_colon_right : WslEnvironmentInfo :=
  {| distro := "a:b";
     wslPath := "/usr/bin/python3";
     venvPath := "/usr";
     workspacePath := None;
     name := "python3";
     type := system;
     createdAt := "2024-01-01T00:00:00.000Z";
     lastUsed := "2024-01-02T00:00:00.000Z";
     pythonVersion := None;
     sysPrefix := "/usr" |}.

Definition sample_nodeos : NodeOs :=
  {| os_homedir := "/home/u";
     process_env_APPDATA := None;
     path_join := λ segments, foldr (λ a b, if decide (b = "") then a
                                            else a +:+ "/" +:+ b) "" segments |}.

(** A caller for the examples: locators are texts, joined with [/]. *)
Definition sample_registration : Registration (host := sample_host) :=
  {| context_globalStorageUri := "/data" : Uri (Host := sample_host);
     Uri_joinPath := λ base segments,
       Return (foldl (λ a b, a +:+ "/" +:+ b) base segments);
     Uri_fsPath := λ (uri : string), uri;
     log_error := traceError;
     manager_of_any := λ _, tt |}.

(** * Vocabulary for the code on run-time values *)

(** A name every plain object inherits from [Object.prototype]:
    [constructor], [toString], [valueOf], [hasOwnProperty], [__proto__]
    and the seven others. *)
Definition inherited_name (k : string) : Prop :=
  k ∈ JsObject.keys Js.Object_prototype.

Section UntypedVocabulary.
Context {platform : Platform} {runtime : Js.Runtime}.
Import Untyped.

(** [if (this.cache)] fails: nothing is cached. *)
Definition cache_unset (s : State) : Prop := Js.truthy (cache s) = false.

(** The persistence file does not exist. *)
Definition no_file (s : State) : Prop :=
  disk s !! persistenceFilePath s = None.

(** [fs.ensureDir] returns for the directory of the persistence file. *)
Definition ensureDir_returns (s : State) : Prop :=
  ∃ s1, ensureDir (path_dirname (persistenceFilePath s)) s = (Return tt, s1).

(** Something inside the [try] block of [loadData] throws before the
    version is compared: the directory cannot be ensured, the file cannot
    be read, its text is not JSON, or it is the text of [null], of which
    [data.version] cannot be read. *)
Inductive try_block_throws (s : State) : Prop :=
| throws_ensureDir :
    is_file (disk s !! path_dirname (persistenceFilePath s)) = true →
    try_block_throws s
| throws_readFile_directory :
    disk s !! persistenceFilePath s = Some Directory →
    try_block_throws s
| throws_readFile (e : JsError) :
    disk s !! persistenceFilePath s = Some (UnreadableFile e) →
    try_block_throws s
| throws_JSON_parse (content : string) (e : JsError) :
    disk s !! persistenceFilePath s = Some (RegularFile content) →
    Js.JSON_parse_value content = Throw e →
    try_block_throws s
| throws_version (content : string) (data : Js.Value) (e : JsError) :
    disk s !! persistenceFilePath s = Some (RegularFile content) →
    Js.JSON_parse_value content = Return data →
    Js.get data "version" = Throw e →
    try_block_throws s.

(** The file parses, and its version tag is not the string ["1.0"]. *)
Definition other_version (s : State) : Prop :=
  ∃ content data version,
    disk s !! persistenceFilePath s = Some (RegularFile content)
    ∧ Js.JSON_parse_value content = Return data
    ∧ Js.get data "version" = Return version
    ∧ Js.is_string "1.0" version = false.

(** [Object.keys(data.environments)] *)
Definition environment_keys (data : Js.Value) : Result (list string) :=
  environments ← Js.get data "environments"; Js.keys environments.

(** [Object.entries(data.environments)] *)
Definition environment_entries (data : Js.Value)
    : Result (list (string * Js.Value)) :=
  environments ← Js.get data "environments"; Js.entries environments.

(** [Object.keys(data.environments)] returns: [data.environments] is
    neither [undefined] nor [null]. *)
Definition environments_listed (data : Js.Value) : Prop :=
  ∃ envIds, environment_keys data = Return envIds.

(** The file is in place and holds a document of the supported version:
    its directory can be ensured, it can be read, its text parses to
    [data], [data.version] is ["1.0"] and [data.environments] can be
    listed. *)
Definition file_has (m : gmap string Node) (p : string) (data : Js.Value)
    : Prop :=
  is_file (m !! path_dirname p) = false
  ∧ (∃ content, m !! p = Some (RegularFile content)
                ∧ Js.JSON_parse_value content = Return data)
  ∧ (∃ version, Js.get data "version" = Return version
                ∧ Js.is_string "1.0" version = true)
  ∧ environments_listed data.


(** The sentence "after any query has completed a load, every subsequent
    query returns the cached document without re-reading the file, until
    [clearCache()] is called", read literally: whatever the first query
    found, a second query gives the same answer on any later disk. *)
Definition every_load_is_cached : Prop :=
  ∀ s0 r1 s1,
    cache_unset s0 →
    WslPersistenceManager.getAllEnvironments s0 = (r1, s1) →
    ∀ m r2 s2,
      WslPersistenceManager.getAllEnvironments (set_disk m s1) = (r2, s2) →
      r2 = r1.

(** The state in which [discoverEnvironments] calls the store. *)
Definition discovery_begun (s : State) : State :=
  set_log (log s
           ++ [ (LInfo, "[WSL Discovery] Starting WSL environment discovery");
                (LInfo, "[WSL Discovery] Loading all environments from persistence...") ])
    s.

End UntypedVocabulary.

(** ** Documents of the declared shape, as JSON values *)

Definition optional_member (k : string) (v : option string)
    : list (string * Js.Value) :=
  match v with
  | Some text => [(k, Js.Str text)]
  | None => []
  end.

Definition WslEnvironmentInfo_value (info : WslEnvironmentInfo) : Js.Value :=
  Js.Object
    ([ ("distro", Js.Str (distro info));
       ("wslPath", Js.Str (wslPath info));
       ("venvPath", Js.Str (venvPath info)) ]
     ++ optional_member "workspacePath" (workspacePath info)
     ++ [ ("name", Js.Str (name info));
          ("type", Js.Str (EnvType_text (type info)));
          ("createdAt", Js.Str (createdAt info));
          ("lastUsed", Js.Str (lastUsed info)) ]
     ++ optional_member "pythonVersion" (pythonVersion info)
     ++ [ ("sysPrefix", Js.Str (sysPrefix info)) ]).

Definition WslPersistenceData_value (data : WslPersistenceData) : Js.Value :=
  Js.Object
    [ ("version", Js.Str (version data));
      ("environments",
       Js.Object (prod_map id WslEnvironmentInfo_value <$> environments data));
      ("workspaceMapping",
       Js.Object (prod_map id (λ envIds, Js.Array (Js.Str <$> envIds))
                    <$> workspaceMapping data)) ].

(** ** Sample documents and a sample engine *)

(** [{"version":"1.0"}]: the supported version and nothing else. *)
Definition sample_version_only : Js.Value :=
  Js.Object [ ("version", Js.Str "1.0") ].

(** A document in which the second record is [null]. *)
Definition sample_null_record : Js.Value :=
  Js.Object
    [ ("version", Js.Str "1.0");
      ("environments",
       Js.Object
         [ ("wsl:Ubuntu-22.04:/mnt/c/w/.venv/bin/python",
            WslEnvironmentInfo_value sample_venv);
           ("wsl:Ubuntu-22.04:/usr/bin/python3", Js.Null) ]);
      ("workspaceMapping", Js.Object []) ].

(** [String(n)] for the numbers of the samples, which are whole. *)
Definition whole_Number_toString (n : PrimFloat.float) : string :=
  match FloatOps.Prim2SF n with
  | SpecFloat.S754_zero _ => "0"
  | SpecFloat.S754_infinity sign => if sign then "-Infinity" else "Infinity"
  | SpecFloat.S754_nan => "NaN"
  | SpecFloat.S754_finite sign m e =>
      (if sign then "-" else "")
      +:+ NilZero.string_of_uint
            (N.to_uint (Z.to_N (Z.shiftl (Z.pos m) e)))
  end.

Fixpoint characters (s : string) : list string :=
  match s with
  | EmptyString => []
  | String c s' => String c EmptyString :: characters s'
  end.

(** An engine for the examples: [JSON.parse] is given on five texts only,
    every value that is not a plain object inherits the members of
    [Object.prototype] and nothing more, and strings are ASCII. *)
Definition sample_runtime : Js.Runtime :=
  {| Js.JSON_parse_value := λ content,
       if decide (content = "current")
       then Return (WslPersistenceData_value sample_data)
       else if decide (content = "old")
       then Return (WslPersistenceData_value sample_old_data)
       else if decide (content = "version only")
       then Return sample_version_only
       else if decide (content = "null record")
       then Return sample_null_record
       else if decide (content = "null")
       then Return Js.Null
       else Throw SyntaxError;
     Js.Number_toString := whole_Number_toString;
     Js.inherited := λ v k,
       match v with
       | Js.Undefined | Js.Null => None
       | _ => JsObject.get k Js.Object_prototype
       end;
     Js.String_entries := λ s,
       imap (λ i c, (String_of_nat i, Js.Str c)) (characters s);
     Js.String_iterate := characters |}.

(** A host for the examples: a locator is its text, the scheme [wsl] is
    the only one accepted, and an item is the information it was made
    from. *)
Definition sample_untyped_host : Untyped.Host :=
  {| Untyped.Uri := string;
     Untyped.Uri_parse := λ value,
       if String.prefix "wsl:" value then Return value else Throw UriError;
     Untyped.PythonEnvironment := Untyped.Api.PythonEnvironmentInfo string;
     Untyped.EnvironmentManager := unit;
     Untyped.createPythonEnvironmentItem := λ info _, Return info |}.

(** A store that has not loaded anything, over an empty disk. *)
Definition untyped_fresh : Untyped.State :=
  {| Untyped.persistenceFilePath := "/data/wsl-environments.json";
     Untyped.cache := Js.Undefined;
     Untyped.disk := ∅;
     Untyped.log := [] |}.

(** A store that has not loaded anything, with the file [content] on the
    disk. *)
Definition untyped_with_file (content : string) : Untyped.State :=
  {| Untyped.persistenceFilePath := "/data/wsl-environments.json";
     Untyped.cache := Js.Undefined;
     Untyped.disk := {[ "/data" := Directory;
                        "/data/wsl-environments.json" := RegularFile content ]};
     Untyped.log := [] |}.

Ltac unfold_untyped :=
  unfold mbind, mret, Untyped.Comp_bind, Untyped.Comp_ret, Untyped.bind,
    Untyped.ret, Untyped.lift, Untyped.throw, Untyped.try_catch,
    Untyped.traceInfo, Untyped.traceError, Untyped.read_cache,
    Untyped.write_cache, Untyped.read_persistenceFilePath,
    Untyped.pathExists, Untyped.readFile, Untyped.ensureDir,
    Untyped.set_log, Untyped.set_cache, Untyped.set_disk in *.

(** * Vocabulary for the locator *)

(** No [?], no [#] and no [%]: nothing [Uri.parse] splits at or
    decodes. *)
Definition plain (s : string) : bool :=
  Vscode.all_chars
    (λ c, negb (Vscode.is_question c || Vscode.is_hash c || Vscode.is_percent c))
    s.

(** The number of colons of a string. *)
Fixpoint colons (s : string) : nat :=
  match s with
  | EmptyString => 0
  | String c s' => (if Vscode.is_colon c then 1 else 0) + colons s'
  end.

(** The sentence "this exact string round-trips as the resource-locator
    value", read as: the string form of the locator made from the key is
    the key. *)
Definition locator_text_is_key {codec : Vscode.Codec} : Prop :=
  ∀ info locator,
    Vscode.parse (WslEnvironmentDiscovery.generateEnvId info) = Return locator →
    Vscode.toString false locator = WslEnvironmentDiscovery.generateEnvId info.

(** ** A codec for the examples

    Strings are UTF-8 byte strings.  [percentDecode] replaces every run
    of [%xx] (two letters or digits each) by what [decodeURIComponent]
    makes of it, and, where that throws, keeps the first three
    characters and goes on with the rest of the run. *)

Definition alphanumeric (c : Ascii.ascii) : bool :=
  Vscode.is_digit c || Vscode.is_upper c || Vscode.is_lower c.

Definition hex_value (c : Ascii.ascii) : option nat :=
  if Vscode.is_digit c then Some (Vscode.code c - 48)
  else if Vscode.between 65 70 c then Some (Vscode.code c - 55)
  else if Vscode.between 97 102 c then Some (Vscode.code c - 87)
  else None.

(** The longest run of [%xx] at the start of [s], and what follows. *)
Fixpoint encoded_run (s : string) : list (Ascii.ascii * Ascii.ascii) * string :=
  match s with
  | String c (String h (String l rest as s2) as s1) =>
      if Vscode.is_percent c && alphanumeric h && alphanumeric l
      then let found := encoded_run rest in ((h, l) :: found.1, found.2)
      else ([], s)
  | _ => ([], s)
  end.

(** The bytes of a run, when every pair is hexadecimal. *)
Fixpoint run_bytes (run : list (Ascii.ascii * Ascii.ascii)) : option (list nat) :=
  match run with
  | [] => Some []
  | (h, l) :: rest =>
      hi ← hex_value h; lo ← hex_value l; bytes ← run_bytes rest;
      Some ((16 * hi + lo) :: bytes)
  end.

Definition continuation (lo hi b : nat) : bool := (lo <=? b) && (b <=? hi).

(** Well-formed UTF-8. *)
Fixpoint utf8 (bytes : list nat) : bool :=
  match bytes with
  | [] => true
  | b :: rest =>
      if b <? 128 then utf8 rest
      else match rest with
           | b1 :: rest1 =>
               if (194 <=? b) && (b <=? 223)
               then continuation 128 191 b1 && utf8 rest1
               else match rest1 with
                    | b2 :: rest2 =>
                        if (224 <=? b) && (b <=? 239)
                        then continuation
                               (if b =? 224 then 160 else 128)
                               (if b =? 237 then 159 else 191) b1
                             && continuation 128 191 b2 && utf8 rest2
                        else match rest2 with
                             | b3 :: rest3 =>
                                 (240 <=? b) && (b <=? 244)
                                 && continuation
                                      (if b =? 240 then 144 else 128)
                                      (if b =? 244 then 143 else 191) b1
                                 && continuation 128 191 b2
                                 && continuation 128 191 b3 && utf8 rest3
                             | [] => false
                             end
                    | [] => false
                    end
           | [] => false
           end
  end.

Definition bytes_string (bytes : list nat) : string :=
  foldr (λ b s, String (Ascii.ascii_of_nat b) s) EmptyString bytes.

(** [decodeURIComponentGraceful] on a run. *)
Fixpoint decode_run (run : list (Ascii.ascii * Ascii.ascii)) : string :=
  match run with
  | [] => EmptyString
  | (h, l) :: rest =>
      match run_bytes run with
      | Some bytes =>
          if utf8 bytes then bytes_string bytes
          else String (Ascii.ascii_of_nat 37) (String h (String l (decode_run rest)))
      | None =>
          String (Ascii.ascii_of_nat 37) (String h (String l (decode_run rest)))
      end
  end.

(** [percentDecode]; [fuel] bounds the number of steps by the length. *)
Fixpoint utf8_percentDecode_from (fuel : nat) (s : string) : string :=
  match fuel, s with
  | S fuel', String c s' =>
      match encoded_run s with
      | ([], _) => String c (utf8_percentDecode_from fuel' s')
      | (run, rest) => decode_run run +:+ utf8_percentDecode_from fuel' rest
      end
  | _, _ => EmptyString
  end.

Definition utf8_percentDecode (s : string) : string :=
  utf8_percentDecode_from (String.length s) s.

(** Lowercasing of the letters [A] to [Z]. *)
Definition sample_formatAuthority (skipEncoding : bool) (a : string) : string :=
  if skipEncoding then Vscode.encodeURIComponentMinimal (ascii_toLowerCase a)
  else Vscode.encodeURIComponentFast false true (ascii_toLowerCase a).

(** * Properties *)

(** ** Dictionaries and maps *)

Section Containers.
Context {V : Type}.
Implicit Types (o m : list (string * V)) (k : string) (v : V).

Lemma JsObject_has_get k o :
  JsObject.has k o = true ↔ is_Some (JsObject.get k o).
Proof.
  induction o as [|[k' v'] o IH]; simpl.
  - split; [done | by intros [? ?]].
  - case_decide; [| exact IH]. split; eauto.
Qed.

Lemma JsObject_get_elem_of k v o :
  JsObject.get k o = Some v → (k, v) ∈ o.
Proof.
  induction o as [|[k' v'] o IH]; simpl; [done |].
  case_decide as Hk.
  - intros [= ->]. subst k'. apply list_elem_of_here.
  - intros Hget. apply list_elem_of_further, IH, Hget.
Qed.

Lemma JsObject_get_None k o :
  JsObject.get k o = None ↔ k ∉ JsObject.keys o.
Proof.
  unfold JsObject.keys.
  induction o as [|[k' v'] o IH]; simpl.
  - split; [intros _; apply not_elem_of_nil | done].
  - rewrite not_elem_of_cons. case_decide as Hk.
    + split; [done | intros [Hne _]; by destruct Hne].
    + rewrite IH. tauto.
Qed.

Lemma JsObject_elem_of_get k v o :
  NoDup (JsObject.keys o) → (k, v) ∈ o → JsObject.get k o = Some v.
Proof.
  unfold JsObject.keys.
  induction o as [|[k' v'] o IH]; simpl; intros Hnd Hin.
  - by apply elem_of_nil in Hin.
  - apply NoDup_cons in Hnd as [Hfresh Hnd].
    apply elem_of_cons in Hin as [[= <- <-] | Hin].
    + by rewrite decide_True.
    + rewrite decide_False; [by apply IH |].
      intros <-. apply Hfresh. apply list_elem_of_fmap. by exists (k, v).
Qed.

Lemma JsMap_set_fresh k v m :
  k ∉ JsMap.keys m → JsMap.set k v m = m ++ [(k, v)].
Proof.
  unfold JsMap.keys.
  induction m as [|[k' v'] m IH]; simpl; [done |].
  rewrite not_elem_of_cons. intros [Hne Hnotin].
  rewrite decide_False by done. by rewrite IH.
Qed.

Lemma JsMap_foldl_set_NoDup l m :
  NoDup (JsMap.keys (m ++ l)) →
  foldl (λ acc kv, JsMap.set kv.1 kv.2 acc) m l = m ++ l.
Proof.
  unfold JsMap.keys.
  revert m. induction l as [|[k v] l IH]; intros m Hnd; simpl.
  - by rewrite app_nil_r.
  - rewrite JsMap_set_fresh.
    + rewrite IH; rewrite <- app_assoc; [done | exact Hnd].
    + rewrite fmap_app in Hnd. apply NoDup_app in Hnd as (_ & Hdisj & _).
      intros Hin. apply (Hdisj k Hin). simpl. apply list_elem_of_here.
Qed.

(** On a dictionary, [new Map(Object.entries(o))] has the entries of
    [o], in the same order. *)
Lemma JsMap_from_entries_NoDup o :
  NoDup (JsObject.keys o) → JsMap.from_entries (JsObject.entries o) = o.
Proof.
  intros Hnd. unfold JsMap.from_entries, JsObject.entries.
  by rewrite JsMap_foldl_set_NoDup.
Qed.

End Containers.

(** ** The store: [loadData] *)

Section Store.
Context {platform : Platform}.
Import WslPersistenceManager.

Lemma set_log_same s : set_log (log s) s = s.
Proof. by destruct s. Qed.

Lemma ensured_lookup_Some d m p n :
  m !! p = Some n → ensured d m !! p = Some n.
Proof.
  intros Hp. unfold ensured. destruct (m !! d) eqn:Hd; [done |].
  rewrite lookup_insert_ne; [done | congruence].
Qed.

Lemma ensured_lookup_ne d m q :
  q ≠ d → ensured d m !! q = m !! q.
Proof.
  intros Hq. unfold ensured. destruct (m !! d); [done |].
  by rewrite lookup_insert_ne.
Qed.

Lemma ensured_lookup_None d m p :
  m !! p = None →
  (d ≠ p ∧ ensured d m !! p = None) ∨ (d = p ∧ ensured d m !! p = Some Directory).
Proof.
  intros Hp. destruct (decide (d = p)) as [-> | Hne].
  - right. split; [done |]. unfold ensured. rewrite Hp. apply lookup_insert_eq.
  - left. split; [done |]. by rewrite ensured_lookup_ne.
Qed.

Lemma ensured_cases d m :
  ensured d m = m ∨ (m !! d = None ∧ ensured d m = <[d := Directory]> m).
Proof. unfold ensured. destruct (m !! d); eauto. Qed.

(** A cached document is returned as it is; the disk is not looked at. *)
Lemma loadData_cached s data :
  cache s = Some data →
  ∃ l, (∀ lg, loadData (set_log lg s) = (Return data, set_log (lg ++ l) s))
       ∧ logs_error l = false.
Proof.
  destruct s as [p c m lg0]; simpl; intros ->.
  eexists. split;
    [intros lg; unfold loadData; unfold_comp; simpl; reflexivity | reflexivity].
Qed.

(** With no cached document, what [loadData] returns and leaves behind,
    by what stands on the disk. *)
Lemma loadData_uncached s :
  cache s = None →
  let p := persistenceFilePath s in
  let d := path_dirname p in
  ∃ l,
    if is_file (disk s !! d) then
      (∀ lg, loadData (set_log lg s)
             = (Return createEmptyData, set_log (lg ++ l) s))
      ∧ logs_error l = true
    else
      let m := ensured d (disk s) in
      match m !! p with
      | None =>
          (∀ lg, loadData (set_log lg s)
                 = (Return createEmptyData, set_log (lg ++ l) (set_disk m s)))
          ∧ logs_error l = false
      | Some (RegularFile content) =>
          match JSON_parse content with
          | Return data =>
              if decide (version data = CURRENT_VERSION) then
                (∀ lg, loadData (set_log lg s)
                       = (Return data,
                          set_log (lg ++ l)
                            (set_cache (Some data) (set_disk m s))))
                ∧ logs_error l = false
              else
                (∀ lg, loadData (set_log lg s)
                       = (Return createEmptyData,
                          set_log (lg ++ l) (set_disk m s)))
                ∧ logs_error l = false
          | Throw e =>
              (∀ lg, loadData (set_log lg s)
                     = (Return createEmptyData,
                        set_log (lg ++ l) (set_disk m s)))
              ∧ logs_error l = true
          end
      | Some _ =>
          (∀ lg, loadData (set_log lg s)
                 = (Return createEmptyData, set_log (lg ++ l) (set_disk m s)))
          ∧ logs_error l = true
      end.
Proof.
  destruct s as [p c m lg0]; simpl; intros ->.
  unfold ensured.
  destruct (m !! path_dirname p) as [[| |]|] eqn:Hd; simpl.
  2, 3: eexists; split;
        [ intros lg; unfold loadData; unfold_comp; simpl; rewrite Hd; simpl;
          repeat (rewrite <- app_assoc; simpl); reflexivity
        | reflexivity ].
  all: match goal with
       | |- context [match ?X !! ?q with _ => _ end] =>
           destruct (X !! q) as [[| content | e]|] eqn:Hp
       end.
  all: try (destruct (JSON_parse content) as [data | e] eqn:Hparse;
            [destruct (decide (version data = CURRENT_VERSION)) as [Hv | Hv] |]).
  all: eexists; split;
       [ intros lg; unfold loadData; unfold_comp; simpl; rewrite Hd; simpl;
         repeat (first [rewrite Hp | rewrite Hparse]; simpl);
         repeat case_decide; try done;
         repeat (rewrite <- app_assoc; simpl); reflexivity
       | reflexivity ].
Qed.

Lemma ensured_lookup_file d m p content :
  ensured d m !! p = Some (RegularFile content) →
  m !! p = Some (RegularFile content).
Proof.
  unfold ensured. destruct (m !! d) eqn:Hd; [done |].
  destruct (decide (d = p)) as [-> | Hne].
  - by rewrite lookup_insert_eq.
  - by rewrite lookup_insert_ne.
Qed.

(** Every run of [loadData] returns a document, and leaves the path
    alone.  The disk changes by [ensureDir] at most, and the cache only
    from unset to the document of a file with the supported version. *)
Lemma loadData_run s :
  let p := persistenceFilePath s in
  let d := path_dirname p in
  ∃ data c' m' l,
    (∀ lg, loadData (set_log lg s)
           = (Return data,
              {| persistenceFilePath := p; cache := c'; disk := m';
                 log := lg ++ l |}))
    ∧ (m' = disk s ∨ (cache s = None ∧ m' = ensured d (disk s)))
    ∧ (c' = cache s
       ∨ (cache s = None ∧ c' = Some data ∧ version data = "1.0"
          ∧ is_file (disk s !! d) = false
          ∧ ∃ content, disk s !! p = Some (RegularFile content)
                       ∧ JSON_parse content = Return data)).
Proof.
  intros p d. subst p d.
  destruct (cache s) as [cached |] eqn:Hc.
  - destruct (loadData_cached s cached Hc) as (l & Hrun & _).
    exists cached, (Some cached), (disk s), l. split; [| by eauto].
    intros lg. rewrite Hrun. unfold set_log. simpl. by rewrite Hc.
  - destruct (loadData_uncached s Hc) as [l Hl]. simpl in Hl.
    destruct (is_file (disk s !! path_dirname (persistenceFilePath s))) eqn:Hd.
    { destruct Hl as [Hrun _].
      exists createEmptyData, None, (disk s), l. split; [| by eauto].
      intros lg. rewrite Hrun. unfold set_log. simpl. by rewrite Hc. }
    destruct (ensured _ (disk s) !! persistenceFilePath s)
      as [[| content | e]|] eqn:Hp.
    2: destruct (JSON_parse content) as [data | e] eqn:Hparse;
       [destruct (decide (version data = CURRENT_VERSION)) as [Hv | Hv] |].
    2: { destruct Hl as [Hrun _].
         exists data, (Some data), (ensured (path_dirname (persistenceFilePath s)) (disk s)), l.
         split; [intros lg; by rewrite Hrun |].
         split; [by right |]. right.
         repeat split; try done.
         exists content. split; [| done]. by eapply ensured_lookup_file. }
    all: destruct Hl as [Hrun _];
         exists createEmptyData, None,
           (ensured (path_dirname (persistenceFilePath s)) (disk s)), l;
         (split; [intros lg; rewrite Hrun; unfold set_log, set_disk; simpl;
                  by rewrite Hc | by eauto]).
Qed.

(** The fallback: an absent file, a throw inside the [try] block, or
    another version give the empty document, and leave the cache unset. *)
Lemma loadData_fallback s :
  cache s = None →
  file_absent s ∨ load_throws s ∨ version_mismatch s →
  ∃ l,
    (∀ lg, ∃ s', loadData (set_log lg s) = (Return createEmptyData, s')
                 ∧ cache s' = None
                 ∧ log s' = lg ++ l
                 ∧ persistenceFilePath s' = persistenceFilePath s
                 ∧ (disk s' = disk s
                    ∨ disk s' = ensured (path_dirname (persistenceFilePath s))
                                  (disk s)))
    ∧ (load_throws s → logs_error l = true)
    ∧ (is_file (disk s !! path_dirname (persistenceFilePath s)) = false →
       version_mismatch s → logs_error l = false).
Proof.
  intros Hc Hwhy.
  destruct (loadData_uncached s Hc) as [l Hl]. simpl in Hl. exists l.
  destruct (is_file (disk s !! path_dirname (persistenceFilePath s))) eqn:Hd.
  { destruct Hl as [Hrun Herr]. split; [| by split].
    intros lg. eexists. split; [apply Hrun |]. simpl. eauto. }
  assert (∀ (b : bool),
    (∀ lg, loadData (set_log lg s)
           = (Return createEmptyData,
              set_log (lg ++ l)
                (set_disk (ensured (path_dirname (persistenceFilePath s)) (disk s)) s)))
    ∧ logs_error l = b →
    ∀ lg, ∃ s', loadData (set_log lg s) = (Return createEmptyData, s')
                ∧ cache s' = None ∧ log s' = lg ++ l
                ∧ persistenceFilePath s' = persistenceFilePath s
                ∧ (disk s' = disk s
                   ∨ disk s' = ensured (path_dirname (persistenceFilePath s))
                                 (disk s))) as Hwrap.
  { intros b [Hrun _] lg. eexists. split; [apply Hrun |]. simpl. eauto. }
  destruct Hwhy as [Habs | [Hthrows | (content & data & Hfile & Hparse & Hv)]].
  - (* the file is absent *)
    unfold file_absent in Habs.
    destruct (ensured_lookup_None (path_dirname (persistenceFilePath s)) _ _ Habs)
      as [[_ Hp] | [_ Hp]]; rewrite Hp in Hl.
    + split; [by eapply Hwrap |]. split.
      * intros [Hblk | Hdir | e Hun | content e Hfile _]; congruence.
      * intros _ (content & data & Hfile & _). congruence.
    + split; [by eapply Hwrap |].
      split; [intros _; by destruct Hl | intros _ (? & ? & ? & _); congruence].
  - (* something throws *)
    destruct Hthrows as [Hblk | Hdir | e Hun | content e Hfile Hparse].
    + congruence.
    + rewrite (ensured_lookup_Some _ _ _ _ Hdir) in Hl.
      split; [by eapply Hwrap |]. split; [by destruct Hl |].
      intros _ (? & ? & ? & _). congruence.
    + rewrite (ensured_lookup_Some _ _ _ _ Hun) in Hl.
      split; [by eapply Hwrap |]. split; [by destruct Hl |].
      intros _ (? & ? & ? & _). congruence.
    + rewrite (ensured_lookup_Some _ _ _ _ Hfile), Hparse in Hl.
      split; [by eapply Hwrap |]. split; [by destruct Hl |].
      intros _ (c2 & d2 & Hfile2 & Hparse2 & _). congruence.
  - (* another version *)
    rewrite (ensured_lookup_Some _ _ _ _ Hfile), Hparse in Hl.
    rewrite decide_False in Hl by done.
    split; [by eapply Hwrap |]. split; [| by destruct Hl].
    intros [Hblk | Hdir | e Hun | c2 e Hfile2 Hparse2]; congruence.
Qed.

(** The load proper: a file that parses to a document of the supported
    version is returned and cached. *)
Lemma loadData_current s data :
  cache s = None →
  file_holds (disk s) (persistenceFilePath s) data →
  version data = "1.0" →
  ∃ l,
    (∀ lg, loadData (set_log lg s)
           = (Return data,
              set_log (lg ++ l)
                (set_cache (Some data)
                   (set_disk (ensured (path_dirname (persistenceFilePath s))
                                (disk s)) s))))
    ∧ logs_error l = false.
Proof.
  intros Hc (Hd & content & Hfile & Hparse) Hv.
  destruct (loadData_uncached s Hc) as [l Hl]. simpl in Hl. exists l.
  rewrite Hd, (ensured_lookup_Some _ _ _ _ Hfile), Hparse in Hl.
  by rewrite decide_True in Hl.
Qed.

(** *** The queries, given what [loadData] returns *)

Lemma getAllEnvironments_run s data s' :
  loadData s = (Return data, s') →
  getAllEnvironments s
  = (Return (JsMap.from_entries (JsObject.entries (environments data))), s').
Proof. intros Hrun. unfold getAllEnvironments. unfold_comp. by rewrite Hrun. Qed.

Lemma getEnvironment_run s envId data s' :
  loadData s = (Return data, s') →
  getEnvironment envId s = (Return (JsObject.get envId (environments data)), s').
Proof. intros Hrun. unfold getEnvironment. unfold_comp. by rewrite Hrun. Qed.

Lemma hasEnvironment_run s envId data s' :
  loadData s = (Return data, s') →
  hasEnvironment envId s = (Return (JsObject.has envId (environments data)), s').
Proof. intros Hrun. unfold hasEnvironment. unfold_comp. by rewrite Hrun. Qed.

(** The loop keeps the records found, in the order of the keys. *)
Lemma collectEnvironments_run data envIds :
  ∃ l, ∀ acc s,
    collectEnvironments data envIds acc s
    = (Return (acc ++ omap (λ envId, JsObject.get envId (environments data)) envIds),
       set_log (log s ++ l) s).
Proof.
  induction envIds as [| envId rest [l IH]].
  - exists []. intros acc s. simpl. unfold_comp.
    rewrite !app_nil_r. by destruct s.
  - destruct (JsObject.get envId (environments data)) as [env |] eqn:Hget.
    all: eexists; intros acc s; simpl; unfold_comp; rewrite Hget; simpl.
    all: match goal with
         | |- context [collectEnvironments _ _ ?a ?st] =>
             rewrite (IH a st)
         end; unfold set_log; simpl.
    all: rewrite <- ?app_assoc; simpl; reflexivity.
Qed.

Lemma getWorkspaceEnvironments_run s workspacePath data s1 l :
  (∀ lg, loadData (set_log lg s) = (Return data, set_log (lg ++ l) s1)) →
  ∃ e0 l2,
    getWorkspaceEnvironments workspacePath s
    = (Return (omap (λ envId, JsObject.get envId (environments data))
                 (default [] (JsObject.get (normalizePath workspacePath)
                                (workspaceMapping data)))),
       set_log (log s ++ e0 :: l ++ l2) s1).
Proof.
  intros Hrun.
  destruct (collectEnvironments_run data
              (default [] (JsObject.get (normalizePath workspacePath)
                             (workspaceMapping data)))) as [lc Hloop].
  eexists _, _. unfold getWorkspaceEnvironments.
  unfold mbind, mret, Comp_bind, Comp_ret, bind, ret, traceInfo. simpl.
  rewrite Hrun. simpl. rewrite Hloop. simpl.
  unfold set_log. simpl. rewrite <- !app_assoc. simpl.
  rewrite <- ?app_assoc. reflexivity.
Qed.

Lemma logs_error_app l1 l2 :
  logs_error (l1 ++ l2) = logs_error l1 || logs_error l2.
Proof. unfold logs_error. apply existsb_app. Qed.

End Store.

(** ** The store: what the specification says *)

Section StoreClaims.
Context {platform : Platform}.
Import WslPersistenceManager.

(** C2.  Loading a file that parses to a document with version tag
    ["1.0"] yields that document, and [getAllEnvironments] returns
    exactly its key/record pairs; loading a file with any other version
    tag yields the empty document, returned normally and with no error
    logged. *)
Theorem loadData_version_gate s data :
  cache s = None →
  file_holds (disk s) (persistenceFilePath s) data →
  (version data = "1.0" →
   ∃ s', loadData s = (Return data, s')
         ∧ getAllEnvironments s = (Return (environments data), s'))
  ∧ (version data ≠ "1.0" →
     ∃ s' l,
       loadData s
       = (Return {| version := "1.0"; environments := []; workspaceMapping := [] |},
          s')
       ∧ getAllEnvironments s = (Return [], s')
       ∧ log s' = log s ++ l ∧ logs_error l = false).
Proof.
  intros Hc Hholds. pose proof Hholds as (Hd & content & Hfile & Hparse).
  split; intros Hv.
  - destruct (loadData_current s data Hc Hholds Hv) as (l & Hrun & _).
    specialize (Hrun (log s)). rewrite set_log_same in Hrun.
    eexists. split; [exact Hrun |].
    rewrite (getAllEnvironments_run _ _ _ Hrun).
    rewrite JsMap_from_entries_NoDup; [done |].
    by eapply JSON_parse_distinct_keys.
  - destruct (loadData_fallback s Hc) as (l & Hrun & _ & Hquiet).
    { right. right. by exists content, data. }
    destruct (Hrun (log s)) as (s' & Hload & _ & Hlog & _).
    rewrite set_log_same in Hload.
    exists s', l. split; [exact Hload |].
    split; [by rewrite (getAllEnvironments_run _ _ _ Hload) |].
    split; [done |]. apply Hquiet; [done |]. by exists content, data.
Qed.

End StoreClaims.

(** ** The converter *)

Lemma count_errors_app l1 l2 :
  count_errors (l1 ++ l2) = count_errors l1 + count_errors l2.
Proof. unfold count_errors. by rewrite filter_app, length_app. Qed.

Lemma count_errors_info msg l :
  count_errors ((LInfo, msg) :: l) = count_errors l.
Proof. reflexivity. Qed.

Lemma count_errors_error msg l :
  count_errors ((LError, msg) :: l) = S (count_errors l).
Proof. reflexivity. Qed.

Section Converter.
Context {host : Host}.
Import WslEnvironmentDiscovery.

Lemma buildShellActivation_entries info :
  buildShellActivation info
  = [ ("bash", [ {| Api.executable := "source";
                    Api.args := [venvPath info +:+ "/bin/activate"] |} ]);
      ("zsh", [ {| Api.executable := "source";
                   Api.args := [venvPath info +:+ "/bin/activate"] |} ]);
      ("fish", [ {| Api.executable := "source";
                    Api.args := [venvPath info +:+ "/bin/activate.fish"] |} ]);
      ("pwsh", [ {| Api.executable := ".";
                    Api.args := [venvPath info +:+ "/bin/Activate.ps1"] |} ]);
      ("unknown", [ {| Api.executable := "source";
                       Api.args := [venvPath info +:+ "/bin/activate"] |} ]) ].
Proof. reflexivity. Qed.

(** [convertToPythonEnvironment] never throws: it returns the host's
    item, or [undefined] after one [traceError]. *)
Lemma convertToPythonEnvironment_run manager info envId :
  ∃ l,
    (∀ s, convertToPythonEnvironment manager info envId s
          = (Return (converted manager info envId), set_log (log s ++ l) s))
    ∧ count_errors l
      = match converted manager info envId with Some _ => 0 | None => 1 end.
Proof.
  unfold converted, convertToPythonEnvironment.
  destruct (Uri_parse envId) as [environmentPath | e] eqn:Hparse.
  1: destruct (createPythonEnvironmentItem (envInfo info environmentPath) manager)
       as [pythonEnv | e] eqn:Hitem.
  - exists []. split; [| reflexivity]. intros s. unfold_comp. simpl.
    rewrite Hitem. rewrite app_nil_r. by destruct s.
  - eexists [_]. split;
      [intros s; unfold_comp; simpl; rewrite Hitem; reflexivity | reflexivity].
  - eexists [_]. split; [intros s; unfold_comp; simpl; reflexivity | reflexivity].
Qed.

(** The loop of [discoverEnvironments] keeps the items of the records
    that convert, in order, and logs one error for each of the others. *)
Lemma discoverLoop_run manager wslEnvs :
  ∃ l,
    (∀ pythonEnvs s,
       discoverLoop manager wslEnvs pythonEnvs s
       = (Return (pythonEnvs
                  ++ omap (λ kv, converted manager kv.2 kv.1) wslEnvs),
          set_log (log s ++ l) s))
    ∧ count_errors l
      + length (omap (λ kv, converted manager kv.2 kv.1) wslEnvs)
      = length wslEnvs.
Proof.
  induction wslEnvs as [| [envId info] rest (l & IH & Hcount)].
  - exists []. split; [| done]. intros acc s. simpl. unfold_comp.
    rewrite !app_nil_r. by destruct s.
  - destruct (convertToPythonEnvironment_run manager info envId)
      as (lc & Hconv & Hcc).
    destruct (converted manager info envId) as [pe |] eqn:Hpe.
    all: eexists; split;
      [ intros acc s; simpl;
        unfold mbind, mret, Comp_bind, Comp_ret, bind, ret, try_catch, traceInfo;
        simpl; rewrite Hconv; simpl; rewrite IH; rewrite ?Hpe; simpl;
        unfold set_log; simpl; rewrite <- ?app_assoc; simpl;
        rewrite <- ?app_assoc; simpl; reflexivity
      | ].
    all: simpl; rewrite Hpe; simpl.
    all: rewrite !count_errors_info, count_errors_app, count_errors_info, Hcc.
    all: unfold omap in Hcount; lia.
Qed.

Lemma workspaceLoop_run manager wslEnvs :
  ∃ l, ∀ pythonEnvs s,
    workspaceLoop manager wslEnvs pythonEnvs s
    = (Return (pythonEnvs
               ++ omap (λ info, converted manager info (generateEnvId info))
                    wslEnvs),
       set_log (log s ++ l) s).
Proof.
  induction wslEnvs as [| info rest (l & IH)].
  - exists []. intros acc s. simpl. unfold_comp.
    rewrite !app_nil_r. by destruct s.
  - destruct (convertToPythonEnvironment_run manager info (generateEnvId info))
      as (lc & Hconv & _).
    destruct (converted manager info (generateEnvId info)) as [pe |] eqn:Hpe.
    all: eexists; intros acc s; simpl;
      unfold mbind, mret, Comp_bind, Comp_ret, bind, ret, traceInfo;
      simpl; rewrite Hconv; simpl; rewrite IH; rewrite ?Hpe; simpl;
      unfold set_log; simpl; rewrite <- ?app_assoc; simpl;
      rewrite <- ?app_assoc; simpl; reflexivity.
Qed.

Lemma discoverEnvironments_run persistence manager s :
  match persistence_getAllEnvironments persistence (discovery_started s) with
  | (Return wslEnvs, s1) =>
      ∃ l,
        discoverEnvironments persistence manager s
        = (Return (omap (λ kv, converted manager kv.2 kv.1) wslEnvs),
           set_log (log s1 ++ l) s1)
        ∧ count_errors l
          + length (omap (λ kv, converted manager kv.2 kv.1) wslEnvs)
          = length wslEnvs
  | (Throw e, s1) =>
      ∃ l,
        discoverEnvironments persistence manager s
        = (Return [], set_log (log s1 ++ l) s1)
        ∧ logs_error l = true
  end.
Proof.
  unfold discovery_started, discoverEnvironments.
  unfold mbind, mret, Comp_bind, Comp_ret, bind, ret, try_catch, traceInfo,
    traceError. simpl. unfold set_log at 1 2 3. simpl.
  rewrite <- app_assoc. simpl.
  destruct (persistence_getAllEnvironments persistence _) as [[wslEnvs | e] s1].
  - destruct (discoverLoop_run manager wslEnvs) as (l & Hloop & Hcount).
    case_decide; simpl; rewrite Hloop; simpl.
    all: eexists; split;
      [ unfold set_log; simpl; rewrite <- ?app_assoc; simpl;
        rewrite <- ?app_assoc; simpl; reflexivity | ].
    all: rewrite ?count_errors_info, count_errors_app, !count_errors_info.
    all: change (count_errors []) with 0; lia.
  - eexists. split; [unfold set_log; simpl; rewrite <- ?app_assoc; reflexivity |].
    reflexivity.
Qed.

Lemma getWorkspaceEnvironments_facade_run persistence manager workspacePath s :
  match persistence_getWorkspaceEnvironments persistence workspacePath
          (set_log (log s
                    ++ [ (LInfo, "[WSL Discovery] Getting workspace environments for: "
                                 +:+ workspacePath) ]) s) with
  | (Return wslEnvs, s1) =>
      ∃ s2,
        getWorkspaceEnvironments persistence manager workspacePath s
        = (Return (omap (λ info, converted manager info (generateEnvId info))
                     wslEnvs),
           s2)
  | (Throw e, s1) =>
      ∃ s2,
        getWorkspaceEnvironments persistence manager workspacePath s
        = (Return [], s2)
  end.
Proof.
  unfold getWorkspaceEnvironments.
  unfold mbind, mret, Comp_bind, Comp_ret, bind, ret, try_catch, traceInfo,
    traceError. simpl.
  destruct (persistence_getWorkspaceEnvironments persistence _ _)
    as [[wslEnvs | e] s1].
  - destruct (workspaceLoop_run manager wslEnvs) as (l & Hloop).
    rewrite Hloop. simpl. eexists. reflexivity.
  - eexists. reflexivity.
Qed.

End Converter.

(** ** The converter and the façade: what the specification says *)

Section DiscoveryClaims.
Context {host : Host}.
Import WslEnvironmentDiscovery.

(** C1.  The execution configuration always has the run command
    [wsl.exe -d <distro> -- <interpreter path>].  For kind [venv] it
    has an activation list, the per-shell map with the keys [bash],
    [zsh], [fish], [pwsh], [unknown] and no others, each with its one
    command, and the deactivation command [deactivate] without
    arguments; for any other kind the three are absent. *)
Theorem buildExecutionInfo_by_kind info :
  let exec := buildExecutionInfo info in
  let source script :=
    [ {| Api.executable := "source"; Api.args := [venvPath info +:+ script] |} ] in
  Api.run exec
  = {| Api.executable := "wsl.exe";
       Api.args := ["-d"; distro info; "--"; wslPath info] |}
  ∧ (type info = venv →
     Api.activation exec
     = Some [ {| Api.executable := "wsl.exe";
                 Api.args := ["-d"; distro info; "--"; "bash"; "-c";
                              "source " +:+ DQ
                              +:+ (venvPath info +:+ "/bin/activate")
                              +:+ DQ] |} ]
     ∧ (∃ shells,
          Api.shellActivation exec = Some shells
          ∧ JsMap.keys shells = ["bash"; "zsh"; "fish"; "pwsh"; "unknown"]
          ∧ JsMap.get "bash" shells = Some (source "/bin/activate")
          ∧ JsMap.get "zsh" shells = Some (source "/bin/activate")
          ∧ JsMap.get "unknown" shells = Some (source "/bin/activate")
          ∧ JsMap.get "fish" shells = Some (source "/bin/activate.fish")
          ∧ JsMap.get "pwsh" shells
            = Some [ {| Api.executable := ".";
                        Api.args := [venvPath info +:+ "/bin/Activate.ps1"] |} ]
          ∧ (∀ shell commands,
               JsMap.get shell shells = Some commands → commands ≠ []))
     ∧ Api.deactivation exec
       = Some [ {| Api.executable := "deactivate"; Api.args := [] |} ])
  ∧ (type info ≠ venv →
     Api.activation exec = None
     ∧ Api.shellActivation exec = None
     ∧ Api.deactivation exec = None).
Proof.
  intros exec source. subst exec source. unfold buildExecutionInfo. simpl.
  split; [done |]. split; intros Hkind.
  - rewrite !decide_True by done. split; [| split; [| done]].
    + reflexivity.
    + eexists. split; [reflexivity |]. rewrite buildShellActivation_entries.
      repeat (split; [reflexivity |]).
      intros shell commands Hget.
      apply JsObject_get_elem_of in Hget.
      repeat (apply elem_of_cons in Hget as [[= -> ->] | Hget]; [done |]).
      by apply elem_of_nil in Hget.
  - by rewrite !decide_False by done.
Qed.

End DiscoveryClaims.

(** * Further properties of the store *)

Section StoreExtras.
Context {platform : Platform}.
Import WslPersistenceManager.

(** The three ways a load ends: from the cache, with the empty document
    and nothing cached, or with the document of the file, now cached. *)
Lemma loadData_cases s :
  let p := persistenceFilePath s in
  let d := path_dirname p in
  ∃ data c' m' l,
    (∀ lg, loadData (set_log lg s)
           = (Return data,
              {| persistenceFilePath := p; cache := c'; disk := m';
                 log := lg ++ l |}))
    ∧ ((cache s = Some data ∧ c' = Some data ∧ m' = disk s)
       ∨ (cache s = None ∧ data = createEmptyData ∧ c' = None
          ∧ (m' = disk s ∨ m' = ensured d (disk s)))
       ∨ (cache s = None ∧ c' = Some data ∧ version data = "1.0"
          ∧ file_holds (disk s) p data ∧ m' = ensured d (disk s))).
Proof.
  intros p d. subst p d.
  destruct (cache s) as [cached |] eqn:Hc.
  - destruct (loadData_cached s cached Hc) as (l & Hrun & _).
    exists cached, (Some cached), (disk s), l. split; [| by left].
    intros lg. rewrite Hrun. unfold set_log. simpl. by rewrite Hc.
  - destruct (loadData_uncached s Hc) as [l Hl]. simpl in Hl.
    destruct (is_file (disk s !! path_dirname (persistenceFilePath s))) eqn:Hd.
    { destruct Hl as [Hrun _].
      exists createEmptyData, None, (disk s), l. split; [| right; left; by eauto].
      intros lg. rewrite Hrun. unfold set_log. simpl. by rewrite Hc. }
    destruct (ensured _ (disk s) !! persistenceFilePath s)
      as [[| content | e]|] eqn:Hp.
    2: destruct (JSON_parse content) as [data | e] eqn:Hparse;
       [destruct (decide (version data = CURRENT_VERSION)) as [Hv | Hv] |].
    2: { destruct Hl as [Hrun _].
         exists data, (Some data),
           (ensured (path_dirname (persistenceFilePath s)) (disk s)), l.
         split; [intros lg; by rewrite Hrun |].
         right. right. repeat split; try done.
         exists content. split; [| done]. by eapply ensured_lookup_file. }
    all: destruct Hl as [Hrun _];
         exists createEmptyData, None,
           (ensured (path_dirname (persistenceFilePath s)) (disk s)), l;
         (split; [intros lg; rewrite Hrun; unfold set_log, set_disk; simpl;
                  by rewrite Hc | right; left; by eauto]).
Qed.

(** Every query is [loadData] followed by a reading of the document: it
    returns, and leaves the state [loadData] leaves, the log apart. *)
Lemma queries_run s :
  ∃ data c' m',
    (∃ l, loadData s
          = (Return data,
             {| persistenceFilePath := persistenceFilePath s; cache := c';
                disk := m'; log := log s ++ l |}))
    ∧ (∃ l, getAllEnvironments s
            = (Return (JsMap.from_entries (JsObject.entries (environments data))),
               {| persistenceFilePath := persistenceFilePath s; cache := c';
                  disk := m'; log := log s ++ l |}))
    ∧ (∀ workspacePath,
         ∃ l, getWorkspaceEnvironments workspacePath s
              = (Return (omap (λ envId, JsObject.get envId (environments data))
                           (default [] (JsObject.get (normalizePath workspacePath)
                                          (workspaceMapping data)))),
                 {| persistenceFilePath := persistenceFilePath s; cache := c';
                    disk := m'; log := log s ++ l |}))
    ∧ (∀ envId,
         ∃ l, getEnvironment envId s
              = (Return (JsObject.get envId (environments data)),
                 {| persistenceFilePath := persistenceFilePath s; cache := c';
                    disk := m'; log := log s ++ l |}))
    ∧ (∀ envId,
         ∃ l, hasEnvironment envId s
              = (Return (JsObject.has envId (environments data)),
                 {| persistenceFilePath := persistenceFilePath s; cache := c';
                    disk := m'; log := log s ++ l |}))
    ∧ ((cache s = Some data ∧ c' = Some data ∧ m' = disk s)
       ∨ (cache s = None ∧ data = createEmptyData ∧ c' = None
          ∧ (m' = disk s
             ∨ m' = ensured (path_dirname (persistenceFilePath s)) (disk s)))
       ∨ (cache s = None ∧ c' = Some data ∧ version data = "1.0"
          ∧ file_holds (disk s) (persistenceFilePath s) data
          ∧ m' = ensured (path_dirname (persistenceFilePath s)) (disk s))).
Proof.
  destruct (loadData_cases s) as (data & c' & m' & l & Hrun & Hcases).
  pose proof (Hrun (log s)) as Hload. rewrite set_log_same in Hload.
  exists data, c', m'.
  split; [by exists l |].
  split; [exists l; by apply getAllEnvironments_run |].
  split.
  { intros workspacePath.
    destruct (getWorkspaceEnvironments_run s workspacePath data
                {| persistenceFilePath := persistenceFilePath s; cache := c';
                   disk := m'; log := [] |} l) as (e0 & l2 & Hws).
    { intros lg. by rewrite Hrun. }
    eexists. exact Hws. }
  split; [intros envId; exists l; by apply getEnvironment_run |].
  split; [intros envId; exists l; by apply hasEnvironment_run |].
  exact Hcases.
Qed.

Lemma store_step_intro s data c' m' l :
  (cache s = Some data ∧ c' = Some data ∧ m' = disk s)
  ∨ (cache s = None ∧ data = createEmptyData ∧ c' = None
     ∧ (m' = disk s
        ∨ m' = ensured (path_dirname (persistenceFilePath s)) (disk s)))
  ∨ (cache s = None ∧ c' = Some data ∧ version data = "1.0"
     ∧ file_holds (disk s) (persistenceFilePath s) data
     ∧ m' = ensured (path_dirname (persistenceFilePath s)) (disk s)) →
  store_step s
    {| persistenceFilePath := persistenceFilePath s; cache := c'; disk := m';
       log := log s ++ l |}.
Proof.
  intros Hcases. unfold store_step. simpl.
  split; [done |]. split; [by exists l |].
  assert (∀ m, cache s = None →
            (m = disk s
             ∨ m = ensured (path_dirname (persistenceFilePath s)) (disk s)) →
            m = disk s
            ∨ (cache s = None
               ∧ disk s !! path_dirname (persistenceFilePath s) = None
               ∧ m = <[path_dirname (persistenceFilePath s) := Directory]> (disk s)))
    as Hdisk.
  { intros m Hc [-> | ->]; [by left |].
    destruct (ensured_cases (path_dirname (persistenceFilePath s)) (disk s))
      as [-> | [Hnone ->]]; eauto. }
  destruct Hcases as [(Hc & -> & ->) | [(Hc & -> & -> & Hm) | (Hc & -> & Hv & Hholds & ->)]].
  - split; [by left |]. split; [intros doc; rewrite Hc; by intros [= ->] |].
    intros doc [= ->]. by left.
  - split; [by apply Hdisk |]. split; [intros doc; by rewrite Hc |]. done.
  - split; [apply Hdisk; eauto |]. split; [intros doc; by rewrite Hc |].
    intros doc [= ->]. right. done.
Qed.

(** X2.  A query reads: it leaves the path of the store, only adds to
    the log, creates at most the directory of the persistence file (and
    nothing when a document is cached), never replaces a cached
    document, and caches only the document the file holds. *)
Theorem store_queries_only_read s :
  store_step s (loadData s).2
  ∧ store_step s (getAllEnvironments s).2
  ∧ (∀ workspacePath,
       store_step s (getWorkspaceEnvironments workspacePath s).2)
  ∧ (∀ envId, store_step s (getEnvironment envId s).2)
  ∧ (∀ envId, store_step s (hasEnvironment envId s).2).
Proof.
  destruct (queries_run s)
    as (data & c' & m' & [l0 Hload] & [l Hall] & Hws & Hget & Hhas & Hcases).
  split; [rewrite Hload; by apply (store_step_intro s data) |].
  split; [rewrite Hall; by apply (store_step_intro s data) |].
  split; [| split].
  - intros workspacePath. destruct (Hws workspacePath) as [l' ->].
    by apply (store_step_intro s data).
  - intros envId. destruct (Hget envId) as [l' ->].
    by apply (store_step_intro s data).
  - intros envId. destruct (Hhas envId) as [l' ->].
    by apply (store_step_intro s data).
Qed.

Lemma length_omap_le {A B} (f : A → option B) (l : list A) :
  length (omap f l) ≤ length l.
Proof.
  induction l as [| x l IH]; [done |].
  change (omap f (x :: l)) with (match f x with
                                 | Some y => y :: omap f l
                                 | None => omap f l
                                 end).
  destruct (f x); simpl; lia.
Qed.

End StoreExtras.

(** * Further properties of the converter and the façade *)

Section DiscoveryExtras.
Context {host : Host}.
Import WslEnvironmentDiscovery.


Lemma workspaceLoop_count manager wslEnvs :
  ∃ l,
    (∀ pythonEnvs s,
       workspaceLoop manager wslEnvs pythonEnvs s
       = (Return (pythonEnvs
                  ++ omap (λ info, converted manager info (generateEnvId info))
                       wslEnvs),
          set_log (log s ++ l) s))
    ∧ count_errors l
      + length (omap (λ info, converted manager info (generateEnvId info)) wslEnvs)
      = length wslEnvs.
Proof.
  induction wslEnvs as [| info rest (l & IH & Hcount)].
  - exists []. split; [| done]. intros acc s. simpl. unfold_comp.
    rewrite !app_nil_r. by destruct s.
  - destruct (convertToPythonEnvironment_run manager info (generateEnvId info))
      as (lc & Hconv & Hcc).
    destruct (converted manager info (generateEnvId info)) as [pe |] eqn:Hpe.
    all: eexists; split;
      [ intros acc s; simpl;
        unfold mbind, mret, Comp_bind, Comp_ret, bind, ret, traceInfo;
        simpl; rewrite Hconv; simpl; rewrite IH; rewrite ?Hpe; simpl;
        unfold set_log; simpl; rewrite <- ?app_assoc; simpl;
        rewrite <- ?app_assoc; simpl; reflexivity
      | ].
    all: simpl; rewrite Hpe; simpl.
    all: rewrite count_errors_info, count_errors_app, count_errors_info, Hcc.
    all: unfold omap in Hcount; lia.
Qed.

Lemma getWorkspaceEnvironments_facade_count persistence manager
    workspacePath s :
  match persistence_getWorkspaceEnvironments persistence workspacePath
          (set_log (log s
                    ++ [ (LInfo, "[WSL Discovery] Getting workspace environments for: "
                                 +:+ workspacePath) ]) s) with
  | (Return wslEnvs, s1) =>
      let pythonEnvs :=
        omap (λ info, converted manager info (generateEnvId info)) wslEnvs in
      ∃ l, getWorkspaceEnvironments persistence manager workspacePath s
           = (Return pythonEnvs, set_log (log s1 ++ l) s1)
           ∧ count_errors l + length pythonEnvs = length wslEnvs
  | (Throw e, s1) =>
      ∃ l, getWorkspaceEnvironments persistence manager workspacePath s
           = (Return [], set_log (log s1 ++ l) s1)
           ∧ count_errors l = 2
  end.
Proof.
  unfold getWorkspaceEnvironments.
  unfold mbind, mret, Comp_bind, Comp_ret, bind, ret, try_catch, traceInfo,
    traceError. simpl.
  destruct (persistence_getWorkspaceEnvironments persistence _ _)
    as [[wslEnvs | e] s1]; simpl.
  - destruct (workspaceLoop_count manager wslEnvs) as (l & Hloop & Hcount).
    rewrite Hloop. simpl. eexists. split.
    + unfold set_log. simpl. rewrite <- ?app_assoc. simpl.
      rewrite <- ?app_assoc. simpl. reflexivity.
    + rewrite count_errors_info, count_errors_app, count_errors_info.
      change (count_errors []) with 0. lia.
  - eexists. split.
    + unfold set_log. simpl. rewrite <- ?app_assoc. reflexivity.
    + reflexivity.
Qed.


End DiscoveryExtras.

Section FacadeOverStore.
Context {platform : Platform} {host : Host}.

Lemma load_throws_set_log lg s :
  load_throws s → load_throws (set_log lg s).
Proof.
  intros [Hd | Hdir | e Hun | content e Hfile Hparse].
  - by apply ensureDir_throws.
  - by apply readFile_throws_directory.
  - by apply (readFile_throws _ e).
  - by apply (JSON_parse_throws _ content e).
Qed.

(** X11.  Discovery over a store with nothing cached and no usable file
    returns the empty list: the file is absent, or ensuring its
    directory, reading it or parsing it throws.  Nothing is thrown, no
    document is cached, and a throw is logged. *)
Theorem discoverEnvironments_without_file manager s :
  cache s = None →
  file_absent s ∨ load_throws s →
  ∃ s' l,
    WslEnvironmentDiscovery.discoverEnvironments WslPersistenceManager_object
      manager s
    = (Return [], s')
    ∧ cache s' = None
    ∧ log s' = log s ++ l
    ∧ (load_throws s → logs_error l = true).
Proof.
  intros Hc Hwhy.
  destruct (loadData_fallback s Hc) as (l & Hrun & Herr & _); [tauto |].
  destruct (Hrun (log (discovery_started s)))
    as (s1 & Hload & Hc1 & Hlog & _).
  change (set_log (log (discovery_started s)) s) with (discovery_started s)
    in Hload.
  pose proof (discoverEnvironments_run WslPersistenceManager_object manager s)
    as Hdisc.
  simpl in Hdisc.
  rewrite (getAllEnvironments_run _ _ _ Hload) in Hdisc.
  destruct Hdisc as (ld & Hdisc & _).
  eexists _, _. split; [exact Hdisc |]. simpl.
  split; [exact Hc1 |]. split.
  - rewrite Hlog. simpl. rewrite <- !app_assoc. reflexivity.
  - intros Hthrows. simpl. rewrite !logs_error_app, (Herr Hthrows).
    by destruct (logs_error ld).
Qed.

Lemma store_getWorkspaceEnvironments_fallback s workspacePath :
  cache s = None →
  file_absent s ∨ load_throws s →
  ∃ s' l,
    WslPersistenceManager.getWorkspaceEnvironments workspacePath s
    = (Return [], s')
    ∧ cache s' = None
    ∧ log s' = log s ++ l
    ∧ (load_throws s → logs_error l = true).
Proof.
  intros Hc Hwhy.
  destruct (loadData_fallback s Hc) as (l & Hrun & Herr & _); [tauto |].
  destruct (Hrun (log s)) as (s1 & Hload & Hc1 & Hlog & _).
  rewrite set_log_same in Hload.
  destruct (loadData_run s) as (data & c' & m' & l0 & Hrun0 & _).
  assert (data = WslPersistenceManager.createEmptyData ∧ l0 = l ∧ c' = None)
    as (-> & -> & ->).
  { specialize (Hrun0 (log s)). rewrite set_log_same, Hload in Hrun0.
    injection Hrun0 as -> Hs'. rewrite Hs' in Hlog, Hc1. simpl in Hlog, Hc1.
    split; [done |]. split; [by apply app_inv_head in Hlog | done]. }
  destruct (getWorkspaceEnvironments_run s workspacePath
              WslPersistenceManager.createEmptyData
              {| persistenceFilePath := persistenceFilePath s; cache := None;
                 disk := m'; log := [] |} l) as (e0 & l2 & Hws).
  { intros lg. by rewrite Hrun0. }
  eexists _, _. split; [exact Hws |]. split; [done |]. split; [done |].
  intros Hthrows.
  change (e0 :: l ++ l2) with ([e0] ++ l ++ l2).
  rewrite !logs_error_app, (Herr Hthrows). by destruct (logs_error [e0]).
Qed.

(** X16.  The façade's [getWorkspaceEnvironments] over a store with
    nothing cached and no usable file returns the empty list for every
    workspace; nothing is thrown, no document is cached, and a throw is
    logged. *)
Theorem facade_getWorkspaceEnvironments_without_file manager workspacePath s :
  cache s = None →
  file_absent s ∨ load_throws s →
  ∃ s' l,
    WslEnvironmentDiscovery.getWorkspaceEnvironments WslPersistenceManager_object
      manager workspacePath s
    = (Return [], s')
    ∧ cache s' = None
    ∧ log s' = log s ++ l
    ∧ (load_throws s → logs_error l = true).
Proof.
  intros Hc Hwhy.
  set (s0 := set_log (log s
                      ++ [ (LInfo, "[WSL Discovery] Getting workspace environments for: "
                                   +:+ workspacePath) ]) s).
  destruct (store_getWorkspaceEnvironments_fallback s0 workspacePath)
    as (s1 & l & Hstore & Hc1 & Hlog & Herr).
  { done. }
  { destruct Hwhy as [Habs | Hthrows]; [by left |].
    right. by apply load_throws_set_log. }
  pose proof (getWorkspaceEnvironments_facade_count
                WslPersistenceManager_object manager workspacePath s) as Hrun.
  simpl in Hrun. fold s0 in Hrun. rewrite Hstore in Hrun.
  destruct Hrun as (lf & Hrun & _).
  eexists _, _. split; [exact Hrun |]. simpl.
  split; [exact Hc1 |]. split.
  - rewrite Hlog. subst s0. simpl. rewrite <- !app_assoc. reflexivity.
  - intros Hthrows. simpl.
    rewrite !logs_error_app, (Herr (load_throws_set_log _ _ Hthrows)).
    by destruct (logs_error lf).
Qed.

End FacadeOverStore.

(** ** The identity key *)

Lemma string_app_nil (s : string) : "" +:+ s = s.
Proof. reflexivity. Qed.

Lemma string_app_cons (c : Ascii.ascii) (a s : string) :
  String c a +:+ s = String c (a +:+ s).
Proof. reflexivity. Qed.

Lemma colon_split a a' b b' :
  colon_free a = true →
  colon_free a' = true →
  a +:+ ":" +:+ b = a' +:+ ":" +:+ b' →
  a = a' ∧ b = b'.
Proof.
  revert a'. induction a as [| c a IH]; intros [| c' a'] Ha Ha' Heq;
    repeat (rewrite string_app_nil in Heq || rewrite string_app_cons in Heq);
    simpl in Ha, Ha'.
  - by injection Heq as ->.
  - injection Heq as <- _. unfold colon in Ha'. by rewrite decide_True in Ha'.
  - injection Heq as -> _. unfold colon in Ha. by rewrite decide_True in Ha.
  - injection Heq as -> Heq.
    destruct (decide (c' = colon)); [done |].
    destruct (IH a' Ha Ha' Heq) as [-> ->]. done.
Qed.

(** X12.  Records of distributions whose names have no colon get
    different keys unless they agree on the distribution and on the
    interpreter path. *)
Theorem generateEnvId_injective info1 info2 :
  colon_free (distro info1) = true →
  colon_free (distro info2) = true →
  WslEnvironmentDiscovery.generateEnvId info1
  = WslEnvironmentDiscovery.generateEnvId info2 →
  distro info1 = distro info2 ∧ wslPath info1 = wslPath info2.
Proof.
  intros H1 H2 Heq. unfold WslEnvironmentDiscovery.generateEnvId in Heq.
  repeat (rewrite string_app_nil in Heq || rewrite string_app_cons in Heq).
  injection Heq as Heq.
  by apply colon_split.
Qed.

(** ** The record shown to the host *)

(** X13.  The version shown for a record is never empty: it is the
    record's version when that is a non-empty string, and ["Unknown"]
    when the record has no version or an empty one; in the same way the
    tooltip names the workspace, or ["N/A"]. *)
Theorem envInfo_defaults {host : Host} info (environmentPath : Uri) :
  let shown := WslEnvironmentDiscovery.envInfo info environmentPath in
  Api.version shown ≠ ""
  ∧ (∀ v, pythonVersion info = Some v → v ≠ "" → Api.version shown = v)
  ∧ (pythonVersion info = None ∨ pythonVersion info = Some "" →
     Api.version shown = "Unknown")
  ∧ (workspacePath info = None ∨ workspacePath info = Some "" →
     Api.tooltip shown
     = "WSL Path: " +:+ wslPath info +:+ LF +:+ "Distro: " +:+ distro info
       +:+ LF +:+ "Workspace: N/A").
Proof.
  simpl. unfold or_else. repeat split.
  - destruct (pythonVersion info) as [v |]; [| done]. by case_decide.
  - intros v -> Hv. by rewrite decide_False.
  - by intros [-> | ->].
  - by intros [-> | ->].
Qed.

(** * The constructor and the registration *)

Section ConstructorExtras.
Context {platform : Platform} {nodeos : NodeOs}.

(** X14.  A new store has the custom path it was given, unless that is
    absent or the empty string, and then the fallback path; its cache
    is unset whatever store there was before, it has not touched the
    disk, and it has logged only in the fallback case.  Its first query
    therefore reads the file. *)
Theorem constructor_fresh_store customPath s :
  let path :=
    match customPath with
    | Some p => if decide (p = "") then fallbackPersistenceFilePath else p
    | None => fallbackPersistenceFilePath
    end in
  ∃ s' l,
    (WslPersistenceManager_constructor customPath;;
     WslPersistenceManager.getPersistenceFilePath) s
    = (Return path, s')
    ∧ persistenceFilePath s' = path
    ∧ cache s' = None
    ∧ disk s' = disk s
    ∧ log s' = log s ++ l
    ∧ logs_error l = false
    ∧ (l = [] ↔ ∃ p, customPath = Some p ∧ p ≠ "")
    ∧ (∀ data,
         file_holds (disk s) path data →
         version data = "1.0" →
         ∃ s'', WslPersistenceManager.getAllEnvironments s'
                = (Return (environments data), s'')).
Proof.
  intros path.
  assert (∀ s' : State,
            persistenceFilePath s' = path → cache s' = None → disk s' = disk s →
            ∀ data, file_holds (disk s) path data → version data = "1.0" →
                    ∃ s'', WslPersistenceManager.getAllEnvironments s'
                           = (Return (environments data), s'')) as Hfirst.
  { intros s' Hp Hc Hd data Hholds Hv.
    rewrite <- Hd, <- Hp in Hholds.
    destruct (loadData_current s' data Hc Hholds Hv) as (l & Hrun & _).
    specialize (Hrun (log s')). rewrite set_log_same in Hrun.
    eexists. rewrite (getAllEnvironments_run _ _ _ Hrun).
    rewrite JsMap_from_entries_NoDup; [done |].
    destruct Hholds as (_ & content & _ & Hparse).
    by eapply JSON_parse_distinct_keys. }
  unfold WslPersistenceManager_constructor,
    WslPersistenceManager.getPersistenceFilePath.
  subst path.
  destruct customPath as [p |]; [destruct (decide (p = "")) as [-> | Hp] |].
  - eexists _, [_]. split; [reflexivity |]. simpl.
    repeat split; try done.
    + intros (p & [= <-] & Hp). done.
    + by apply Hfirst.
  - eexists _, []. split; [unfold_comp; simpl; reflexivity |]. simpl.
    rewrite app_nil_r. repeat split; try done.
    + intros _. by exists p.
    + by apply Hfirst.
  - eexists _, [_]. split; [reflexivity |]. simpl.
    repeat split; try done.
    + intros (p & [=] & _).
    + by apply Hfirst.
Qed.

End ConstructorExtras.

Section RegistrationExtras.
Context {platform : Platform} {nodeos : NodeOs} {host : Host}
  {registration : Registration}.

(** Discovery over the store of [wslPersistence.ts] returns, and does to
    the store what one query does. *)
Lemma discoverEnvironments_store_step manager s :
  ∃ pythonEnvs s',
    WslEnvironmentDiscovery.discoverEnvironments WslPersistenceManager_object
      manager s
    = (Return pythonEnvs, s')
    ∧ store_step s s'.
Proof.
  destruct (queries_run (discovery_started s))
    as (data & c' & m' & _ & [l Hall] & _ & _ & _ & Hcases).
  pose proof (discoverEnvironments_run WslPersistenceManager_object manager s)
    as Hdisc.
  simpl in Hdisc. rewrite Hall in Hdisc.
  destruct Hdisc as (ld & Hdisc & _).
  eexists _, _. split; [exact Hdisc |].
  unfold set_log. simpl. rewrite <- !app_assoc.
  by apply (store_step_intro s data).
Qed.

(** X15.  When the host resolves the storage path, [registerWslFeatures]
    returns normally whatever the disk holds, without [log.error]: it
    leaves a store at that path (the fallback path when it is empty),
    a disk that has gained at most the directory of the file, and a
    cache that is unset or holds the document of the file. *)
Theorem registerWslFeatures_returns s uri :
  Uri_joinPath context_globalStorageUri ["wsl-environments.json"] = Return uri →
  let path :=
    if decide (Uri_fsPath uri = "") then fallbackPersistenceFilePath
    else Uri_fsPath uri in
  ∃ s' l,
    registerWslFeatures s = (Return tt, s')
    ∧ persistenceFilePath s' = path
    ∧ log s' = log s ++ l
    ∧ (disk s' = disk s
       ∨ (disk s !! path_dirname path = None
          ∧ disk s' = <[path_dirname path := Directory]> (disk s)))
    ∧ (∀ data,
         cache s' = Some data →
         version data = "1.0" ∧ file_holds (disk s) path data).
Proof.
  intros Hjoin path.
  unfold registerWslFeatures, WslPersistenceManager_constructor,
    WslPersistenceManager.getPersistenceFilePath.
  unfold mbind, mret, Comp_bind, Comp_ret, bind, ret, lift, try_catch,
    traceInfo, write_cache, write_persistenceFilePath,
    read_persistenceFilePath, set_cache, set_log.
  simpl. rewrite Hjoin. simpl. subst path.
  destruct (decide (Uri_fsPath uri = "")) as [Hempty | Hpath]; simpl.
  all: match goal with
       | |- context [WslEnvironmentDiscovery.discoverEnvironments _ ?mgr ?st] =>
           destruct (discoverEnvironments_store_step mgr st)
             as (pythonEnvs & s1 & Hdisc & Hp & [l Hlog] & Hdisk & _ & Hcache);
           rewrite Hdisc
       end; simpl in *.
  all: case_decide; simpl.
  all: eexists _, _; split; [reflexivity |]; simpl.
  all: split; [exact Hp |].
  all: split; [rewrite Hlog, <- !app_assoc; reflexivity |].
  all: split; [destruct Hdisk as [-> | (_ & Hnone & ->)]; eauto |].
  all: intros data Hc; destruct (Hcache data Hc) as [? | (_ & Hv & Hholds)];
       done.
Qed.

End RegistrationExtras.

(** * The store on run-time values *)

(** A name inherited from [Object.prototype] is read as a built-in. *)
Lemma inherited_name_get k :
  inherited_name k →
  ∃ text, JsObject.get k Js.Object_prototype = Some (Js.Builtin text).
Proof.
  unfold inherited_name. simpl. intros H.
  repeat (apply elem_of_cons in H as [-> | H]; [eexists; reflexivity |]).
  by apply elem_of_nil in H.
Qed.


(** The table of [Object.prototype] is looked up by the two lemmas above
    and not unfolded by [simpl]. *)
Opaque Js.Object_prototype.

Section UntypedStore.
Context {platform : Platform} {runtime : Js.Runtime}.
Import Untyped Untyped.WslPersistenceManager.

Lemma untyped_set_log_same s : set_log (log s) s = s.
Proof. by destruct s. Qed.

(** A cached document whose [environments] can be listed is returned as
    it is; the disk is not looked at. *)
Lemma loadData_hit s envIds :
  Js.truthy (cache s) = true →
  environment_keys (cache s) = Return envIds →
  ∃ l, (∀ lg, loadData (set_log lg s) = (Return (cache s), set_log (lg ++ l) s))
       ∧ logs_error l = false.
Proof.
  destruct s as [p c m lg0]; simpl; intros Hc Hkeys.
  unfold environment_keys, mbind, Result_bind in Hkeys.
  destruct (Js.get c "environments") as [environments | e] eqn:Hget; [| done].
  eexists. split.
  - intros lg. unfold loadData. unfold_untyped. simpl.
    rewrite Hc, Hget. simpl. rewrite Hkeys. simpl. reflexivity.
  - reflexivity.
Qed.

(** A cached document whose [environments] cannot be listed makes the
    load throw, before the [try] block. *)
Lemma loadData_hit_throws s e :
  Js.truthy (cache s) = true →
  environment_keys (cache s) = Throw e →
  ∀ lg, loadData (set_log lg s) = (Throw e, set_log lg s).
Proof.
  destruct s as [p c m lg0]; simpl; intros Hc Hkeys lg.
  unfold environment_keys, mbind, Result_bind in Hkeys.
  unfold loadData. unfold_untyped. simpl. rewrite Hc.
  destruct (Js.get c "environments") as [environments | e'] eqn:Hget; simpl.
  - by rewrite Hkeys.
  - congruence.
Qed.

(** With nothing cached, what [loadData] returns and leaves behind, by
    what stands on the disk. *)
Lemma loadData_miss s :
  cache_unset s →
  let p := persistenceFilePath s in
  let d := path_dirname p in
  ∃ l,
    if is_file (disk s !! d) then
      (∀ lg, loadData (set_log lg s)
             = (Return createEmptyData, set_log (lg ++ l) s))
      ∧ logs_error l = true
    else
      let m := ensured d (disk s) in
      match m !! p with
      | None =>
          (∀ lg, loadData (set_log lg s)
                 = (Return createEmptyData, set_log (lg ++ l) (set_disk m s)))
          ∧ logs_error l = false
      | Some (RegularFile content) =>
          match Js.JSON_parse_value content with
          | Return data =>
              match Js.get data "version" with
              | Return version =>
                  if Js.is_string "1.0" version then
                    match environment_keys data with
                    | Return envIds =>
                        (∀ lg, loadData (set_log lg s)
                               = (Return data,
                                  set_log (lg ++ l)
                                    (set_cache data (set_disk m s))))
                        ∧ logs_error l = false
                    | Throw e =>
                        (∀ lg, loadData (set_log lg s)
                               = (Return createEmptyData,
                                  set_log (lg ++ l)
                                    (set_cache data (set_disk m s))))
                        ∧ logs_error l = true
                    end
                  else
                    (∀ lg, loadData (set_log lg s)
                           = (Return createEmptyData,
                              set_log (lg ++ l) (set_disk m s)))
                    ∧ logs_error l
                      = match Js.ToString version with
                        | Return _ => false
                        | Throw _ => true
                        end
              | Throw e =>
                  (∀ lg, loadData (set_log lg s)
                         = (Return createEmptyData,
                            set_log (lg ++ l) (set_disk m s)))
                  ∧ logs_error l = true
              end
          | Throw e =>
              (∀ lg, loadData (set_log lg s)
                     = (Return createEmptyData,
                        set_log (lg ++ l) (set_disk m s)))
              ∧ logs_error l = true
          end
      | Some _ =>
          (∀ lg, loadData (set_log lg s)
                 = (Return createEmptyData, set_log (lg ++ l) (set_disk m s)))
          ∧ logs_error l = true
      end.
Proof.
  unfold cache_unset.
  destruct s as [p c m lg0]; simpl; intros Hc.
  unfold ensured.
  destruct (m !! path_dirname p) as [[| |]|] eqn:Hd; simpl.
  2, 3: eexists; split;
        [ intros lg; unfold loadData; unfold_untyped; simpl; rewrite Hc; simpl; rewrite Hd;
          simpl; repeat (rewrite <- app_assoc; simpl); reflexivity
        | reflexivity ].
  all: match goal with
       | |- context [match ?X !! ?q with _ => _ end] =>
           destruct (X !! q) as [[| content | e]|] eqn:Hp
       end.
  all: try (destruct (Js.JSON_parse_value content) as [data | e] eqn:Hparse;
            [ destruct (Js.get data "version") as [version | e] eqn:Hver;
              [ destruct (Js.is_string "1.0" version) eqn:Hv;
                [ unfold environment_keys, mbind, Result_bind;
                  destruct (Js.get data "environments")
                    as [environments | e] eqn:Hget;
                  [ destruct (Js.keys environments) as [envIds | e] eqn:Hkeys |]
                | destruct (Js.ToString version) as [got | e] eqn:Hgot ] |] |]).
  all: eexists; split;
       [ intros lg; unfold loadData; unfold_untyped; simpl; rewrite Hc; simpl; rewrite Hd;
         simpl;
         repeat (first [ rewrite Hp | rewrite Hparse | rewrite Hver
                       | rewrite Hget | rewrite Hkeys | rewrite Hgot ];
                 simpl);
         unfold CURRENT_VERSION; rewrite ?Hv; simpl;
         repeat (first [ rewrite Hget | rewrite Hkeys | rewrite Hgot ]; simpl);
         repeat (rewrite <- app_assoc; simpl); reflexivity
       | reflexivity ].
Qed.

(** With nothing cached the load returns a document.  The cache is left
    as it was, or holds the value the file parsed to, whose version tag
    is ["1.0"]; that value is the one returned when its [environments]
    can be listed, and otherwise the load has fallen back to the empty
    document with the value left in the cache. *)
Lemma loadData_miss_run s :
  cache_unset s →
  let p := persistenceFilePath s in
  let d := path_dirname p in
  ∃ data c' l,
    (∀ lg, loadData (set_log lg s)
           = (Return data,
              {| persistenceFilePath := p; cache := c';
                 disk := if is_file (disk s !! d) then disk s
                         else ensured d (disk s);
                 log := lg ++ l |}))
    ∧ ((c' = cache s ∧ data = createEmptyData)
       ∨ (is_file (disk s !! d) = false
          ∧ (∃ content version,
               disk s !! p = Some (RegularFile content)
               ∧ Js.JSON_parse_value content = Return c'
               ∧ Js.get c' "version" = Return version
               ∧ Js.is_string "1.0" version = true)
          ∧ ((data = c' ∧ environments_listed c' ∧ logs_error l = false)
             ∨ (data = createEmptyData
                ∧ (∃ e, environment_keys c' = Throw e)
                ∧ logs_error l = true)))).
Proof.
  intros Hc p d. subst p d.
  destruct (loadData_miss s Hc) as [l Hl]. simpl in Hl.
  destruct (is_file (disk s !! path_dirname (persistenceFilePath s))) eqn:Hd.
  { destruct Hl as [Hrun _]. exists createEmptyData, (cache s), l.
    split; [| by left]. intros lg. rewrite Hrun. by destruct s. }
  destruct (ensured _ (disk s) !! persistenceFilePath s)
    as [[| content | e]|] eqn:Hp.
  2: destruct (Js.JSON_parse_value content) as [data | e] eqn:Hparse;
     [ destruct (Js.get data "version") as [version | e] eqn:Hver;
       [ destruct (Js.is_string "1.0" version) eqn:Hv;
         [ destruct (environment_keys data) as [envIds | e] eqn:Hkeys |] |] |].
  2: { destruct Hl as [Hrun Hquiet]. exists data, data, l.
       split; [intros lg; by rewrite Hrun |]. right.
       split; [done |]. split.
       - exists content, version. split; [| done].
         by eapply ensured_lookup_file.
       - left. split; [done |]. split; [by exists envIds | done]. }
  2: { destruct Hl as [Hrun Herr]. exists createEmptyData, data, l.
       split; [intros lg; by rewrite Hrun |]. right.
       split; [done |]. split.
       - exists content, version. split; [| done].
         by eapply ensured_lookup_file.
       - right. split; [done |]. split; [by exists e | done]. }
  all: destruct Hl as [Hrun _]; exists createEmptyData, (cache s), l;
       (split; [| by left]); intros lg; rewrite Hrun; by destruct s.
Qed.

(** The fallback: an absent file, a throw inside the [try] block, or
    another version give the empty document and leave the cache as it
    was. *)
Lemma loadData_falls_back s :
  cache_unset s →
  no_file s ∨ try_block_throws s ∨ other_version s →
  ∃ l,
    (∀ lg, ∃ s', loadData (set_log lg s) = (Return createEmptyData, s')
                 ∧ cache s' = cache s
                 ∧ log s' = lg ++ l
                 ∧ persistenceFilePath s' = persistenceFilePath s
                 ∧ (disk s' = disk s
                    ∨ disk s' = ensured (path_dirname (persistenceFilePath s))
                                  (disk s)))
    ∧ (try_block_throws s → logs_error l = true).
Proof.
  intros Hc Hwhy.
  destruct (loadData_miss s Hc) as [l Hl]. simpl in Hl. exists l.
  destruct (is_file (disk s !! path_dirname (persistenceFilePath s))) eqn:Hd.
  { destruct Hl as [Hrun Herr]. split; [| done].
    intros lg. eexists. split; [apply Hrun |]. simpl. eauto. }
  assert (∀ (b : bool),
    (∀ lg, loadData (set_log lg s)
           = (Return createEmptyData,
              set_log (lg ++ l)
                (set_disk (ensured (path_dirname (persistenceFilePath s)) (disk s)) s)))
    ∧ logs_error l = b →
    ∀ lg, ∃ s', loadData (set_log lg s) = (Return createEmptyData, s')
                ∧ cache s' = cache s ∧ log s' = lg ++ l
                ∧ persistenceFilePath s' = persistenceFilePath s
                ∧ (disk s' = disk s
                   ∨ disk s' = ensured (path_dirname (persistenceFilePath s))
                                 (disk s))) as Hwrap.
  { intros b [Hrun _] lg. eexists. split; [apply Hrun |]. simpl. eauto. }
  destruct Hwhy
    as [Habs | [Hthrows | (content & data & version & Hfile & Hparse & Hver & Hv)]].
  - (* the file is absent *)
    unfold no_file in Habs.
    destruct (ensured_lookup_None (path_dirname (persistenceFilePath s)) _ _ Habs)
      as [[_ Hp] | [_ Hp]]; rewrite Hp in Hl.
    + split; [by eapply Hwrap |].
      intros [Hblk | Hdir | e Hun | content e Hfile _ | content data e Hfile _ _];
        congruence.
    + split; [by eapply Hwrap |]. intros _. by destruct Hl.
  - (* something throws *)
    destruct Hthrows
      as [Hblk | Hdir | e Hun | content e Hfile Hparse
          | content data e Hfile Hparse Hver].
    + congruence.
    + rewrite (ensured_lookup_Some _ _ _ _ Hdir) in Hl.
      split; [by eapply Hwrap |]. intros _. by destruct Hl.
    + rewrite (ensured_lookup_Some _ _ _ _ Hun) in Hl.
      split; [by eapply Hwrap |]. intros _. by destruct Hl.
    + rewrite (ensured_lookup_Some _ _ _ _ Hfile), Hparse in Hl.
      split; [by eapply Hwrap |]. intros _. by destruct Hl.
    + rewrite (ensured_lookup_Some _ _ _ _ Hfile), Hparse, Hver in Hl.
      split; [by eapply Hwrap |]. intros _. by destruct Hl.
  - (* another version *)
    rewrite (ensured_lookup_Some _ _ _ _ Hfile), Hparse, Hver, Hv in Hl.
    split; [by eapply Hwrap |].
    intros [Hblk | Hdir | e Hun | c2 e Hfile2 Hparse2
            | c2 d2 e Hfile2 Hparse2 Hver2]; congruence.
Qed.

(** The load proper: the document of a file of the supported version is
    returned and cached. *)
Lemma loadData_reads_file s data :
  cache_unset s →
  file_has (disk s) (persistenceFilePath s) data →
  ∃ l,
    (∀ lg, loadData (set_log lg s)
           = (Return data,
              set_log (lg ++ l)
                (set_cache data
                   (set_disk (ensured (path_dirname (persistenceFilePath s))
                                (disk s)) s))))
    ∧ logs_error l = false.
Proof.
  intros Hc (Hd & (content & Hfile & Hparse) & (version & Hver & Hv)
             & (envIds & Hkeys)).
  destruct (loadData_miss s Hc) as [l Hl]. simpl in Hl. exists l.
  by rewrite Hd, (ensured_lookup_Some _ _ _ _ Hfile), Hparse, Hver, Hv, Hkeys
    in Hl.
Qed.

(** Every run of [loadData] leaves the path alone, only adds to the log,
    and changes the disk by [ensureDir] at most. *)
Lemma loadData_frame s r s' :
  loadData s = (r, s') →
  let d := path_dirname (persistenceFilePath s) in
  persistenceFilePath s' = persistenceFilePath s
  ∧ (∃ l, log s' = log s ++ l)
  ∧ (if Js.truthy (cache s) then disk s' = disk s ∧ cache s' = cache s
     else disk s' = if is_file (disk s !! d) then disk s
                    else ensured d (disk s)).
Proof.
  intros Hload d. subst d.
  destruct (Js.truthy (cache s)) eqn:Hc.
  - destruct (environment_keys (cache s)) as [envIds | e] eqn:Hkeys.
    + destruct (loadData_hit s envIds Hc Hkeys) as (l & Hrun & _).
      specialize (Hrun (log s)). rewrite untyped_set_log_same, Hload in Hrun.
      injection Hrun as -> ->. simpl. eauto.
    + pose proof (loadData_hit_throws s e Hc Hkeys (log s)) as Hrun.
      rewrite untyped_set_log_same, Hload in Hrun.
      injection Hrun as -> ->. repeat split. exists []. by rewrite app_nil_r.
  - destruct (loadData_miss_run s Hc) as (data & c' & l & Hrun & _).
    specialize (Hrun (log s)). rewrite untyped_set_log_same, Hload in Hrun.
    injection Hrun as -> ->. simpl. eauto.
Qed.

(** What [loadData] returns does not depend on the log. *)
Lemma loadData_any_log s r s' :
  loadData s = (r, s') →
  ∀ lg, ∃ s'', loadData (set_log lg s) = (r, s'').
Proof.
  intros Hload lg.
  destruct (Js.truthy (cache s)) eqn:Hc.
  - destruct (environment_keys (cache s)) as [envIds | e] eqn:Hkeys.
    + destruct (loadData_hit s envIds Hc Hkeys) as (l & Hrun & _).
      pose proof (Hrun (log s)) as Hrun0.
      rewrite untyped_set_log_same, Hload in Hrun0. injection Hrun0 as -> _.
      eexists. apply Hrun.
    + pose proof (loadData_hit_throws s e Hc Hkeys) as Hrun.
      pose proof (Hrun (log s)) as Hrun0.
      rewrite untyped_set_log_same, Hload in Hrun0. injection Hrun0 as -> _.
      eexists. apply Hrun.
  - destruct (loadData_miss_run s Hc) as (data & c' & l & Hrun & _).
    pose proof (Hrun (log s)) as Hrun0.
    rewrite untyped_set_log_same, Hload in Hrun0. injection Hrun0 as -> _.
    eexists. apply Hrun.
Qed.

(** *** The queries, given what [loadData] returns *)

Lemma getAllEnvironments_after s data s' :
  loadData s = (Return data, s') →
  getAllEnvironments s = (JsMap.from_entries <$> environment_entries data, s').
Proof.
  intros Hrun. unfold getAllEnvironments, environment_entries.
  unfold_untyped. rewrite Hrun.
  destruct (Js.get data "environments") as [environments | e]; simpl; [| done].
  by destruct (Js.entries environments).
Qed.

Lemma getEnvironment_after s envId data s' :
  loadData s = (Return data, s') →
  getEnvironment envId s
  = (environments ← Js.get data "environments"; Js.get environments envId, s').
Proof.
  intros Hrun. unfold getEnvironment. unfold_untyped. rewrite Hrun.
  by destruct (Js.get data "environments").
Qed.

Lemma hasEnvironment_after s envId data s' :
  loadData s = (Return data, s') →
  hasEnvironment envId s
  = (environments ← Js.get data "environments"; Js.has envId environments, s').
Proof.
  intros Hrun. unfold hasEnvironment. unfold_untyped. rewrite Hrun.
  by destruct (Js.get data "environments").
Qed.


End UntypedStore.

(** ** The store on run-time values: what the specification says *)

Section UntypedStoreClaims.
Context {platform : Platform} {runtime : Js.Runtime}.
Import Untyped Untyped.WslPersistenceManager.

(** C3.  The code departs from the claim for a workspace path whose
    normalized form is a name every object inherits, such as
    [constructor]: when it is no key of the [workspaceMapping] of the
    loaded document, [data.workspaceMapping[p]] is the inherited
    built-in, which is truthy and not iterable, and
    [getWorkspaceEnvironments] throws instead of returning the empty
    list. *)
Theorem getWorkspaceEnvironments_throws_for_inherited_name s workspacePath
    data s1 mapping :
  loadData s = (Return data, s1) →
  Js.get data "workspaceMapping" = Return (Js.Object mapping) →
  normalizePath workspacePath ∉ JsObject.keys mapping →
  inherited_name (normalizePath workspacePath) →
  ∃ e s', getWorkspaceEnvironments workspacePath s = (Throw e, s').
Proof.
  intros Hload Hmapping Hkey Hname.
  apply JsObject_get_None in Hkey.
  destruct (inherited_name_get _ Hname) as [text Hget].
  unfold getWorkspaceEnvironments.
  unfold mbind, mret, Comp_bind, Comp_ret, bind, ret, traceInfo, lift. simpl.
  match goal with
  | |- context [loadData ?st] =>
      destruct (loadData_any_log s _ _ Hload (log st)) as [s'' Hrun];
      change st with (set_log (log st) s); rewrite Hrun
  end.
  simpl. rewrite Hmapping. simpl. rewrite Hkey.
  unfold Js.prototype_member. rewrite Hget. simpl.
  match goal with
  | |- context [Js.ToString ?v] => destruct (Js.ToString v)
  end; eauto.
Qed.


(** C7, as amended.  Once a load has left a document in the cache whose
    [environments] can be listed, it has returned that document,
    [loadData] returns it on any later disk and leaves the disk alone,
    and so does [getAllEnvironments]; after [clearCache()] the next load
    reads the file again and returns what it holds then.  A load that
    fell back to the empty document because the file was absent, the
    [try] block threw before the version was compared, or the version
    was another one, caches nothing, and the next load returns what the
    disk holds then. *)
Theorem cached_until_cleared :
  (∀ s0 r s1,
     loadData s0 = (r, s1) →
     Js.truthy (cache s1) = true →
     environments_listed (cache s1) →
     r = Return (cache s1)
     ∧ (∀ m, ∃ l,
          loadData (set_disk m s1)
          = (Return (cache s1), set_log (log s1 ++ l) (set_disk m s1)))
     ∧ (∀ m, ∃ entries s2,
          environment_entries (cache s1) = Return entries
          ∧ getAllEnvironments (set_disk m s1)
            = (Return (JsMap.from_entries entries), s2)
          ∧ disk s2 = m ∧ cache s2 = cache s1)
     ∧ (∀ m data',
          file_has m (persistenceFilePath s1) data' →
          ∃ s2, (clearCache;; loadData) (set_disk m s1) = (Return data', s2)
                ∧ cache s2 = data'))
  ∧ (∀ s r s',
       cache_unset s →
       no_file s ∨ try_block_throws s ∨ other_version s →
       loadData s = (r, s') →
       r = Return (Js.Object [ ("version", Js.Str "1.0");
                               ("environments", Js.Object []);
                               ("workspaceMapping", Js.Object []) ])
       ∧ cache s' = cache s
       ∧ ∀ m data,
           file_has m (persistenceFilePath s) data →
           ∃ s'', loadData (set_disk m s') = (Return data, s'')
                  ∧ cache s'' = data).
Proof.
  split.
  - intros s0 r s1 Hload Hc1 [envIds Hkeys].
    assert (∀ m, ∃ l,
              loadData (set_disk m s1)
              = (Return (cache s1), set_log (log s1 ++ l) (set_disk m s1)))
      as Hhit.
    { intros m.
      destruct (loadData_hit (set_disk m s1) envIds Hc1 Hkeys) as (l & Hrun & _).
      exists l. specialize (Hrun (log s1)).
      change (set_log (log s1) (set_disk m s1)) with (set_disk m s1) in Hrun.
      exact Hrun. }
    split; [| split; [exact Hhit | split]].
    + destruct (Js.truthy (cache s0)) eqn:Hc0.
      * pose proof (loadData_frame _ _ _ Hload) as (_ & _ & Hsame).
        simpl in Hsame. rewrite Hc0 in Hsame. destruct Hsame as [_ Hsame].
        rewrite Hsame in Hkeys.
        destruct (loadData_hit s0 envIds Hc0 Hkeys) as (l & Hrun & _).
        specialize (Hrun (log s0)).
        rewrite untyped_set_log_same, Hload in Hrun. congruence.
      * destruct (loadData_miss_run s0 Hc0) as (data & c' & l & Hrun & Hcases).
        specialize (Hrun (log s0)).
        rewrite untyped_set_log_same, Hload in Hrun.
        injection Hrun as -> ->. simpl in *.
        destruct Hcases as [[-> _] | (_ & _ & [(-> & _) | (_ & [e He] & _)])].
        -- unfold cache_unset in Hc0. congruence.
        -- done.
        -- congruence.
    + intros m. destruct (Hhit m) as [l Hrun].
      destruct (environment_entries (cache s1)) as [entries | e] eqn:Hentries.
      * eexists entries, _. split; [done |].
        rewrite (getAllEnvironments_after _ _ _ Hrun), Hentries. done.
      * unfold environment_keys, Js.keys in Hkeys.
        unfold environment_entries in Hentries.
        destruct (Js.get (cache s1) "environments") as [environments | e'];
          [| done].
        simpl in Hkeys, Hentries. by rewrite Hentries in Hkeys.
    + intros m data' Hholds.
      destruct (loadData_reads_file (set_cache Js.Undefined (set_disk m s1)) data')
        as (l & Hrun & _); [done | done |].
      specialize (Hrun (log s1)).
      eexists. split.
      * unfold clearCache. unfold mbind, Comp_bind, bind, write_cache.
        change (set_log (log s1) (set_cache Js.Undefined (set_disk m s1)))
          with (set_cache Js.Undefined (set_disk m s1)) in Hrun.
        rewrite Hrun. reflexivity.
      * done.
  - intros s r s' Hc Hwhy Hload.
    destruct (loadData_falls_back s Hc Hwhy) as (l & Hrun & _).
    destruct (Hrun (log s)) as (s1 & Hload1 & Hc1 & _ & Hpath & _).
    rewrite untyped_set_log_same, Hload in Hload1. injection Hload1 as -> <-.
    repeat split; [done |].
    intros m data Hholds.
    destruct (loadData_reads_file (set_disk m s') data) as (l' & Hrun' & _).
    { unfold cache_unset in *. simpl. congruence. }
    { simpl. by rewrite Hpath. }
    specialize (Hrun' (log s')).
    change (set_log (log s') (set_disk m s')) with (set_disk m s') in Hrun'.
    eexists. split; [exact Hrun' | done].
Qed.

(** C8.  A load changes the disk by [ensureDir] at most: the disk is as
    before, or has the one new directory that contains the persistence
    file.  A load that finds nothing cached leaves that directory in
    place whenever [ensureDir] returns.  When the file does not exist
    the load returns the empty document and the file still does not
    exist. *)
Theorem loadData_missing_file s :
  let p := persistenceFilePath s in
  let d := path_dirname p in
  (∃ r s', loadData s = (r, s')
           ∧ (disk s' = disk s
              ∨ (disk s !! d = None ∧ disk s' = <[d := Directory]> (disk s))))
  ∧ (cache_unset s →
     ensureDir_returns s →
     ∃ r s', loadData s = (r, s') ∧ disk s' !! d = Some Directory)
  ∧ (cache_unset s →
     no_file s →
     ∃ s',
       loadData s
       = (Return (Js.Object [ ("version", Js.Str "1.0");
                              ("environments", Js.Object []);
                              ("workspaceMapping", Js.Object []) ]),
          s')
       ∧ (∀ content, disk s' !! p ≠ Some (RegularFile content))
       ∧ (d ≠ p → disk s' !! p = None)
       ∧ (∀ q, q ≠ d → disk s' !! q = disk s !! q)).
Proof.
  intros p d. subst p d. split; [| split].
  - destruct (loadData s) as [r s'] eqn:Hload. exists r, s'. split; [done |].
    pose proof (loadData_frame _ _ _ Hload) as (_ & _ & Hdisk). simpl in Hdisk.
    destruct (Js.truthy (cache s)); [left; tauto |].
    destruct (is_file _); [by left |]. rewrite Hdisk.
    destruct (ensured_cases (path_dirname (persistenceFilePath s)) (disk s))
      as [-> | [Hnone ->]]; eauto.
  - intros Hc [s1 Hensure].
    destruct (loadData s) as [r s'] eqn:Hload. exists r, s'. split; [done |].
    pose proof (loadData_frame _ _ _ Hload) as (_ & _ & Hdisk). simpl in Hdisk.
    unfold cache_unset in Hc. rewrite Hc in Hdisk.
    unfold ensureDir in Hensure. unfold ensured in Hdisk.
    destruct (disk s !! path_dirname (persistenceFilePath s))
      as [[| content | e]|] eqn:Hd; simpl in Hdisk; try done.
    + by rewrite Hdisk.
    + rewrite Hdisk. apply lookup_insert_eq.
  - intros Hc Habs.
    destruct (loadData_falls_back s Hc) as (l & Hrun & _); [by left |].
    destruct (Hrun (log s)) as (s' & Hload & _ & _ & _ & Hdisk).
    rewrite untyped_set_log_same in Hload.
    exists s'. split; [exact Hload |].
    unfold no_file in Habs.
    destruct Hdisk as [-> | ->].
    + repeat split; [by rewrite Habs | done].
    + repeat split.
      * intros content Hfile. apply ensured_lookup_file in Hfile. congruence.
      * intros Hne. by rewrite ensured_lookup_ne.
      * intros q Hq. by apply ensured_lookup_ne.
Qed.

(** C9.  The code departs from the claim on a file that parses to an
    object with version tag ["1.0"] whose [environments] cannot be
    listed, such as [{"version":"1.0"}]: the load assigns the cache,
    [Object.keys(data.environments)] then throws inside the [try] block,
    and the load returns the empty fallback document with the parsed
    value left in the cache.  The next query does not read the disk: it
    throws, out of the store, whatever the disk holds then. *)
Theorem loadData_caches_what_it_cannot_list s content props e :
  cache_unset s →
  is_file (disk s !! path_dirname (persistenceFilePath s)) = false →
  disk s !! persistenceFilePath s = Some (RegularFile content) →
  Js.JSON_parse_value content = Return (Js.Object props) →
  JsObject.get "version" props = Some (Js.Str "1.0") →
  environment_keys (Js.Object props) = Throw e →
  ∃ s' l,
    loadData s
    = (Return (Js.Object [ ("version", Js.Str "1.0");
                           ("environments", Js.Object []);
                           ("workspaceMapping", Js.Object []) ]),
       s')
    ∧ cache s' = Js.Object props
    ∧ log s' = log s ++ l ∧ logs_error l = true
    ∧ ∀ m, loadData (set_disk m s') = (Throw e, set_disk m s')
           ∧ getAllEnvironments (set_disk m s') = (Throw e, set_disk m s').
Proof.
  intros Hc Hd Hfile Hparse Hversion Hkeys.
  destruct (loadData_miss s Hc) as [l Hl]. simpl in Hl.
  rewrite Hd, (ensured_lookup_Some _ _ _ _ Hfile), Hparse in Hl.
  simpl in Hl. rewrite Hversion in Hl. simpl in Hl. rewrite Hkeys in Hl.
  destruct Hl as [Hrun Herr]. specialize (Hrun (log s)).
  rewrite untyped_set_log_same in Hrun.
  eexists _, l. split; [exact Hrun |]. split; [done |]. split; [done |].
  split; [done |]. intros m.
  match goal with
  | |- loadData ?st = _ ∧ _ =>
      pose proof (loadData_hit_throws st e eq_refl Hkeys (log st)) as Hthrow;
      rewrite untyped_set_log_same in Hthrow
  end.
  split; [exact Hthrow |].
  unfold getAllEnvironments. unfold mbind, Comp_bind, bind. by rewrite Hthrow.
Qed.

(** C10.  The code departs from the claim for a key that is a name every
    object inherits, such as [toString]: when no value is stored under
    it in the [environments] of the loaded document,
    [hasEnvironment(k)] is [true] all the same, and [getEnvironment(k)]
    returns the inherited built-in, which is no record and no value of
    the document. *)
Theorem hasEnvironment_true_for_inherited_name s envId data s1 environments :
  loadData s = (Return data, s1) →
  Js.get data "environments" = Return (Js.Object environments) →
  envId ∉ JsObject.keys environments →
  inherited_name envId →
  hasEnvironment envId s = (Return true, s1)
  ∧ ∃ text, getEnvironment envId s = (Return (Js.Builtin text), s1).
Proof.
  intros Hload Henvs Hkey Hname.
  apply JsObject_get_None in Hkey.
  destruct (inherited_name_get _ Hname) as [text Hget].
  split.
  - rewrite (hasEnvironment_after _ _ _ _ Hload), Henvs. simpl.
    unfold Js.prototype_member. by rewrite Hkey, Hget.
  - exists text. rewrite (getEnvironment_after _ _ _ _ Hload), Henvs. simpl.
    unfold Js.prototype_member. by rewrite Hkey, Hget.
Qed.

End UntypedStoreClaims.

(** * The façade on run-time values *)

Section UntypedDiscovery.
Context {runtime : Js.Runtime} {host : Untyped.Host}.
Import Untyped Untyped.WslEnvironmentDiscovery.

(** [convertToPythonEnvironment] catches what its body throws. *)
Lemma convertToPythonEnvironment_returns manager info envId s :
  ∃ r l,
    convertToPythonEnvironment manager info envId s
    = (Return r, set_log (log s ++ l) s).
Proof.
  unfold convertToPythonEnvironment. unfold_untyped.
  destruct (envInfo info envId) as [i | e]; simpl.
  - destruct (createPythonEnvironmentItem i manager) as [pe | e]; simpl.
    + exists (Some pe), []. rewrite app_nil_r. by destruct s.
    + by eexists None, _.
  - by eexists None, _.
Qed.

(** The loop does not get past a record that is [null]: the log lines
    that read it stand before the inner [try]. *)
Lemma discoverLoop_throws_on_null manager wslEnvs envId :
  (envId, Js.Null) ∈ wslEnvs →
  ∀ pythonEnvs s,
    ∃ e l, discoverLoop manager wslEnvs pythonEnvs s
           = (Throw e, set_log (log s ++ l) s).
Proof.
  induction wslEnvs as [| [k info] rest IH]; intros Hin pythonEnvs s.
  { by apply elem_of_nil in Hin. }
  simpl.
  unfold mbind at 1. unfold Comp_bind at 1. unfold bind at 1.
  unfold traceInfo at 1.
  unfold mbind at 1. unfold Comp_bind at 1. unfold bind at 1.
  unfold lift at 1.
  destruct (text_of info "distro") as [distro | e] eqn:Hdistro.
  2: { by eexists _, _. }
  apply elem_of_cons in Hin as [Hhead | Hin].
  { injection Hhead as _ <-. done. }
  specialize (IH Hin).
  unfold mbind at 1. unfold Comp_bind at 1. unfold bind at 1.
  unfold traceInfo at 1.
  unfold mbind at 1. unfold Comp_bind at 1. unfold bind at 1.
  unfold lift at 1.
  destruct (text_of info "wslPath") as [wslPath | e].
  2: { eexists _, _. unfold set_log. simpl. rewrite <- app_assoc. done. }
  unfold mbind at 1. unfold Comp_bind at 1. unfold bind at 1.
  unfold traceInfo at 1.
  unfold mbind at 1. unfold Comp_bind at 1. unfold bind at 1.
  unfold lift at 1.
  destruct (workspace_text info) as [workspace | e].
  2: { eexists _, _. unfold set_log. simpl. rewrite <- !app_assoc. done. }
  unfold mbind at 1. unfold Comp_bind at 1. unfold bind at 1.
  unfold traceInfo at 1.
  unfold mbind at 1. unfold Comp_bind at 1. unfold bind at 1.
  unfold try_catch at 1.
  unfold mbind at 1. unfold Comp_bind at 1. unfold bind at 1.
  match goal with
  | |- context [convertToPythonEnvironment manager info k ?st] =>
      destruct (convertToPythonEnvironment_returns manager info k st)
        as (r & lc & ->)
  end.
  destruct r as [pe |].
  all: unfold mbind at 1; unfold Comp_bind at 1; unfold bind at 1;
       unfold traceInfo at 1; unfold mret at 1; unfold Comp_ret at 1;
       unfold ret at 1.
  all: match goal with
       | |- context [discoverLoop _ _ ?acc ?st] =>
           destruct (IH acc st) as (e & l & ->)
       end.
  all: eexists _, _; unfold set_log; simpl; rewrite <- !app_assoc; simpl;
       reflexivity.
Qed.

End UntypedDiscovery.

(** ** The façade on run-time values: what the specification says *)

Section UntypedDiscoveryClaims.
Context {runtime : Js.Runtime} {host : Untyped.Host}.
Import Untyped Untyped.WslEnvironmentDiscovery.

(** C5.  The code departs from the claim on a document in which a
    record is [null]: [info.distro] is read for the log before the inner
    [try] is entered and throws, the outer [catch] takes it, and
    [discoverEnvironments] returns the empty list, with the error logged,
    whatever the other records convert to. *)
Theorem discoverEnvironments_empty_for_null_record persistence manager s
    wslEnvs s1 envId :
  persistence_getAllEnvironments persistence (discovery_begun s)
  = (Return wslEnvs, s1) →
  (envId, Js.Null) ∈ wslEnvs →
  ∃ s' l,
    discoverEnvironments persistence manager s = (Return [], s')
    ∧ log s' = log s1 ++ l
    ∧ logs_error l = true.
Proof.
  intros Hstore Hin.
  assert (JsMap.size wslEnvs ≠ 0) as Hsize.
  { unfold JsMap.size. destruct wslEnvs; [by apply elem_of_nil in Hin | done]. }
  unfold discoverEnvironments.
  unfold mbind, mret, Comp_bind, Comp_ret, bind, ret, try_catch, traceInfo,
    traceError. simpl. unfold set_log at 1 2 3. simpl.
  rewrite <- app_assoc. simpl.
  match goal with
  | |- context [persistence_getAllEnvironments _ ?st] =>
      change st with (discovery_begun s)
  end.
  rewrite Hstore.
  rewrite decide_False by done.
  match goal with
  | |- context [discoverLoop _ _ ?acc ?st] =>
      destruct (discoverLoop_throws_on_null manager wslEnvs envId Hin acc st)
        as (e & l & ->)
  end.
  eexists _, _. split; [reflexivity |]. simpl.
  split; [rewrite <- !app_assoc; reflexivity |].
  rewrite !logs_error_app. simpl. by rewrite !orb_true_r.
Qed.

End UntypedDiscoveryClaims.

(** * The locator of a record *)

Lemma all_chars_app p a b :
  Vscode.all_chars p (a +:+ b) = Vscode.all_chars p a && Vscode.all_chars p b.
Proof.
  induction a as [| c a IH]; [done |].
  rewrite string_app_cons. simpl. rewrite IH. by rewrite andb_assoc.
Qed.

Lemma all_chars_impl (p q : Ascii.ascii → bool) s :
  (∀ c, p c = true → q c = true) →
  Vscode.all_chars p s = true → Vscode.all_chars q s = true.
Proof.
  intros Hpq. induction s as [| c s IH]; [done |]. simpl.
  intros [Hc Hs]%andb_true_iff. by rewrite (Hpq c Hc), IH.
Qed.

Lemma span_all p s :
  Vscode.all_chars p s = true → Vscode.span p s = (s, "").
Proof.
  induction s as [| c s IH]; [done |]. simpl.
  intros [-> Hs]%andb_true_iff. by rewrite (IH Hs).
Qed.

Lemma colons_app a b : colons (a +:+ b) = colons a + colons b.
Proof.
  induction a as [| c a IH]; [done |].
  rewrite string_app_cons. simpl. rewrite IH. lia.
Qed.

(** What [encodeURIComponentFast] writes for one character of a path
    has no colon. *)
Lemma encoded_path_character_no_colon c :
  colons (if Vscode.unreserved c || (true && Vscode.is_slash c)
             || (false && (Vscode.is_code 91 c || Vscode.is_code 93 c
                           || Vscode.is_colon c))
          then String c EmptyString
          else Vscode.escape c) = 0.
Proof. destruct c as [[] [] [] [] [] [] [] []]; vm_compute; reflexivity. Qed.

Lemma encoded_path_no_colon s :
  colons (Vscode.encodeURIComponentFast true false s) = 0.
Proof.
  induction s as [| c s IH]; [done |].
  cbn [Vscode.encodeURIComponentFast].
  by rewrite colons_app, encoded_path_character_no_colon, IH.
Qed.

(** A run of [%xx] starts with a percent sign. *)
Lemma encoded_run_plain c s :
  Vscode.is_percent c = false → encoded_run (String c s) = ([], String c s).
Proof.
  intros Hc. destruct s as [| h [| l rest]]; try done.
  cbn [encoded_run]. by rewrite Hc.
Qed.

Lemma utf8_percentDecode_from_plain fuel s :
  String.length s ≤ fuel →
  Vscode.all_chars (λ c, negb (Vscode.is_percent c)) s = true →
  utf8_percentDecode_from fuel s = s.
Proof.
  revert fuel. induction s as [| c s IH]; intros fuel Hfuel Hplain.
  { by destruct fuel. }
  simpl in Hplain. apply andb_true_iff in Hplain as [Hc Hs].
  apply negb_true_iff in Hc.
  destruct fuel as [| fuel]; [simpl in Hfuel; lia |].
  cbn [utf8_percentDecode_from]. rewrite (encoded_run_plain _ _ Hc).
  rewrite IH; [done | simpl in Hfuel; lia | done].
Qed.

Lemma utf8_percentDecode_plain s :
  Vscode.all_chars (λ c, negb (Vscode.is_percent c)) s = true →
  utf8_percentDecode s = s.
Proof. by apply utf8_percentDecode_from_plain. Qed.

(** The codec for the examples. *)
Definition sample_codec : Vscode.Codec :=
  {| Vscode.percentDecode := utf8_percentDecode;
     Vscode.percentDecode_plain := utf8_percentDecode_plain;
     Vscode.formatAuthority := sample_formatAuthority |}.

Section Locator.
Context {codec : Vscode.Codec}.

Lemma plain_no_percent s :
  plain s = true →
  Vscode.all_chars (λ c, negb (Vscode.is_percent c)) s = true.
Proof.
  apply all_chars_impl. intros c Hc.
  apply negb_true_iff, orb_false_iff in Hc as [_ ->]. done.
Qed.

Lemma plain_no_split s :
  plain s = true →
  Vscode.all_chars (λ c, negb (Vscode.is_question c || Vscode.is_hash c)) s
  = true.
Proof.
  apply all_chars_impl. intros c Hc.
  apply negb_true_iff, orb_false_iff in Hc as [-> _]. done.
Qed.

Lemma plain_app a b : plain (a +:+ b) = plain a && plain b.
Proof. apply all_chars_app. Qed.

Lemma double_slash_start_key distro wslPath :
  Vscode.double_slash_start (distro +:+ ":" +:+ wslPath)
  = Vscode.double_slash_start distro.
Proof.
  destruct distro as [| c1 [| c2 distro]];
    repeat (rewrite string_app_nil || rewrite string_app_cons); try done.
  - by destruct wslPath.
  - simpl. apply andb_false_r.
Qed.

(** [Uri.parse] of a key whose distribution and path are plain, and
    whose distribution does not start with two slashes. *)
Lemma parse_key distro wslPath :
  plain distro = true →
  plain wslPath = true →
  Vscode.double_slash_start distro = false →
  Vscode.parse ("wsl:" +:+ distro +:+ ":" +:+ wslPath)
  = Return (Vscode.mkUri "wsl" "" (distro +:+ ":" +:+ wslPath) "" "").
Proof.
  intros Hd Hw Hslash.
  assert (plain (distro +:+ ":" +:+ wslPath) = true) as Hrest.
  { rewrite !plain_app, Hd, Hw. done. }
  rewrite <- double_slash_start_key with (wslPath := wslPath) in Hslash.
  set (rest := distro +:+ ":" +:+ wslPath) in *.
  unfold Vscode.parse.
  change (Vscode.match_scheme ("wsl:" +:+ rest)) with ("wsl", rest).
  cbn [fst snd].
  assert (Vscode.match_authority rest = ("", rest)) as ->.
  { unfold Vscode.match_authority, Vscode.double_slash_start in *.
    destruct rest as [| c1 [| c2 r]]; try done. by rewrite Hslash. }
  cbn [fst snd]. unfold Vscode.match_path.
  rewrite (span_all _ _ (plain_no_split _ Hrest)). cbn [fst snd].
  change (Vscode.match_query "") with ("", "").
  cbn [fst snd]. change (Vscode.match_fragment "") with "".
  rewrite !(Vscode.percentDecode_plain ""), (Vscode.percentDecode_plain rest);
    [| by apply plain_no_percent | done].
  unfold Vscode.make.
  change (Vscode.schemeFix "wsl") with "wsl".
  change (Vscode.referenceResolution "wsl" rest) with rest.
  change (Vscode.schemePattern "wsl") with true.
  rewrite Hslash. cbn [negb]. rewrite !andb_false_r. cbn [andb]. done.
Qed.

End Locator.

Section LocatorClaims.
Context {codec : Vscode.Codec}.

(** C4, as amended.  The identity key the façade makes for a record is
    ["wsl:" + distro + ":" + interpreter path], and an item that
    [convertToPythonEnvironment] returns for this key was made by the
    host from an [envInfo] whose [environmentPath] is [Uri.parse] of
    exactly this string.  When the distribution and the path have no
    [?], [#] or [%] and the distribution does not start with two
    slashes, that locator has the scheme [wsl] and the path
    [distro + ":" + interpreter path], so that the key is its scheme, a
    colon and its path; the string form of the locator is another
    string, in which the colon of the path is percent-encoded. *)
Theorem generateEnvId_is_the_locator
    (PythonEnvironment EnvironmentManager : Type)
    (create : Api.PythonEnvironmentInfo Vscode.Uri → EnvironmentManager
              → Result PythonEnvironment)
    (manager : EnvironmentManager) (info : WslEnvironmentInfo) :
  let host := vscode_host PythonEnvironment EnvironmentManager create in
  let key := WslEnvironmentDiscovery.generateEnvId info in
  key = "wsl:" +:+ distro info +:+ ":" +:+ wslPath info
  ∧ (distro info = "Ubuntu-22.04" →
     wslPath info = "/mnt/c/w/.venv/bin/python" →
     key = "wsl:Ubuntu-22.04:/mnt/c/w/.venv/bin/python")
  ∧ (∀ s pythonEnv s',
       WslEnvironmentDiscovery.convertToPythonEnvironment (host := host)
         manager info key s
       = (Return (Some pythonEnv), s') →
       ∃ locator,
         Vscode.parse key = Return locator
         ∧ create (WslEnvironmentDiscovery.envInfo (host := host) info locator)
             manager
           = Return pythonEnv
         ∧ Api.environmentPath
             (WslEnvironmentDiscovery.envInfo (host := host) info locator)
           = locator)
  ∧ (plain (distro info) = true →
     plain (wslPath info) = true →
     Vscode.double_slash_start (distro info) = false →
     ∃ locator,
       Vscode.parse key = Return locator
       ∧ Vscode.scheme locator = "wsl"
       ∧ Vscode.authority locator = ""
       ∧ Vscode.path locator = distro info +:+ ":" +:+ wslPath info
       ∧ Vscode.query locator = ""
       ∧ Vscode.fragment locator = ""
       ∧ Vscode.scheme locator +:+ ":" +:+ Vscode.path locator = key
       ∧ Vscode.toString false locator ≠ key).
Proof.
  intros host key. subst key. split; [reflexivity |]. split; [| split].
  - intros Hd Hp. unfold WslEnvironmentDiscovery.generateEnvId.
    by rewrite Hd, Hp.
  - intros s pythonEnv s' Hrun.
    destruct (convertToPythonEnvironment_run (host := host) manager info
                (WslEnvironmentDiscovery.generateEnvId info))
      as (l & Hconv & _).
    rewrite Hconv in Hrun. injection Hrun as Hsome _.
    unfold converted in Hsome.
    change (@Uri_parse host) with Vscode.parse in Hsome.
    destruct (Vscode.parse _) as [locator | e] eqn:Hparse; [| done].
    exists locator. split; [done |]. split; [| done].
    change (@createPythonEnvironmentItem host) with create in Hsome.
    match type of Hsome with
    | match ?x with _ => _ end = _ => destruct x as [pe | e] eqn:Hitem
    end; [| done].
    by injection Hsome as ->.
  - intros Hd Hw Hslash.
    eexists. split; [by apply parse_key |].
    repeat (split; [reflexivity |]).
    unfold WslEnvironmentDiscovery.generateEnvId.
    intros Heq. apply (f_equal colons) in Heq.
    unfold Vscode.toString in Heq. cbn [Vscode.scheme Vscode.authority
      Vscode.path Vscode.query Vscode.fragment] in Heq.
    assert (distro info +:+ ":" +:+ wslPath info ≠ "") as Hne.
    { by destruct (distro info). }
    rewrite (decide_False (P := _ +:+ _ = "")) in Heq by done.
    change (decide ("wsl" = "")) with
      (@right ("wsl" = "") ("wsl" ≠ "") (ltac:(done))) in Heq.
    simpl in Heq.
    rewrite !colons_app, encoded_path_no_colon in Heq. simpl in Heq. lia.
Qed.

End LocatorClaims.

(** * The two readings agree on documents of the declared shape *)





Section Agreement.
Context {platform : Platform} {runtime : Js.Runtime}.











End Agreement.

Section AgreementExtras.
Context {platform : Platform} {runtime : Js.Runtime}.




End AgreementExtras.

(** * The properties at the sample data *)

#[local] Existing Instance sample_platform.
#[local] Existing Instance sample_host.

(** The sample host accepts the first key of [sample_data] and refuses
    the second. *)
Example sample_converted :
  omap (λ kv, converted tt kv.2 kv.1) (environments sample_data)
  = [ WslEnvironmentDiscovery.envInfo sample_venv
        "wsl:Ubuntu-22.04:/mnt/c/w/.venv/bin/python" ].
Proof. reflexivity. Qed.

(** The conversion example of the specification: base directory
    [/mnt/c/proj/.venv]. *)
Example buildExecutionInfo_proj :
  WslEnvironmentDiscovery.buildExecutionInfo sample_proj
  = {| Api.run :=
         {| Api.executable := "wsl.exe";
            Api.args := ["-d"; "Debian"; "--"; "/mnt/c/proj/.venv/bin/python"] |};
       Api.activation :=
         Some [ {| Api.executable := "wsl.exe";
                   Api.args := ["-d"; "Debian"; "--"; "bash"; "-c";
                                "source " +:+ DQ +:+ "/mnt/c/proj/.venv/bin/activate"
                                +:+ DQ] |} ];
       Api.shellActivation :=
         Some [ ("bash", [ {| Api.executable := "source";
                              Api.args := ["/mnt/c/proj/.venv/bin/activate"] |} ]);
                ("zsh", [ {| Api.executable := "source";
                             Api.args := ["/mnt/c/proj/.venv/bin/activate"] |} ]);
                ("fish", [ {| Api.executable := "source";
                              Api.args := ["/mnt/c/proj/.venv/bin/activate.fish"] |} ]);
                ("pwsh", [ {| Api.executable := ".";
                              Api.args := ["/mnt/c/proj/.venv/bin/Activate.ps1"] |} ]);
                ("unknown", [ {| Api.executable := "source";
                                 Api.args := ["/mnt/c/proj/.venv/bin/activate"] |} ]) ];
       Api.deactivation :=
         Some [ {| Api.executable := "deactivate"; Api.args := [] |} ] |}.
Proof. reflexivity. Qed.

Example buildExecutionInfo_system :
  WslEnvironmentDiscovery.buildExecutionInfo sample_system
  = {| Api.run :=
         {| Api.executable := "wsl.exe";
            Api.args := ["-d"; "Ubuntu-22.04"; "--"; "/usr/bin/python3"] |};
       Api.activation := None;
       Api.shellActivation := None;
       Api.deactivation := None |}.
Proof. reflexivity. Qed.

(** The workspace of the sample file lists two keys, and one of them has
    no record. *)
Example getWorkspaceEnvironments_sample :
  (WslPersistenceManager.getWorkspaceEnvironments "c:\w" sample_unloaded).1
  = Return [sample_venv]
  ∧ (WslPersistenceManager.getWorkspaceEnvironments "d:\other" sample_unloaded).1
    = Return []
  ∧ (WslPersistenceManager.getWorkspaceEnvironments (platform := sample_win32)
       "C:\W" sample_unloaded).1
    = Return [sample_venv]
  ∧ (WslPersistenceManager.getWorkspaceEnvironments "C:\W" sample_unloaded).1
    = Return [].
Proof. repeat split; vm_compute; reflexivity. Qed.

(** A file of another version reads as empty, and nothing is cached. *)
Example getAllEnvironments_old_version :
  let s := set_disk {[ "/data" := Directory;
                       "/data/wsl-environments.json" := RegularFile "old" ]}
             sample_fresh in
  (WslPersistenceManager.getAllEnvironments s).1 = Return []
  ∧ cache (WslPersistenceManager.getAllEnvironments s).2 = None.
Proof. split; vm_compute; reflexivity. Qed.

(** C2 at the sample file. *)
Lemma loadData_version_gate_witness :
  cache sample_unloaded = None
  ∧ file_holds (disk sample_unloaded) (persistenceFilePath sample_unloaded)
      sample_data
  ∧ version sample_data = "1.0"
  ∧ ∃ s', WslPersistenceManager.loadData sample_unloaded = (Return sample_data, s')
          ∧ WslPersistenceManager.getAllEnvironments sample_unloaded
            = (Return (environments sample_data), s').
Proof.
  assert (file_holds (disk sample_unloaded) (persistenceFilePath sample_unloaded)
            sample_data) as Hholds.
  { split; [by vm_compute |]. exists "current". split; by vm_compute. }
  split; [reflexivity |]. split; [exact Hholds |]. split; [reflexivity |].
  apply (loadData_version_gate sample_unloaded sample_data eq_refl Hholds).
  reflexivity.
Defined.

(** C1 at a [venv] record and at a [system] record. *)
Lemma buildExecutionInfo_by_kind_witness :
  type sample_venv = venv
  ∧ Api.deactivation (WslEnvironmentDiscovery.buildExecutionInfo sample_venv)
    = Some [ {| Api.executable := "deactivate"; Api.args := [] |} ]
  ∧ type sample_system ≠ venv
  ∧ Api.shellActivation (WslEnvironmentDiscovery.buildExecutionInfo sample_system)
    = None.
Proof.
  split; [reflexivity |]. split.
  - apply (buildExecutionInfo_by_kind sample_venv). reflexivity.
  - split; [discriminate |].
    apply (buildExecutionInfo_by_kind sample_system). discriminate.
Defined.

(** A store that throws: the façade returns the empty list. *)
Example discoverEnvironments_failing_store :
  ∃ s',
    WslEnvironmentDiscovery.discoverEnvironments failing_store tt sample_fresh
    = (Return [], s').
Proof.
  pose proof (@discoverEnvironments_run sample_host failing_store tt sample_fresh)
    as Hd.
  simpl in Hd. destruct Hd as (l & Hrun & _). eexists. exact Hrun.
Qed.

(** * The further properties at the sample data *)

#[local] Existing Instance sample_nodeos.
#[local] Existing Instance sample_registration.

(** Off Windows the two are different workspaces. *)
Example normalizePath_case_sensitive :
  WslPersistenceManager.normalizePath "C:\W"
  ≠ WslPersistenceManager.normalizePath "c:\w".
Proof. vm_compute. discriminate. Qed.

(** X11 over an empty disk. *)
Lemma discoverEnvironments_without_file_witness :
  cache sample_fresh = None
  ∧ file_absent sample_fresh
  ∧ ∃ s' l,
      WslEnvironmentDiscovery.discoverEnvironments WslPersistenceManager_object
        tt sample_fresh
      = (Return [], s')
      ∧ cache s' = None
      ∧ log s' = log sample_fresh ++ l
      ∧ (load_throws sample_fresh → logs_error l = true).
Proof.
  split; [reflexivity |]. split; [reflexivity |].
  apply (@discoverEnvironments_without_file sample_platform sample_host tt
           sample_fresh eq_refl).
  left. reflexivity.
Defined.

(** X12 at two records of one interpreter. *)
Lemma generateEnvId_injective_witness :
  colon_free (distro sample_venv) = true
  ∧ colon_free (distro sample_venv_renamed) = true
  ∧ WslEnvironmentDiscovery.generateEnvId sample_venv
    = WslEnvironmentDiscovery.generateEnvId sample_venv_renamed
  ∧ distro sample_venv = distro sample_venv_renamed
  ∧ wslPath sample_venv = wslPath sample_venv_renamed.
Proof.
  split; [reflexivity |]. split; [reflexivity |]. split; [reflexivity |].
  apply (generateEnvId_injective sample_venv sample_venv_renamed); reflexivity.
Defined.

(** With a colon in the distribution name two different records share a
    key. *)
Example generateEnvId_colon_collision :
  WslEnvironmentDiscovery.generateEnvId sample_colon_left
  = WslEnvironmentDiscovery.generateEnvId sample_colon_right
  ∧ distro sample_colon_left ≠ distro sample_colon_right.
Proof. split; [reflexivity | discriminate]. Qed.

(** X15 with the sample file in the host's storage directory. *)
Lemma registerWslFeatures_returns_witness :
  Uri_joinPath context_globalStorageUri ["wsl-environments.json"]
  = Return ("/data/wsl-environments.json" : Uri (Host := sample_host))
  ∧ ∃ s' l,
      registerWslFeatures sample_unloaded = (Return tt, s')
      ∧ persistenceFilePath s' = "/data/wsl-environments.json"
      ∧ log s' = log sample_unloaded ++ l.
Proof.
  split; [reflexivity |].
  destruct (@registerWslFeatures_returns sample_platform sample_nodeos
              sample_host sample_registration sample_unloaded
              "/data/wsl-environments.json" eq_refl)
    as (s' & l & Hrun & Hpath & Hlog & _).
  exists s', l. split; [exact Hrun |]. split; [exact Hpath | exact Hlog].
Defined.

(** The registration over the sample file caches the document. *)
Example registerWslFeatures_sample :
  (registerWslFeatures sample_fresh).1 = Return tt
  ∧ cache (registerWslFeatures sample_unloaded).2 = Some sample_data
  ∧ cache (registerWslFeatures sample_fresh).2 = None.
Proof. repeat split; vm_compute; reflexivity. Qed.

(** X16 over an empty disk. *)
Lemma facade_getWorkspaceEnvironments_without_file_witness :
  cache sample_fresh = None
  ∧ file_absent sample_fresh
  ∧ ∃ s' l,
      WslEnvironmentDiscovery.getWorkspaceEnvironments
        WslPersistenceManager_object tt "c:\w" sample_fresh
      = (Return [], s')
      ∧ cache s' = None
      ∧ log s' = log sample_fresh ++ l
      ∧ (load_throws sample_fresh → logs_error l = true).
Proof.
  split; [reflexivity |]. split; [reflexivity |].
  apply (@facade_getWorkspaceEnvironments_without_file sample_platform
           sample_host tt "c:\w" sample_fresh eq_refl).
  left. reflexivity.
Defined.

(** The constructor on each kind of argument. *)
Example constructor_sample :
  (WslPersistenceManager_constructor (Some "/x/envs.json") sample_unloaded).2
  = {| persistenceFilePath := "/x/envs.json"; cache := None;
       disk := sample_disk; log := [] |}
  ∧ persistenceFilePath (WslPersistenceManager_constructor None sample_unloaded).2
    = "/home/u/.local/share/vscode-python/wsl-environments.json"
  ∧ persistenceFilePath
      (WslPersistenceManager_constructor (Some "") sample_unloaded).2
    = "/home/u/.local/share/vscode-python/wsl-environments.json".
Proof. repeat split; vm_compute; reflexivity. Qed.

(** * Instances on run-time values *)

#[local] Existing Instance sample_runtime.
#[local] Existing Instance sample_untyped_host.

(** The value the sample file parses to is the sample document. *)
Example getAllEnvironments_current :
  (Untyped.WslPersistenceManager.getAllEnvironments (untyped_with_file "current")).1
  = Return [ ("wsl:Ubuntu-22.04:/mnt/c/w/.venv/bin/python",
              WslEnvironmentInfo_value sample_venv);
             ("not a locator", WslEnvironmentInfo_value sample_system) ].
Proof. vm_compute. reflexivity. Qed.

Example getWorkspaceEnvironments_current :
  (Untyped.WslPersistenceManager.getWorkspaceEnvironments "c:\w"
     (untyped_with_file "current")).1
  = Return [ WslEnvironmentInfo_value sample_venv ].
Proof. vm_compute. reflexivity. Qed.

(** C3 at the path [constructor] over the sample file, whose mapping has
    the one key [c:\w]: the [TypeError] leaves the store. *)
Lemma getWorkspaceEnvironments_throws_for_inherited_name_witness :
  Untyped.WslPersistenceManager.normalizePath "constructor" = "constructor"
  ∧ Untyped.WslPersistenceManager.getWorkspaceEnvironments "constructor"
      (untyped_with_file "current")
    ≠ (Return [],
       (Untyped.WslPersistenceManager.getWorkspaceEnvironments "constructor"
          (untyped_with_file "current")).2)
  ∧ ∃ e s',
      Untyped.WslPersistenceManager.getWorkspaceEnvironments "constructor"
        (untyped_with_file "current")
      = (Throw e, s').
Proof.
  assert (∃ e s',
            Untyped.WslPersistenceManager.getWorkspaceEnvironments "constructor"
              (untyped_with_file "current")
            = (Throw e, s')) as Hthrows.
  { eapply (getWorkspaceEnvironments_throws_for_inherited_name
              (untyped_with_file "current") "constructor"
              (WslPersistenceData_value sample_data) _
              [ ("c:\w",
                 Js.Array [ Js.Str "wsl:Ubuntu-22.04:/mnt/c/w/.venv/bin/python";
                            Js.Str "wsl:gone" ]) ]).
    - vm_compute. reflexivity.
    - reflexivity.
    - compute_done.
    - compute_done. }
  split; [reflexivity |]. split; [| exact Hthrows].
  destruct Hthrows as (e & s' & ->). discriminate.
Defined.

Example getWorkspaceEnvironments_constructor :
  (Untyped.WslPersistenceManager.getWorkspaceEnvironments "constructor"
     untyped_fresh).1
  = Throw (Js.TypeError "envIds is not iterable").
Proof. vm_compute. reflexivity. Qed.

(** The first record of the sample file with a [null] record converts
    when it stands alone. *)
Example discoverEnvironments_first_record_alone :
  ∃ item s',
    Untyped.WslEnvironmentDiscovery.discoverEnvironments
      {| Untyped.persistence_getAllEnvironments :=
           Untyped.ret [ ("wsl:Ubuntu-22.04:/mnt/c/w/.venv/bin/python",
                          WslEnvironmentInfo_value sample_venv) ];
         Untyped.persistence_getWorkspaceEnvironments := λ _, Untyped.ret [] |}
      tt untyped_fresh
    = (Return [item], s').
Proof. eexists _, _. vm_compute. reflexivity. Qed.

(** C5 over a file whose second record is [null]: no item is returned,
    although the first record converts. *)
Lemma discoverEnvironments_empty_for_null_record_witness :
  ∃ s',
    Untyped.WslEnvironmentDiscovery.discoverEnvironments
      Untyped.WslPersistenceManager_object tt (untyped_with_file "null record")
    = (Return [], s').
Proof.
  pose proof (discoverEnvironments_empty_for_null_record
                Untyped.WslPersistenceManager_object tt
                (untyped_with_file "null record")) as Hd.
  destruct (Untyped.persistence_getAllEnvironments
              Untyped.WslPersistenceManager_object
              (discovery_begun (untyped_with_file "null record")))
    as [[wslEnvs | e] s1] eqn:Hstore;
    vm_compute in Hstore; [| discriminate].
  injection Hstore as <- _.
  destruct (Hd _ s1 "wsl:Ubuntu-22.04:/usr/bin/python3" eq_refl)
    as (s' & l & Hrun & _).
  - apply elem_of_cons. right. apply elem_of_cons. by left.
  - by exists s'.
Defined.



(** C7, as amended, at the sample file, and over an empty disk on which
    the file appears after the first load. *)
Lemma cached_until_cleared_witness :
  let run := Untyped.WslPersistenceManager.loadData (untyped_with_file "current") in
  let miss := Untyped.WslPersistenceManager.loadData untyped_fresh in
  Untyped.cache run.2 = WslPersistenceData_value sample_data
  ∧ run.1 = Return (WslPersistenceData_value sample_data)
  ∧ (∀ m, ∃ l,
       Untyped.WslPersistenceManager.loadData (Untyped.set_disk m run.2)
       = (Return (Untyped.cache run.2),
          Untyped.set_log (Untyped.log run.2 ++ l) (Untyped.set_disk m run.2)))
  ∧ Untyped.cache miss.2 = Js.Undefined
  ∧ ∃ s'',
      Untyped.WslPersistenceManager.loadData
        (Untyped.set_disk (Untyped.disk (untyped_with_file "current")) miss.2)
      = (Return (WslPersistenceData_value sample_data), s'')
      ∧ Untyped.cache s'' = WslPersistenceData_value sample_data.
Proof.
  intros run miss.
  destruct (@cached_until_cleared sample_platform sample_runtime)
    as [Hcached Hfallback].
  destruct (Hcached (untyped_with_file "current") run.1 run.2
              (surjective_pairing run) eq_refl)
    as (Hr & Hhit & _).
  { eexists. vm_compute. reflexivity. }
  destruct (Hfallback untyped_fresh miss.1 miss.2 eq_refl (or_introl eq_refl)
              (surjective_pairing miss))
    as (_ & Hc & Hnext).
  split; [reflexivity |]. split; [exact Hr |]. split; [exact Hhit |].
  split; [exact Hc |].
  apply Hnext.
  split; [by vm_compute |].
  split; [exists "current"; split; by vm_compute |].
  split; [eexists; split; by vm_compute |].
  eexists. vm_compute. reflexivity.
Defined.

(** C7 as stated fails: the first query finds no file and caches
    nothing, the file appears, and the second query returns its
    records. *)
Lemma every_load_is_cached_fails : ¬ every_load_is_cached.
Proof.
  intros Hclaim.
  pose (run1 := Untyped.WslPersistenceManager.getAllEnvironments untyped_fresh).
  pose (run2 := Untyped.WslPersistenceManager.getAllEnvironments
                  (Untyped.set_disk (Untyped.disk (untyped_with_file "current"))
                     run1.2)).
  specialize (Hclaim untyped_fresh run1.1 run1.2 eq_refl
                (surjective_pairing run1)
                (Untyped.disk (untyped_with_file "current")) run2.1 run2.2
                (surjective_pairing run2)).
  vm_compute in Hclaim. discriminate.
Qed.

(** C8 over an empty disk: the directory is made, the file is not. *)
Lemma loadData_missing_file_witness :
  cache_unset untyped_fresh
  ∧ ensureDir_returns untyped_fresh
  ∧ no_file untyped_fresh
  ∧ (∃ r s',
       Untyped.WslPersistenceManager.loadData untyped_fresh = (r, s')
       ∧ Untyped.disk s' !! "/data" = Some Directory)
  ∧ ∃ s',
      Untyped.WslPersistenceManager.loadData untyped_fresh
      = (Return (Js.Object [ ("version", Js.Str "1.0");
                             ("environments", Js.Object []);
                             ("workspaceMapping", Js.Object []) ]),
         s')
      ∧ (∀ content,
           Untyped.disk s' !! "/data/wsl-environments.json"
           ≠ Some (RegularFile content)).
Proof.
  assert (ensureDir_returns untyped_fresh) as Hensure.
  { eexists. vm_compute. reflexivity. }
  destruct (loadData_missing_file untyped_fresh) as (_ & Hdir & Hfile).
  destruct (Hfile eq_refl eq_refl) as (s' & Hrun & Hno & _).
  split; [reflexivity |]. split; [exact Hensure |]. split; [reflexivity |].
  split; [exact (Hdir eq_refl Hensure) |].
  exists s'. split; [exact Hrun | exact Hno].
Defined.

(** C9 at the file [{"version":"1.0"}]: the fallback document is
    returned, the parsed value stays in the cache, and the next query
    throws. *)
Lemma loadData_caches_what_it_cannot_list_witness :
  Js.JSON_parse_value "version only" = Return sample_version_only
  ∧ ∃ s' e,
      Untyped.WslPersistenceManager.loadData (untyped_with_file "version only")
      = (Return Untyped.WslPersistenceManager.createEmptyData, s')
      ∧ Untyped.cache s' = sample_version_only
      ∧ Untyped.WslPersistenceManager.getAllEnvironments s'
        = (Throw e, s').
Proof.
  split; [reflexivity |].
  destruct (loadData_caches_what_it_cannot_list
              (untyped_with_file "version only") "version only"
              [ ("version", Js.Str "1.0") ]
              (Js.TypeError "Cannot convert undefined or null to object"))
    as (s' & l & Hrun & Hc & Hlog & _ & Hnext);
    [reflexivity | reflexivity | reflexivity | reflexivity | reflexivity
    | reflexivity |].
  exists s', (Js.TypeError "Cannot convert undefined or null to object").
  split; [exact Hrun |]. split; [exact Hc |].
  destruct (Hnext (Untyped.disk s')) as [_ Hall].
  by destruct s'.
Defined.

(** C10 at the key [toString] over the sample file, which has no record
    under that key. *)
Lemma hasEnvironment_true_for_inherited_name_witness :
  (Untyped.WslPersistenceManager.hasEnvironment "toString"
     (untyped_with_file "current")).1
  = Return true
  ∧ (Untyped.WslPersistenceManager.getEnvironment "toString"
       (untyped_with_file "current")).1
    = Return (Js.Builtin "function toString() { [native code] }")
  ∧ (Untyped.WslPersistenceManager.getAllEnvironments
       (untyped_with_file "current")).1
    = Return [ ("wsl:Ubuntu-22.04:/mnt/c/w/.venv/bin/python",
                WslEnvironmentInfo_value sample_venv);
               ("not a locator", WslEnvironmentInfo_value sample_system) ].
Proof.
  destruct (hasEnvironment_true_for_inherited_name
              (untyped_with_file "current") "toString"
              (WslPersistenceData_value sample_data)
              (Untyped.WslPersistenceManager.loadData
                 (untyped_with_file "current")).2
              [ ("wsl:Ubuntu-22.04:/mnt/c/w/.venv/bin/python",
                 WslEnvironmentInfo_value sample_venv);
                ("not a locator", WslEnvironmentInfo_value sample_system) ])
    as (Hhas & text & Hget);
    [vm_compute; reflexivity | reflexivity | compute_done | compute_done |].
  rewrite Hhas, Hget. split; [reflexivity |]. split; [| vm_compute; reflexivity].
  vm_compute in Hget. by injection Hget as <-.
Defined.

(** * Instances for the locator *)

#[local] Existing Instance sample_codec.

(** The locator of the specification's example, and its two string
    forms. *)
Example parse_sample_key :
  Vscode.parse "wsl:Ubuntu-22.04:/mnt/c/w/.venv/bin/python"
  = Return (Vscode.mkUri "wsl" "" "Ubuntu-22.04:/mnt/c/w/.venv/bin/python" "" "").
Proof. vm_compute. reflexivity. Qed.

Example toString_sample_locator :
  Vscode.toString false
    (Vscode.mkUri "wsl" "" "Ubuntu-22.04:/mnt/c/w/.venv/bin/python" "" "")
  = "wsl:Ubuntu-22.04%3A/mnt/c/w/.venv/bin/python"
  ∧ Vscode.toString true
      (Vscode.mkUri "wsl" "" "Ubuntu-22.04:/mnt/c/w/.venv/bin/python" "" "")
    = "wsl:Ubuntu-22.04:/mnt/c/w/.venv/bin/python".
Proof. split; vm_compute; reflexivity. Qed.

(** Two keys that differ in a percent escape have the same locator. *)
Example parse_decodes_the_key :
  Vscode.parse "wsl:Ubuntu:/opt/%41/python"
  = Vscode.parse "wsl:Ubuntu:/opt/A/python".
Proof. vm_compute. reflexivity. Qed.

(** C4, as amended, at the record of the specification's example. *)
Lemma generateEnvId_is_the_locator_witness :
  WslEnvironmentDiscovery.generateEnvId sample_venv
  = "wsl:Ubuntu-22.04:/mnt/c/w/.venv/bin/python"
  ∧ ∃ locator,
      Vscode.parse (WslEnvironmentDiscovery.generateEnvId sample_venv)
      = Return locator
      ∧ Vscode.scheme locator = "wsl"
      ∧ Vscode.path locator = "Ubuntu-22.04:/mnt/c/w/.venv/bin/python"
      ∧ Vscode.toString false locator
        ≠ WslEnvironmentDiscovery.generateEnvId sample_venv.
Proof.
  destruct (generateEnvId_is_the_locator
              (Api.PythonEnvironmentInfo Vscode.Uri) unit (λ info _, Return info)
              tt sample_venv)
    as (_ & Hexample & _ & Hplain).
  split; [by apply Hexample |].
  destruct Hplain as (locator & Hparse & Hscheme & _ & Hpath & _ & _ & _ & Hne);
    [reflexivity | reflexivity | reflexivity |].
  exists locator. by repeat split.
Defined.

(** C4 as stated fails at the record of the specification's example:
    the string form of the locator has [%3A] where the key has the
    colon after the distribution. *)
Lemma locator_text_is_key_fails : ¬ locator_text_is_key.
Proof.
  intros Hclaim.
  specialize (Hclaim sample_venv _ parse_sample_key).
  vm_compute in Hclaim. discriminate.
Qed.

(** * Instances for the agreement of the two readings *)




